(** * SQLModel: class synthesis, type mapping and attribute writes

    A shallow embedding of the parts of [sqlmodel/main.py],
    [sqlmodel/_compat.py] and [sqlmodel/compat.py] that decide how a field
    descriptor becomes a storage column, how a relationship annotation is
    resolved to its target, how the field builder rejects conflicting
    options, and how attribute writes and keyword construction are routed
    between the validation layer (pydantic) and the mapping layer
    (SQLAlchemy).

    Python objects are modelled by the data the code reads from them.
    Dictionaries whose iteration order is irrelevant are [gmap]s, ordered
    dictionaries that are iterated are association lists, exceptions are the
    left summand of [result].  Where the source branches on
    [IS_PYDANTIC_V2] the embedding follows the pydantic-2 branch unless the
    flag is an explicit argument.

    The two libraries appear in three ways.  What the code only passes on
    is a record of the arguments ([Column], [relationship]).  What the code
    depends on and what is fixed by the library is written out in
    [Module pydantic] (how a field descriptor stores its default and its
    constraints, which fields a class inherits, what a private name is).
    What depends on the models and the data at hand (validation, the
    instrumentation of attributes) is a parameter of the definitions. *)

From stdpp Require Import base strings list gmap.
From Stdlib Require Import ZArith Ascii.

Set Warnings "-register-all".

Local Open Scope Z_scope.
Local Open Scope string_scope.
Local Open Scope list_scope.

(** ** Python values, exceptions *)

(** [x is Undefined] / [x is not Undefined]: an attribute or argument that
    may hold pydantic's [Undefined] sentinel instead of a value. *)
Inductive undefinable (A : Type) : Type :=
| Undefined
| Given (a : A).
Arguments Undefined {A}.
Arguments Given {A} a.

Definition is_Undefined {A} (x : undefinable A) : bool :=
  match x with Undefined => true | Given _ => false end.

Definition is_not_Undefined {A} (x : undefinable A) : bool :=
  negb (is_Undefined x).

Global Instance undefinable_eq_dec {A} `{EqDecision A} :
  EqDecision (undefinable A).
Proof. solve_decision. Defined.

(** Values that appear as defaults, keyword values and attribute values. *)
Inductive pyval :=
| PyNone
| PyEllipsis
| PyBool (b : bool)
| PyInt (z : Z)
| PyStr (s : string)
| PyCallable (name : string)
| PyObject (repr : string).

Global Instance pyval_eq_dec : EqDecision pyval.
Proof. solve_decision. Defined.

(** Python truthiness, as used by [if x:] and [not x]. *)
Definition truthy (v : pyval) : bool :=
  match v with
  | PyNone => false
  | PyEllipsis => true
  | PyBool b => b
  | PyInt z => negb (z =? 0)%Z
  | PyStr s => negb (bool_decide (s = ""))
  | PyCallable _ => true
  | PyObject _ => true
  end.

Inductive validation_error_item := ErrorItem (loc : string) (msg : string).

Global Instance validation_error_item_eq_dec : EqDecision validation_error_item.
Proof. solve_decision. Defined.

Inductive exn :=
| RuntimeError (msg : string)
| ValueError (msg : string)
| TypeError (msg : string)
| AssertionError
| IndexError
| KeyError (key : string)
| RecursionError
| NoInspectionAvailable
| ValidationError (errors : list validation_error_item).

Global Instance exn_eq_dec : EqDecision exn.
Proof. solve_decision. Defined.

(** A computation that returns or raises. *)
Definition result (A : Type) : Type := exn + A.

Definition raise {A} (e : exn) : result A := inl e.

Global Instance result_ret : MRet result := λ A x, inr x.
Global Instance result_bind : MBind result := λ A B f m,
  match m with inl e => inl e | inr a => f a end.

(** [if cond: raise e]. *)
Definition raise_if (cond : bool) (e : exn) : result unit :=
  if cond then raise e else mret tt.

Definition raises {A} (r : result A) : bool :=
  match r with inl _ => true | inr _ => false end.

(** ** Classes used as field types *)

(** The library classes the type mapping tests with [issubclass]. *)
Inductive builtin :=
| Enum | str | float | bool_ | int | datetime | date | timedelta | time
| bytes | Decimal | IPv4Address | IPv4Network | IPv6Address | IPv6Network
| Path | UUID | list_ | dict_ | object_.

Global Instance builtin_eq_dec : EqDecision builtin.
Proof. solve_decision. Defined.

(** A class object: the module it was defined in, its name and the library
    classes found in its MRO (for [bool] that is [bool; int], for a
    [class Color(str, Enum)] it is [str; Enum]).  Classes are defined at the
    top level of their module, so [__qualname__] is [__name__].  Class
    identity ([is]) is equality of this record. *)
Record PyClass := mkClass {
  __module__ : string;
  __name__ : string;
  __mro__ : list builtin;
}.

Global Instance PyClass_eq_dec : EqDecision PyClass.
Proof. solve_decision. Defined.

Definition issubclass (c : PyClass) (b : builtin) : bool :=
  bool_decide (b ∈ __mro__ c).

(** The first [issubclass(type_, ...)] of a chain: Python raises
    [TypeError] unless [type_] is a class. *)
Definition issubclass_arg1_error : exn :=
  TypeError "issubclass() arg 1 must be a class".

Definition NoneType : PyClass := mkClass "builtins" "NoneType" [object_].
Definition UnionType : PyClass := mkClass "types" "UnionType" [object_].
Definition list_class : PyClass := mkClass "builtins" "list" [list_; object_].
Definition dict_class : PyClass := mkClass "builtins" "dict" [dict_; object_].
Definition Mapped : PyClass :=
  mkClass "sqlalchemy.orm.base" "Mapped" [object_].

(** [repr] of a class, as interpolated by an f-string: the name is
    qualified by the module unless the module is [builtins]. *)
Definition class_repr (c : PyClass) : string :=
  if bool_decide (__module__ c = "builtins")
  then "<class '" +:+ __name__ c +:+ "'>"
  else "<class '" +:+ __module__ c +:+ "." +:+ __name__ c +:+ "'>".

(** ** Annotations *)

(** The annotation objects the code inspects with [get_origin] and
    [get_args]: the value [None], a class, a [ForwardRef], a plain string,
    the bare special form [typing.Union], [typing.Union[...]], and any
    other subscripted generic by its origin class: [List[X]] is
    [AGeneric list_class [X]], a PEP 604 union [X | Y] is
    [AGeneric UnionType [X; Y]]. *)
Inductive Annotation :=
| ANone
| AClass (c : PyClass)
| AForwardRef (forward_arg : string)
| AStr (s : string)
| ATypingUnion
| AUnion (args : list Annotation)
| AGeneric (origin : PyClass) (args : list Annotation).

Definition ANoneType : Annotation := AClass NoneType.
Definition Optional (a : Annotation) : Annotation := AUnion [a; ANoneType].
Definition List (a : Annotation) : Annotation := AGeneric list_class [a].
Definition Union604 (args : list Annotation) : Annotation :=
  AGeneric UnionType args.

(** [typing.get_origin]: [None] for anything that is not a subscripted
    generic or union. *)
Definition get_origin (a : Annotation) : option Annotation :=
  match a with
  | AUnion _ => Some ATypingUnion
  | AGeneric o _ => Some (AClass o)
  | _ => None
  end.

(** [typing.get_args]. *)
Definition get_args (a : Annotation) : list Annotation :=
  match a with
  | AUnion args | AGeneric _ args => args
  | _ => []
  end.

(** [x is C] for a class [C]. *)
Definition is_class (x : Annotation) (c : PyClass) : bool :=
  match x with
  | AClass c' => bool_decide (c' = c)
  | _ => false
  end.

Definition is_NoneType (x : Annotation) : bool := is_class x NoneType.

(** [seq[i]] on a tuple or list: raises [IndexError] out of range. *)
Definition getitem {A} (l : list A) (i : nat) : result A :=
  match l !! i with
  | Some x => mret x
  | None => raise IndexError
  end.

(** ** Storage types and columns (mapping layer) *)

Inductive sqltype :=
| sa_Enum (enum_class : PyClass)
| AutoString (length : option Z)
| Float
| Boolean
| Integer
| DateTime
| Date
| Interval
| Time
| LargeBinary
| Numeric (precision : option Z) (scale : option Z)
| GUID
| CustomType (name : string).

Global Instance sqltype_eq_dec : EqDecision sqltype.
Proof. solve_decision. Defined.

Inductive column_arg :=
| ForeignKey (target : string)
| ColumnArg (repr : string).

Global Instance column_arg_eq_dec : EqDecision column_arg.
Proof. solve_decision. Defined.

(** [Column(sa_type, *args, **kwargs)], as the record of its arguments.
    What SQLAlchemy's constructor makes of the arguments, and whether it
    accepts them, is not modelled. *)
Record Column := mkColumn {
  column_type : sqltype;
  column_args : list column_arg;
  column_kwargs : gmap string pyval;
}.

Global Instance Column_eq_dec : EqDecision Column.
Proof. solve_decision. Defined.

(** ** Field and relationship descriptors *)

(** An element of [FieldInfo.metadata].  [getattr(meta, name, None)] is
    [None] both for a missing attribute and for one that holds [None]. *)
Record metadata_item := mkMeta {
  is_PydanticMetadata : bool;
  max_length : option Z;
  max_digits : option Z;
  decimal_places : option Z;
}.

Global Instance metadata_item_eq_dec : EqDecision metadata_item.
Proof. solve_decision. Defined.

Definition FakeMetadata : metadata_item := mkMeta false None None None.

(** [sqlmodel.main.FieldInfo]: the attributes of pydantic's [FieldInfo]
    that the code reads, and the mapping hints stored by [__init__].
    [original_default] is the attribute [set_empty_defaults] adds; it is
    [None] while the attribute does not exist. *)
Record FieldInfo := mkFieldInfo {
  annotation : Annotation;
  default : undefinable pyval;
  default_factory : option string;
  metadata : list metadata_item;
  title : option string;
  description : option string;
  original_default : option (undefinable pyval);
  primary_key : undefinable bool;
  nullable : undefinable bool;
  foreign_key : undefinable pyval;
  unique : undefinable bool;
  index : undefinable bool;
  sa_type : undefinable sqltype;
  sa_column : undefinable Column;
  sa_column_args : undefinable (list column_arg);
  sa_column_kwargs : undefinable (gmap string pyval);
}.

(** pydantic 2 [FieldInfo.is_required()]: no default and no factory. *)
Definition is_required (field : FieldInfo) : bool :=
  is_Undefined (default field) && bool_decide (default_factory field = None).

(** What SQLAlchemy's [relationship(argument, *args, **kwargs)] is built
    from. *)
Record RelationshipProperty := mkRelationshipProperty {
  rel_argument : Annotation;
  rel_args : list string;
  rel_kwargs : gmap string pyval;
}.

(** A link model as Phase 2 sees it: the class, whether SQLAlchemy's
    [inspect] knows it ([inspect(link_model)] raises
    [NoInspectionAvailable] for a class that is not mapped), and the
    [local_table] of the mapper that [inspect] returns. *)
Record LinkModel := mkLinkModel {
  link_class : PyClass;
  mapped : bool;
  local_table : option string;
}.

(** [sqlmodel.main.RelationshipInfo]. *)
Record RelationshipInfo := mkRelationshipInfo {
  back_populates : option string;
  link_model : option LinkModel;
  sa_relationship : option RelationshipProperty;
  sa_relationship_args : option (list string);
  sa_relationship_kwargs : option (gmap string pyval);
}.

(** A value found in a class namespace or bound on a class. *)
Inductive class_attr :=
| AttrValue (v : pyval)
| AttrFieldInfo (f : FieldInfo)
| AttrRelationshipInfo (r : RelationshipInfo)
| AttrColumn (c : Column)
| AttrRelationship (r : RelationshipProperty).

(** A model class: [__name__], [model_config] ([None] when the attribute
    is missing), [__sqlmodel_relationships__] in insertion order,
    [__annotations__], the validation fields, and the attributes found on
    the class before the lookup reaches [SQLModel] itself. *)
Record ModelClass := mkModelClass {
  cls_name : string;
  model_config : option (gmap string pyval);
  __sqlmodel_relationships__ : list (string * RelationshipInfo);
  __annotations__ : gmap string Annotation;
  model_fields : list (string * FieldInfo);
  cls_attrs : gmap string class_attr;
}.

(** ** [sqlmodel/_compat.py], pydantic-2 branch *)

Module _compat.

Definition _is_union_type (t : Annotation) : bool :=
  is_class t UnionType
  || match t with ATypingUnion => true | _ => false end.

Definition cls_is_table (cls : ModelClass) : pyval :=
  match model_config cls with
  | None => PyBool false
  | Some config =>
      if bool_decide (config = ∅) then PyBool false
      else from_option id (PyBool false) (config !! "table")
  end.

(** [depth] is the number of stack frames Python still allows; the call
    that would exceed it raises [RecursionError]. *)
Fixpoint get_relationship_to (depth : nat) (name : string)
    (rel_info : RelationshipInfo) (annotation : Annotation)
    : result Annotation :=
  match depth with
  | O => raise RecursionError
  | S depth =>
      let origin := get_origin annotation in
      let use_annotation := annotation in
      match origin with
      | None =>
          (* Direct relationships (e.g. 'Team' or Team) *)
          match use_annotation with
          | AForwardRef forward_arg =>
              get_relationship_to depth name rel_info (AStr forward_arg)
          | _ => mret use_annotation
          end
      | Some origin =>
          if _is_union_type origin then
            let use_annotation := get_args annotation in
            if bool_decide (2 < length use_annotation)%nat then
              raise (ValueError
                "Cannot have a (non-optional) union as a SQLAlchemy field")
            else
              match use_annotation with
              | [arg1; arg2] =>
                  if is_NoneType arg1 && negb (is_NoneType arg2) then
                    get_relationship_to depth name rel_info arg2
                  else if is_NoneType arg2 && negb (is_NoneType arg1) then
                    get_relationship_to depth name rel_info arg1
                  else
                    raise (ValueError
                      "Cannot have a Union of None and None as a SQLAlchemy field")
              | _ => raise (ValueError "not enough values to unpack")
              end
          else if is_class origin list_class then
            use_annotation ← getitem (get_args annotation) 0;
            get_relationship_to depth name rel_info use_annotation
          else
            get_relationship_to depth name rel_info use_annotation
      end
  end.

Definition _is_field_noneable (field : FieldInfo) : bool :=
  match nullable field with
  | Given field_nullable => field_nullable
  | Undefined =>
      let origin := get_origin (annotation field) in
      if from_option _is_union_type false origin
         && existsb is_NoneType (get_args (annotation field))
      then true
      else if negb (is_required field) then
        if is_Undefined (default field) then false
        else if match annotation field with ANone => true | _ => false end
                || is_NoneType (annotation field)
        then true
        else false
      else false
  end.

Definition get_type_from_field (field : FieldInfo) : result Annotation :=
  let type_ := annotation field in
  match type_ with
  | ANone => raise (ValueError "Missing field type")
  | _ =>
      match get_origin type_ with
      | None => mret type_
      | Some origin =>
          if _is_union_type origin then
            let bases := get_args type_ in
            if bool_decide (2 < length bases)%nat then
              raise (ValueError
                "Cannot have a (non-optional) union as a SQLAlchemy field")
            else
              b0 ← getitem bases 0;
              non_optional ←
                (if negb (is_NoneType b0) then
                   b1 ← getitem bases 1; mret (negb (is_NoneType b1))
                 else mret false);
              if non_optional : bool then
                raise (ValueError
                  "Cannot have a (non-optional) union as a SQLlchemy field")
              else if negb (is_NoneType b0) then mret b0
              else getitem bases 1
          else mret origin
      end
  end.

Definition get_field_metadata (field : FieldInfo) : metadata_item :=
  from_option id FakeMetadata
    (head (filter (λ meta, is_PydanticMetadata meta = true) (metadata field))).

Definition post_init_field_info (field_info : FieldInfo) : result unit :=
  mret tt.

End _compat.

(** ** [sqlmodel/compat.py], pydantic-2 branch *)

Module compat.

(** [get_config_value]: [model.model_config.get(parameter, default)].
    Every SQLModel class and instance has a [model_config]; a class without
    one is read as having an empty configuration. *)
Definition get_config_value (model : ModelClass) (parameter : string)
    (default_ : pyval) : pyval :=
  match model_config model with
  | Some config => from_option id default_ (config !! parameter)
  | None => default_
  end.

(** [set_config_value]: [model.model_config[parameter] = value]. *)
Definition set_config_value (model : ModelClass) (parameter : string)
    (value : pyval) : ModelClass :=
  mkModelClass (cls_name model)
    (Some (<[parameter := value]> (from_option id ∅ (model_config model))))
    (__sqlmodel_relationships__ model) (__annotations__ model)
    (model_fields model) (cls_attrs model).

Definition get_relationship_to (name : string) (rel_info : RelationshipInfo)
    (annotation : Annotation) : result Annotation :=
  let relationship_to := get_origin annotation in
  relationship_to ←
    match relationship_to with
    (* Direct relationships (e.g. 'Team' or Team) have None as an origin *)
    | None => mret annotation
    (* If Union (e.g. Optional), get the real field *)
    | Some ATypingUnion => getitem (get_args annotation) 0
    | Some origin =>
        (* If a list, then also get the real field *)
        if is_class origin list_class then getitem (get_args annotation) 0
        else mret origin
    end;
  match relationship_to with
  | AForwardRef forward_arg => mret (AStr forward_arg)
  | _ => mret relationship_to
  end.

(** [value.original_default = value.default; value.default = None]. *)
Definition inject_none_default (value : FieldInfo) : FieldInfo :=
  mkFieldInfo (annotation value) (Given PyNone) (default_factory value)
    (metadata value) (title value) (description value)
    (Some (default value))
    (primary_key value) (nullable value) (foreign_key value) (unique value)
    (index value) (sa_type value) (sa_column value) (sa_column_args value)
    (sa_column_kwargs value).

(** The body of the loop of [set_empty_defaults] for one [key]. *)
Definition set_empty_default (key : string)
    (class_dict : gmap string class_attr) : gmap string class_attr :=
  match class_dict !! key with
  | None => <[key := AttrValue PyNone]> class_dict
  | Some (AttrFieldInfo value) =>
      if (is_Undefined (default value)
          || bool_decide (default value = Given PyEllipsis))
         && bool_decide (default_factory value = None)
      then <[key := AttrFieldInfo (inject_none_default value)]> class_dict
      else class_dict
  | Some _ => class_dict
  end.

Definition set_empty_defaults (IS_PYDANTIC_V2 : bool)
    (annotations : gmap string Annotation)
    (class_dict : gmap string class_attr) : gmap string class_attr :=
  if IS_PYDANTIC_V2 then
    map_fold (λ key _ class_dict, set_empty_default key class_dict)
      class_dict annotations
  else class_dict.

Definition is_field_noneable (field : FieldInfo) : bool :=
  match nullable field with
  | Given field_nullable => field_nullable
  | Undefined =>
      if negb (is_required field) then
        let default_ :=
          from_option id (default field) (original_default field) in
        if is_Undefined default_ then false
        else if match annotation field with ANone => true | _ => false end
                || is_NoneType (annotation field)
        then true
        else if match get_origin (annotation field) with
                | Some ATypingUnion => true
                | _ => false
                end
                && existsb is_NoneType (get_args (annotation field))
        then true
        else false
      else false
  end.

End compat.

(** ** pydantic 2, as far as the code depends on it

    Behaviour of the validation library that the embedded code relies on,
    written after pydantic's [fields.py] and [_internal/_fields.py].  It is
    not part of the repository. *)

Module pydantic.

(** [annotated_types.MaxLen(n)]: it has the attribute [max_length] and is
    no [PydanticMetadata]. *)
Definition MaxLen (n : Z) : metadata_item := mkMeta false (Some n) None None.

(** [pydantic_general_metadata] called with the constraints that have no
    marker: a [PydanticMetadata] that has exactly the attributes it was
    given. *)
Definition pydantic_general_metadata (max_digits decimal_places : option Z)
    : metadata_item :=
  mkMeta true None max_digits decimal_places.

(** [FieldInfo._collect_metadata], for the three constraints the type
    mapping reads.  A constraint that is not [None] and has a marker class
    becomes an object of that class ([max_length] gives [MaxLen]); those
    without marker ([max_digits], [decimal_places]) are gathered in one
    general-metadata object, which is appended last. *)
Definition _collect_metadata (max_length max_digits decimal_places : option Z)
    : list metadata_item :=
  from_option (λ n, [MaxLen n]) [] max_length
  ++ (if bool_decide (max_digits = None ∧ decimal_places = None) then []
      else [pydantic_general_metadata max_digits decimal_places]).

(** The start of [FieldInfo.__init__]: [Ellipsis] as default is stored as
    [Undefined], and a default together with a default factory is refused.
    The result is the default that is stored. *)
Definition FieldInfo___init__ (default : undefinable pyval)
    (default_factory : option string) : result (undefinable pyval) :=
  let default :=
    match default with
    | Given PyEllipsis => Undefined
    | _ => default
    end in
  _ ← raise_if
        (is_not_Undefined default && bool_decide (default_factory ≠ None))
        (TypeError "cannot specify both default and default_factory");
  mret default.

(** [FieldInfo.from_annotated_attribute(annotation, default)] when
    [default] is a descriptor and the annotation is not [Annotated]: the
    descriptor is kept and receives the annotation. *)
Definition from_annotated_attribute (annotation : Annotation)
    (default_ : FieldInfo) : FieldInfo :=
  mkFieldInfo annotation (default default_) (default_factory default_)
    (metadata default_) (title default_) (description default_)
    (original_default default_) (primary_key default_) (nullable default_)
    (foreign_key default_) (unique default_) (index default_)
    (sa_type default_) (sa_column default_) (sa_column_args default_)
    (sa_column_kwargs default_).

(** [collect_model_fields], its treatment of the fields of a base class
    that is not a table class (so that no class attribute hides them): a
    field whose name the class body neither annotates nor assigns keeps the
    descriptor of the base ([copy(parent_fields_lookup[ann_name])]). *)
Definition inherited_fields (parent_fields : list (string * FieldInfo))
    (annotations : gmap string Annotation)
    (namespace : gmap string class_attr) : list (string * FieldInfo) :=
  filter (λ kv, annotations !! kv.1 = None ∧ namespace !! kv.1 = None)
    parent_fields.

(** [_fields.is_valid_field_name]: [not name.startswith('_')]. *)
Definition is_valid_field_name (name : string) : bool :=
  match name with
  | String "_" _ => false
  | _ => true
  end.

End pydantic.

(** ** [sqlmodel/main.py] *)

Module main.

(** *** Field builder *)

(** The keyword arguments of [FieldInfo.__init__].  Each keyword the
    method pops is [None] when the caller did not pass it; the remaining
    keywords are those pydantic's own [__init__] stores. *)
Record FieldInfo_kwargs := mkFieldInfo_kwargs {
  kw_primary_key : option (undefinable bool);
  kw_nullable : option (undefinable bool);
  kw_foreign_key : option (undefinable pyval);
  kw_unique : option (undefinable bool);
  kw_index : option (undefinable bool);
  kw_sa_type : option (undefinable sqltype);
  kw_sa_column : option (undefinable Column);
  kw_sa_column_args : option (undefinable (list column_arg));
  kw_sa_column_kwargs : option (undefinable (gmap string pyval));
  kw_default_factory : option string;
  kw_title : option string;
  kw_description : option string;
  kw_max_digits : option Z;
  kw_decimal_places : option Z;
  kw_max_length : option Z;
}.

(** [kwargs.pop(key, default)]. *)
Definition pop {A} (kw : option A) (default_ : A) : A :=
  from_option id default_ kw.

(** [FieldInfo.__init__].  [super().__init__(default=default, **kwargs)]
    is pydantic's [FieldInfo.__init__]: it may refuse the default, stores
    it and the remaining keywords and collects the constraints in
    [metadata]; the field's annotation is attached later, when the class is
    built. *)
Definition FieldInfo___init__ (default : undefinable pyval)
    (kwargs : FieldInfo_kwargs) : result FieldInfo :=
  let primary_key := pop (kw_primary_key kwargs) (Given false) in
  let nullable := pop (kw_nullable kwargs) Undefined in
  let foreign_key := pop (kw_foreign_key kwargs) Undefined in
  let unique := pop (kw_unique kwargs) (Given false) in
  let index := pop (kw_index kwargs) Undefined in
  let sa_type := pop (kw_sa_type kwargs) Undefined in
  let sa_column := pop (kw_sa_column kwargs) Undefined in
  let sa_column_args := pop (kw_sa_column_args kwargs) Undefined in
  let sa_column_kwargs := pop (kw_sa_column_kwargs kwargs) Undefined in
  let unsupported (what : string) : exn :=
    RuntimeError
      ("Passing " +:+ what +:+
       " is not supported when also passing a sa_column") in
  _ ← (if is_not_Undefined sa_column then
         _ ← raise_if (is_not_Undefined sa_column_args)
               (unsupported "sa_column_args");
         _ ← raise_if (is_not_Undefined sa_column_kwargs)
               (unsupported "sa_column_kwargs");
         _ ← raise_if (is_not_Undefined primary_key)
               (unsupported "primary_key");
         _ ← raise_if (is_not_Undefined nullable) (unsupported "nullable");
         _ ← raise_if (is_not_Undefined foreign_key)
               (unsupported "foreign_key");
         _ ← raise_if (is_not_Undefined unique) (unsupported "unique");
         _ ← raise_if (is_not_Undefined index) (unsupported "index");
         raise_if (is_not_Undefined sa_type) (unsupported "sa_type")
       else mret tt);
  default ← pydantic.FieldInfo___init__ default (kw_default_factory kwargs);
  mret (mkFieldInfo ANone default (kw_default_factory kwargs)
          (pydantic._collect_metadata (kw_max_length kwargs)
             (kw_max_digits kwargs) (kw_decimal_places kwargs))
          (kw_title kwargs) (kw_description kwargs)
          None
          primary_key nullable foreign_key unique index sa_type sa_column
          sa_column_args sa_column_kwargs).

(** The arguments of [Field] that reach the attributes read by the code:
    the default, the factory, the documentation, the three constraints the
    type mapping reads, and the mapping hints. *)
Record Field_args := mkField_args {
  arg_default : undefinable pyval;
  arg_default_factory : option string;
  arg_title : option string;
  arg_description : option string;
  arg_max_digits : option Z;
  arg_decimal_places : option Z;
  arg_max_length : option Z;
  arg_primary_key : undefinable bool;
  arg_foreign_key : undefinable pyval;
  arg_unique : undefinable bool;
  arg_nullable : undefinable bool;
  arg_index : undefinable bool;
  arg_sa_type : undefinable sqltype;
  arg_sa_column : undefinable Column;
  arg_sa_column_args : undefinable (list column_arg);
  arg_sa_column_kwargs : undefinable (gmap string pyval);
}.

Definition Field (args : Field_args) : result FieldInfo :=
  field_info ←
    FieldInfo___init__ (arg_default args)
      (mkFieldInfo_kwargs
         (Some (arg_primary_key args))
         (Some (arg_nullable args))
         (Some (arg_foreign_key args))
         (Some (arg_unique args))
         (Some (arg_index args))
         (Some (arg_sa_type args))
         (Some (arg_sa_column args))
         (Some (arg_sa_column_args args))
         (Some (arg_sa_column_kwargs args))
         (arg_default_factory args)
         (arg_title args)
         (arg_description args)
         (arg_max_digits args)
         (arg_decimal_places args)
         (arg_max_length args));
  _ ← _compat.post_init_field_info field_info;
  mret field_info.

(** [RelationshipInfo.__init__]. *)
Definition RelationshipInfo___init__ (back_populates : option string)
    (link_model : option LinkModel)
    (sa_relationship : option RelationshipProperty)
    (sa_relationship_args : option (list string))
    (sa_relationship_kwargs : option (gmap string pyval))
    : result RelationshipInfo :=
  let unsupported (what : string) : exn :=
    RuntimeError
      ("Passing " +:+ what +:+
       " is not supported when also passing a sa_relationship") in
  _ ← (if bool_decide (sa_relationship ≠ None) then
         _ ← raise_if (bool_decide (sa_relationship_args ≠ None))
               (unsupported "sa_relationship_args");
         raise_if (bool_decide (sa_relationship_kwargs ≠ None))
           (unsupported "sa_relationship_kwargs")
       else mret tt);
  mret (mkRelationshipInfo back_populates link_model sa_relationship
          sa_relationship_args sa_relationship_kwargs).

(** *** Type mapping *)

(** [if max_length:] on an optional integer. *)
Definition truthy_int (n : option Z) : bool :=
  match n with
  | Some z => negb (z =? 0)%Z
  | None => false
  end.

(** [get_sqlalchemy_type].  The first [issubclass] raises [TypeError] when
    [type_] is not a class; once it has passed, [type_] is the class [c]. *)
Definition get_sqlalchemy_type (field : FieldInfo) : result sqltype :=
  let field_info := field in
  match sa_type field_info with
  | Given sa_type => mret sa_type
  | Undefined =>
      type_ ← _compat.get_type_from_field field;
      let metadata := _compat.get_field_metadata field in
      c ← match type_ with
          | AClass c => mret c
          | _ => raise issubclass_arg1_error
          end;
      (* Check enums first as an enum can also be a str *)
      if issubclass c Enum then mret (sa_Enum c)
      else if issubclass c str then
        let max_length := max_length metadata in
        if truthy_int max_length then mret (AutoString max_length)
        else mret (AutoString None)
      else if issubclass c float then mret Float
      else if issubclass c bool_ then mret Boolean
      else if issubclass c int then mret Integer
      else if issubclass c datetime then mret DateTime
      else if issubclass c date then mret Date
      else if issubclass c timedelta then mret Interval
      else if issubclass c time then mret Time
      else if issubclass c bytes then mret LargeBinary
      else if issubclass c Decimal then
        mret (Numeric (max_digits metadata) (decimal_places metadata))
      else if issubclass c IPv4Address then mret (AutoString None)
      else if issubclass c IPv4Network then mret (AutoString None)
      else if issubclass c IPv6Address then mret (AutoString None)
      else if issubclass c IPv6Network then mret (AutoString None)
      else if issubclass c Path then mret (AutoString None)
      else if issubclass c UUID then mret GUID
      else raise (ValueError
                    (class_repr c +:+ " has no matching SQLAlchemy type"))
  end.

(** [get_column_from_field]. *)
Definition get_column_from_field (field : FieldInfo) : result Column :=
  let field_info := field in
  match sa_column field_info with
  | Given sa_column => mret sa_column
  | Undefined =>
      sa_type ← get_sqlalchemy_type field;
      let primary_key :=
        match primary_key field_info with
        | Undefined => false
        | Given primary_key => primary_key
        end in
      let index :=
        match index field_info with
        | Undefined => false
        | Given index => index
        end in
      (* [getattr(field_info, "nullable", Undefined)], read here because the
         local [nullable] hides the attribute below *)
      let field_nullable := nullable field_info in
      let nullable := negb primary_key && _compat._is_field_noneable field in
      (* Override derived nullability if the nullable property is set
         explicitly on the field *)
      let nullable :=
        match field_nullable with
        | Given field_nullable => field_nullable
        | Undefined => nullable
        end in
      let args : list column_arg := [] in
      let foreign_key :=
        match foreign_key field_info with
        | Undefined => PyNone
        | Given foreign_key => foreign_key
        end in
      let unique :=
        match unique field_info with
        | Undefined => false
        | Given unique => unique
        end in
      args ←
        (if truthy foreign_key then
           match foreign_key with
           | PyStr target => mret (args ++ [ForeignKey target])%list
           | _ => raise AssertionError
           end
         else mret args);
      let kwargs : gmap string pyval :=
        {[ "primary_key" := PyBool primary_key;
           "nullable" := PyBool nullable;
           "index" := PyBool index;
           "unique" := PyBool unique ]} in
      let sa_default :=
        match default_factory field_info with
        | Some factory => Given (PyCallable factory)
        | None => default field_info
        end in
      let kwargs :=
        match sa_default with
        | Given sa_default => <["default" := sa_default]> kwargs
        | Undefined => kwargs
        end in
      let args :=
        match sa_column_args field_info with
        | Given sa_column_args => (args ++ sa_column_args)%list
        | Undefined => args
        end in
      let kwargs :=
        match sa_column_kwargs field_info with
        | Given sa_column_kwargs => sa_column_kwargs ∪ kwargs
        | Undefined => kwargs
        end in
      mret (mkColumn sa_type args kwargs)
  end.

(** *** Class synthesis, phase 1: the namespace handed to pydantic *)

(** What [SQLModelMetaclass.__new__] has computed when it calls
    [super().__new__]: [dict_used] without its two dictionary-valued
    entries, which are the fields [relationships] and
    [pydantic_annotations]. *)
Record namespace := mkNamespace {
  dict_used : gmap string class_attr;
  relationships : list (string * RelationshipInfo);
  pydantic_annotations : gmap string Annotation;
  relationship_annotations : gmap string Annotation;
}.

Definition as_relationship (item : string * class_attr)
    : option (string * RelationshipInfo) :=
  match item.2 with
  | AttrRelationshipInfo v => Some (item.1, v)
  | _ => None
  end.

(** The first part of [SQLModelMetaclass.__new__].  [class_dict] is the
    class body in declaration order (its keys are distinct);
    [class_dict_is_table] is the value of
    [class_dict_is_table(class_dict, kwargs)]. *)
Definition SQLModelMetaclass___new___namespace (IS_PYDANTIC_V2 : bool)
    (class_dict : list (string * class_attr))
    (original_annotations : gmap string Annotation)
    (class_dict_is_table : bool) : namespace :=
  let relationships := omap as_relationship class_dict in
  let dict_for_pydantic : gmap string class_attr :=
    list_to_map
      (filter (λ item, as_relationship item = None) class_dict) in
  let relationship_annotations :=
    filter (λ kv, kv.1 ∈ relationships.*1) original_annotations in
  let pydantic_annotations :=
    filter (λ kv, kv.1 ∉ relationships.*1) original_annotations in
  let dict_used := <["__weakref__" := AttrValue PyNone]> dict_for_pydantic in
  let dict_used :=
    if class_dict_is_table then
      compat.set_empty_defaults IS_PYDANTIC_V2 pydantic_annotations dict_used
    else dict_used in
  mkNamespace dict_used relationships pydantic_annotations
    relationship_annotations.

(** *** Class synthesis, phase 2: relationship wiring *)

(** [setattr(cls, name, value)]. *)
Definition class_setattr (cls : ModelClass) (name : string)
    (value : class_attr) : ModelClass :=
  mkModelClass (cls_name cls) (model_config cls)
    (__sqlmodel_relationships__ cls) (__annotations__ cls) (model_fields cls)
    (<[name := value]> (cls_attrs cls)).

(** [cls.__annotations__[name] = value]. *)
Definition set_annotation (cls : ModelClass) (name : string)
    (value : Annotation) : ModelClass :=
  mkModelClass (cls_name cls) (model_config cls)
    (__sqlmodel_relationships__ cls) (<[name := value]> (__annotations__ cls))
    (model_fields cls) (cls_attrs cls).

(** SQLAlchemy's [relationship(argument, *args, **kwargs)]. *)
Definition relationship (argument : Annotation) (args : list string)
    (kwargs : gmap string pyval) : RelationshipProperty :=
  mkRelationshipProperty argument args kwargs.

(** The body of the loop over [cls.__sqlmodel_relationships__.items()]. *)
Definition wire_relationship (cls : ModelClass)
    (item : string * RelationshipInfo) : result ModelClass :=
  let rel_name := item.1 in
  let rel_info := item.2 in
  match sa_relationship rel_info with
  | Some sa_relationship =>
      (* There's a SQLAlchemy relationship declared, that takes precedence
         over anything else, use that and continue with the next attribute *)
      mret (class_setattr cls rel_name (AttrRelationship sa_relationship))
  | None =>
      raw_ann ← match __annotations__ cls !! rel_name with
                | Some raw_ann => mret raw_ann
                | None => raise (KeyError rel_name)
                end;
      let origin := get_origin raw_ann in
      '(ann, cls) ←
        (if from_option (λ o, is_class o Mapped) false origin then
           ann ← getitem (get_args raw_ann) 0; mret (ann, cls)
         else
           mret (raw_ann,
                 set_annotation cls rel_name (AGeneric Mapped [raw_ann])));
      relationship_to ← compat.get_relationship_to rel_name rel_info ann;
      let rel_kwargs : gmap string pyval := ∅ in
      let rel_kwargs :=
        match back_populates rel_info with
        | Some name =>
            if truthy (PyStr name)
            then <["back_populates" := PyStr name]> rel_kwargs
            else rel_kwargs
        | None => rel_kwargs
        end in
      rel_kwargs ←
        match link_model rel_info with
        | Some link =>
            (* ins = inspect(rel_info.link_model) *)
            _ ← raise_if (negb (mapped link)) NoInspectionAvailable;
            match local_table link with
            | None =>
                raise (RuntimeError
                  ("Couldn't find the secondary table for model "
                   +:+ class_repr (link_class link)))
            | Some table => mret (<["secondary" := PyObject table]> rel_kwargs)
            end
        | None => mret rel_kwargs
        end;
      let rel_args : list string :=
        from_option id [] (sa_relationship_args rel_info) in
      let rel_kwargs :=
        from_option (λ extra, extra ∪ rel_kwargs) rel_kwargs
          (sa_relationship_kwargs rel_info) in
      let rel_value := relationship relationship_to rel_args rel_kwargs in
      mret (class_setattr cls rel_name (AttrRelationship rel_value))
  end.

(** [for item in items: cls = body(cls, item)], stopping at the first
    exception. *)
Fixpoint for_each {S A} (body : S → A → result S) (items : list A) (s : S)
    : result S :=
  match items with
  | [] => mret s
  | item :: items => s ← body s item; for_each body items s
  end.

(** Which of the two inherited initialisers [__init__] calls last.  The
    initialisers themselves belong to SQLAlchemy and pydantic and are not
    modelled: a result [(cls, init)] says that [__init__] has come to the
    call of [init] with the class [cls]. *)
Inductive base_init := DeclarativeMeta___init__ | ModelMetaclass___init__.

(** Whether phase 2 runs: [cls_is_table(cls) and not base_is_table]. *)
Definition wiring_runs (cls : ModelClass) (bases : list ModelClass) : bool :=
  let base_is_table :=
    existsb (λ base, truthy (_compat.cls_is_table base)) bases in
  truthy (_compat.cls_is_table cls) && negb base_is_table.

(** [SQLModelMetaclass.__init__], up to the call of the inherited
    initialiser. *)
Definition SQLModelMetaclass___init__ (cls : ModelClass)
    (bases : list ModelClass) : result (ModelClass * base_init) :=
  if wiring_runs cls bases then
    cls ← for_each wire_relationship (__sqlmodel_relationships__ cls) cls;
    mret (cls, DeclarativeMeta___init__)
  else mret (cls, ModelMetaclass___init__).

(** *** Table name *)

(** [str.lower] on a string of ASCII characters, where the method changes
    the letters [A] to [Z] and nothing else.  [str.lower] also changes
    letters outside ASCII; class names that contain such characters are
    outside this model, and the statements about table names are made for
    ASCII names. *)
Definition ascii_lower (c : ascii) : ascii :=
  let n := nat_of_ascii c in
  if (65 <=? n)%nat && (n <=? 90)%nat then ascii_of_nat (n + 32) else c.

Fixpoint lower (s : string) : string :=
  match s with
  | EmptyString => EmptyString
  | String c s => String (ascii_lower c) (lower s)
  end.

(** The [declared_attr] [SQLModel.__tablename__]. *)
Definition SQLModel___tablename__ (cls : ModelClass) : string :=
  lower (cls_name cls).

(** [cls.__tablename__]: an attribute set on the class hides the
    [declared_attr] inherited from [SQLModel]. *)
Definition getattr___tablename__ (cls : ModelClass) : class_attr :=
  match cls_attrs cls !! "__tablename__" with
  | Some explicit => explicit
  | None => AttrValue (PyStr (SQLModel___tablename__ cls))
  end.

(** *** Instances: attribute writes and keyword construction *)

(** What the two layers observe of a write. *)
Inductive event :=
| MappingWrite (name : string) (value : pyval)
| ValidationWrite (name : string) (value : pyval).

Record Instance := mkInstance {
  __class__ : ModelClass;
  __dict__ : gmap string pyval;
  __fields_set__ : gset string;
  trace : list event;
}.

(** [SQLModel.__new__]: a fresh object whose fields-set is [set()]. *)
Definition SQLModel___new__ (cls : ModelClass) : Instance :=
  mkInstance cls ∅ ∅ [].

(** [self.__dict__[name] = value]. *)
Definition dict_setitem (self : Instance) (name : string) (value : pyval)
    : Instance :=
  mkInstance (__class__ self) (<[name := value]> (__dict__ self))
    (__fields_set__ self) (trace self).

(** SQLAlchemy's [set_attribute(self, name, value)]: the mapping layer
    stores the value and its change tracking sees it. *)
Definition set_attribute (self : Instance) (name : string) (value : pyval)
    : Instance :=
  mkInstance (__class__ self) (<[name := value]> (__dict__ self))
    (__fields_set__ self) (trace self ++ [MappingWrite name value]).

Section instance.

(** The external collaborators: SQLAlchemy's [is_instrumented], the
    validation pydantic applies to an assigned value, pydantic 1's
    [validate_model] and pydantic 2's [BaseModel.__init__]. *)
Variable is_instrumented : Instance → string → bool.
Variable validate_assignment : ModelClass → string → pyval → result pyval.
Variable validate_model :
  ModelClass → gmap string pyval →
  list (string * pyval) * gset string * option exn.
Variable BaseModel___init__ :
  ModelClass → gmap string pyval → result (gmap string pyval * gset string).

(** A method that mutates [self]: the instance it leaves behind and the
    exception it raised, if any. *)
Definition outcome : Type := Instance * option exn.

(** pydantic's [BaseModel.__setattr__], reached by [super().__setattr__]:
    [validate_assignment] is what pydantic makes of the assigned value (it
    may refuse it or normalise it; a private name, one that starts with an
    underscore, is not validated); the result is stored, and the name
    joins the fields-set unless it is a private name. *)
Definition BaseModel___setattr__ (self : Instance) (name : string)
    (value : pyval) : outcome :=
  let self :=
    mkInstance (__class__ self) (__dict__ self) (__fields_set__ self)
      (trace self ++ [ValidationWrite name value]) in
  match validate_assignment (__class__ self) name value with
  | inl e => (self, Some e)
  | inr value =>
      (mkInstance (__class__ self) (<[name := value]> (__dict__ self))
         (if pydantic.is_valid_field_name name
          then {[name]} ∪ __fields_set__ self
          else __fields_set__ self)
         (trace self), None)
  end.

(** [SQLModel.__setattr__]. *)
Definition SQLModel___setattr__ (self : Instance) (name : string)
    (value : pyval) : outcome :=
  if bool_decide (name = "_sa_instance_state") then
    (dict_setitem self name value, None)
  else
    (* Set in SQLAlchemy, before Pydantic to trigger events and updates *)
    let self :=
      if truthy (compat.get_config_value (__class__ self) "table"
                   (PyBool false))
         && is_instrumented self name
      then set_attribute self name value
      else self in
    (* Set in Pydantic model to trigger possible validation changes, only
       for non relationship values *)
    if bool_decide (name ∉ (__sqlmodel_relationships__ (__class__ self)).*1)
    then BaseModel___setattr__ self name value
    else (self, None).

(** [for key, value in items: setattr(self, key, value)]. *)
Fixpoint setattr_each (items : list (string * pyval)) (self : Instance)
    : outcome :=
  match items with
  | [] => (self, None)
  | item :: items =>
      match SQLModel___setattr__ self item.1 item.2 with
      | (self, Some e) => (self, Some e)
      | (self, None) => setattr_each items self
      end
  end.

(** The last loop of [__init__]: [for key in non_pydantic_keys: if key in
    relationships: setattr(self, key, data[key])]. *)
Definition set_relationships (non_pydantic_keys : gmap string pyval)
    (self : Instance) : outcome :=
  setattr_each
    (filter (λ kv, kv.1 ∈ (__sqlmodel_relationships__ (__class__ self)).*1)
       (map_to_list non_pydantic_keys))
    self.

(** [self.__dict__ = value].  The assignment is an attribute write, so
    Python calls [SQLModel.__setattr__] with the name ["__dict__"], which
    is not the reserved name.  The dictionary object appears in the trace
    as [PyObject "dict"].  pydantic's [BaseModel.__setattr__] stores a
    private name with [object.__setattr__], which for ["__dict__"]
    replaces the dictionary of the instance; it validates nothing and
    leaves the fields-set as it is. *)
Definition SQLModel___setattr_____dict__ (self : Instance)
    (value : gmap string pyval) : Instance :=
  let name := "__dict__" in
  let self :=
    if truthy (compat.get_config_value (__class__ self) "table"
                 (PyBool false))
       && is_instrumented self name
    then set_attribute self name (PyObject "dict")
    else self in
  if bool_decide (name ∉ (__sqlmodel_relationships__ (__class__ self)).*1)
  then
    mkInstance (__class__ self) value (__fields_set__ self)
      (trace self ++ [ValidationWrite name (PyObject "dict")])
  else self.

(** [SQLModel.__init__], called with the keyword arguments [data].  In the
    pydantic-2 branch [super().__init__] stores the validated values and
    the fields-set in the instance without going through [__setattr__]. *)
Definition SQLModel___init__ (IS_PYDANTIC_V2 : bool) (self : Instance)
    (data : gmap string pyval) : outcome :=
  if IS_PYDANTIC_V2 then
    let old_dict := __dict__ self in
    match BaseModel___init__ (__class__ self) data with
    | inl e => (self, Some e)
    | inr (new_dict, fields_set) =>
        let self :=
          mkInstance (__class__ self) new_dict fields_set (trace self) in
        let self :=
          SQLModel___setattr_____dict__ self (__dict__ self ∪ old_dict) in
        let non_pydantic_keys :=
          filter (λ kv, kv.1 ∉ (model_fields (__class__ self)).*1) data in
        set_relationships non_pydantic_keys self
    end
  else
    let '(values, fields_set, validation_error) :=
      validate_model (__class__ self) data in
    (* Only raise errors if not a SQLModel model *)
    match
      (if negb (truthy (compat.get_config_value (__class__ self) "table"
                          (PyBool false)))
       then validation_error else None)
    with
    | Some validation_error => (self, Some validation_error)
    | None =>
        (* Do not set values as in Pydantic, pass them through setattr, so
           SQLAlchemy can handle them *)
        match setattr_each values self with
        | (self, Some e) => (self, Some e)
        | (self, None) =>
            let self :=
              mkInstance (__class__ self) (__dict__ self) fields_set
                (trace self) in
            let non_pydantic_keys :=
              filter (λ kv, kv.1 ∉ values.*1) data in
            set_relationships non_pydantic_keys self
        end
    end.

End instance.

(** *** The class statement *)

(** One assignment of a class body. *)
Inductive declaration :=
| FieldDecl (args : Field_args)
| RelationshipDecl (back_populates : option string)
    (link_model : option LinkModel)
    (sa_relationship : option RelationshipProperty)
    (sa_relationship_args : option (list string))
    (sa_relationship_kwargs : option (gmap string pyval))
| ValueDecl (value : pyval).

Definition eval_declaration (d : declaration) : result class_attr :=
  match d with
  | FieldDecl args => field_info ← Field args; mret (AttrFieldInfo field_info)
  | RelationshipDecl back_populates link_model sa_relationship
      sa_relationship_args sa_relationship_kwargs =>
      relationship_info ←
        RelationshipInfo___init__ back_populates link_model sa_relationship
          sa_relationship_args sa_relationship_kwargs;
      mret (AttrRelationshipInfo relationship_info)
  | ValueDecl value => mret (AttrValue value)
  end.

(** Python evaluates the body of a class statement, assignment by
    assignment, into the class namespace. *)
Fixpoint eval_class_body (body : list (string * declaration))
    : result (list (string * class_attr)) :=
  match body with
  | [] => mret []
  | (name, d) :: body =>
      value ← eval_declaration d;
      class_dict ← eval_class_body body;
      mret ((name, value) :: class_dict)
  end.

(** Only when the body has been evaluated is the metaclass called with the
    namespace; [metaclass_call] stands for [SQLModelMetaclass.__new__]
    followed by [__init__]. *)
Definition class_statement
    (metaclass_call : list (string * class_attr) → result ModelClass)
    (body : list (string * declaration)) : result ModelClass :=
  class_dict ← eval_class_body body;
  metaclass_call class_dict.

(** *** Class synthesis, phase 1: deriving the columns *)

(** [get_config] of [SQLModelMetaclass.__new__]: the value found in the
    configuration of the new class, else the keyword of the class
    statement, else [Undefined]. *)
Definition get_config (new_cls : ModelClass) (kwargs : gmap string pyval)
    (name : string) : undefinable pyval :=
  (* get_config_value(new_cls, name, Undefined) *)
  match model_config new_cls ≫= (λ config, config !! name) with
  | Some config_class_value => Given config_class_value
  | None =>
      match kwargs !! name with
      | Some kwarg_value => Given kwarg_value
      | None => Undefined
      end
  end.

(** The body of the loop over [get_model_fields(new_cls).items()]. *)
Definition bind_column (new_cls : ModelClass) (item : string * FieldInfo)
    : result ModelClass :=
  col ← get_column_from_field item.2;
  mret (class_setattr new_cls item.1 (AttrColumn col)).

(** The part of [SQLModelMetaclass.__new__] between [super().__new__] and
    the registry: [config_table = get_config("table")] and what follows
    [if config_table is True]. *)
Definition SQLModelMetaclass___new___table (new_cls : ModelClass)
    (kwargs : gmap string pyval) : result ModelClass :=
  let config_table := get_config new_cls kwargs "table" in
  if bool_decide (config_table = Given (PyBool true)) then
    (* If it was passed by kwargs, ensure it's also set in config *)
    let new_cls := compat.set_config_value new_cls "table" (PyBool true) in
    new_cls ← for_each bind_column (model_fields new_cls) new_cls;
    let new_cls :=
      compat.set_config_value new_cls "read_from_attributes" (PyBool true) in
    let new_cls :=
      compat.set_config_value new_cls "read_with_orm_mode" (PyBool true) in
    mret new_cls
  else mret new_cls.

(** *** Instances under pydantic 1: [from_orm] and [_calculate_keys] *)

Definition _value_items_is_true (v : pyval) : bool :=
  match v with
  | PyBool true | PyEllipsis => true
  | _ => false
  end.

(** [SQLModel._calculate_keys].  [self.__fields__.keys()] are the names of
    the validation fields. *)
Definition _calculate_keys (self : Instance)
    (include exclude : option (gmap string pyval)) (exclude_unset : bool)
    (update : option (gmap string pyval)) : gset string :=
  let fields_keys : gset string :=
    list_to_set (model_fields (__class__ self)).*1 in
  if bool_decide (include = None) && bool_decide (exclude = None)
     && negb exclude_unset
  then fields_keys
  else
    let keys := if exclude_unset then __fields_set__ self else fields_keys in
    let keys :=
      match include with
      | Some include => keys ∩ dom include
      | None => keys
      end in
    let keys :=
      match update with
      | Some update => keys ∖ dom update
      | None => keys
      end in
    let keys :=
      match exclude with
      | Some exclude =>
          keys ∖ dom (filter (λ kv, _value_items_is_true kv.2 = true) exclude)
      | None => keys
      end in
    keys.

Section pydantic1.

Variable is_instrumented : Instance → string → bool.
Variable validate_assignment : ModelClass → string → pyval → result pyval.
Variable validate_model :
  ModelClass → gmap string pyval →
  list (string * pyval) * gset string * option exn.
Variable BaseModel___init__ :
  ModelClass → gmap string pyval → result (gmap string pyval * gset string).

(** [cls()] under pydantic 1: [__new__] then [__init__] without keyword
    arguments. *)
Definition construct_empty (cls : ModelClass) : result Instance :=
  match SQLModel___init__ is_instrumented validate_assignment validate_model
          BaseModel___init__ false (SQLModel___new__ cls) ∅ with
  | (m, None) => mret m
  | (_, Some e) => raise e
  end.

(** [SQLModel.from_orm].  [decomposed] is [cls._decompose_class(obj)];
    pydantic's [ConfigError] is a [RuntimeError]. *)
Definition from_orm (cls : ModelClass) (custom_root_type : bool)
    (obj : pyval) (decomposed : gmap string pyval)
    (update : option (gmap string pyval)) : result Instance :=
  _ ← raise_if
        (negb (truthy (compat.get_config_value cls "orm_mode" (PyBool false))))
        (RuntimeError
           "You must have the config attribute orm_mode=True to use from_orm");
  let obj : gmap string pyval :=
    if custom_root_type then {[ "__root__" := obj ]} else decomposed in
  (* SQLModel, support update dict *)
  let obj :=
    match update with
    | Some update => update ∪ obj
    | None => obj
    end in
  let table := truthy (compat.get_config_value cls "table" (PyBool false)) in
  m ← (if negb table then
         (* If not table, normal Pydantic code *)
         mret (SQLModel___new__ cls)
       else
         (* If table, create the new instance normally to make SQLAlchemy
            create the _sa_instance_state attribute *)
         construct_empty cls);
  let '(values, fields_set, validation_error) := validate_model cls obj in
  _ ← match validation_error with
      | Some validation_error => raise validation_error
      | None => mret tt
      end;
  (* Updated to trigger SQLAlchemy internal handling *)
  m ← (if negb table then
         mret (mkInstance (__class__ m) (list_to_map values)
                 (__fields_set__ m) (trace m))
       else
         match setattr_each is_instrumented validate_assignment values m with
         | (m, None) => mret m
         | (_, Some e) => raise e
         end);
  mret (mkInstance (__class__ m) (__dict__ m) fields_set (trace m)).

End pydantic1.

End main.

Import main.

(** ** Notions used in the statements *)

(** Some shorthand mapping hint or extra column argument is supplied. *)
Definition has_shorthand_hint (args : Field_args) : bool :=
  is_not_Undefined (arg_primary_key args)
  || is_not_Undefined (arg_nullable args)
  || is_not_Undefined (arg_foreign_key args)
  || is_not_Undefined (arg_unique args)
  || is_not_Undefined (arg_index args)
  || is_not_Undefined (arg_sa_type args)
  || is_not_Undefined (arg_sa_column_args args)
  || is_not_Undefined (arg_sa_column_kwargs args).

(** [Field] is given a default that is a value (not [Ellipsis]) together
    with a default factory, which pydantic refuses. *)
Definition default_with_factory (args : Field_args) : bool :=
  match arg_default args with
  | Undefined | Given PyEllipsis => false
  | Given _ => bool_decide (arg_default_factory args ≠ None)
  end.

(** The error pydantic raises for it. *)
Definition default_and_factory_error : exn :=
  TypeError "cannot specify both default and default_factory".

(** The spec's ConfigurationError is the [RuntimeError] of the builders. *)
Definition is_ConfigurationError (e : exn) : Prop :=
  ∃ msg, e = RuntimeError msg.


(** Inputs used in the examples below. *)
Definition manual_column : Column := mkColumn (AutoString None) [] ∅.

Definition Field_sa_column_only : Field_args :=
  mkField_args Undefined None None None None None None Undefined Undefined
    Undefined Undefined Undefined Undefined (Given manual_column) Undefined
    Undefined.

Definition Field_sa_column_and_primary_key : Field_args :=
  mkField_args Undefined None None None None None None (Given true) Undefined
    Undefined Undefined Undefined Undefined (Given manual_column) Undefined
    Undefined.

(** ** Notions used in the statements about columns *)

(** The [nullable] keyword of a column. *)
Definition column_nullable (col : Column) : option pyval :=
  column_kwargs col !! "nullable".

(** The [primary_key] hint, with [Undefined] read as [False]. *)
Definition is_primary_key (field : FieldInfo) : bool :=
  match primary_key field with
  | Given primary_key => primary_key
  | Undefined => false
  end.

(** The annotation is a union, written [Union[...]] or [X | Y]. *)
Definition is_union (a : Annotation) : bool :=
  match a with
  | AUnion _ => true
  | AGeneric origin _ => bool_decide (origin = UnionType)
  | _ => false
  end.

(** The field's type is optional: a union one of whose members is
    [NoneType]. *)
Definition is_optional (a : Annotation) : bool :=
  is_union a && existsb is_NoneType (get_args a).

(** The annotation is [None] or [NoneType] itself. *)
Definition is_none_annotation (a : Annotation) : bool :=
  match a with ANone => true | _ => false end || is_NoneType a.

(** "Carries a none-compatible default", read from the words: the default
    is [None]. *)
Definition none_compatible_default (field : FieldInfo) : bool :=
  bool_decide (default field = Given PyNone).

(** What [_is_field_noneable] tests besides optionality: a static default
    on a field whose annotation is [None] or [NoneType]. *)
Definition none_typed_with_default (field : FieldInfo) : bool :=
  is_not_Undefined (default field) && is_none_annotation (annotation field).

(** C1 as the specification words it, for the column [col] derived from
    [field]: an explicit override decides ("override always wins");
    without one a primary key is not nullable, and any other field is
    nullable if and only if its type is optional or it carries a
    none-compatible default. *)
Definition C1_as_stated (field : FieldInfo) (col : Column) : Prop :=
  match nullable field with
  | Given override => column_nullable col = Some (PyBool override)
  | Undefined =>
      if is_primary_key field
      then column_nullable col = Some (PyBool false)
      else column_nullable col = Some (PyBool true)
           ↔ is_optional (annotation field) = true
             ∨ none_compatible_default field = true
  end.

Definition int_class : PyClass := mkClass "builtins" "int" [int; object_].
Definition str_class : PyClass := mkClass "builtins" "str" [str; object_].
Definition Decimal_class : PyClass :=
  mkClass "decimal" "Decimal" [Decimal; object_].

(** A field descriptor with the given annotation and default and no
    mapping hint. *)
Definition plain_field (a : Annotation) (d : undefinable pyval) : FieldInfo :=
  mkFieldInfo a d None [] None None None Undefined Undefined Undefined
    Undefined Undefined Undefined Undefined Undefined Undefined.

(** [age: int = None]: a default of [None] on a type that is not
    optional. *)
Definition none_default_int_field : FieldInfo :=
  plain_field (AClass int_class) (Given PyNone).

(** [id: int = Field(primary_key=True, nullable=True)]. *)
Definition nullable_primary_key_field : FieldInfo :=
  mkFieldInfo (AClass int_class) Undefined None [] None None None
    (Given true) (Given true) Undefined Undefined Undefined Undefined
    Undefined Undefined Undefined.

(** [team_id: Optional[int] = Field(default=None, foreign_key="team.id")]. *)
Definition optional_foreign_key_field : FieldInfo :=
  mkFieldInfo (Optional (AClass int_class)) (Given PyNone) None [] None None
    None Undefined Undefined (Given (PyStr "team.id")) Undefined Undefined
    Undefined Undefined Undefined Undefined.

(** [team_id: int = Field(foreign_key="team.id")]. *)
Definition required_foreign_key_field : FieldInfo :=
  mkFieldInfo (AClass int_class) Undefined None [] None None None Undefined
    Undefined (Given (PyStr "team.id")) Undefined Undefined Undefined
    Undefined Undefined Undefined.

(** [id: Optional[int] = Field(default=None, primary_key=True)]. *)
Definition optional_primary_key_field : FieldInfo :=
  mkFieldInfo (Optional (AClass int_class)) (Given PyNone) None [] None None
    None (Given true) Undefined Undefined Undefined Undefined Undefined
    Undefined Undefined Undefined.

(** ** Notions used in the statements about the type mapping *)

(** The dispatch order of the type mapping as a table: library class,
    storage type.  [string_type] is the row for [str]. *)
Definition storage_type_priority (c : PyClass) (metadata : metadata_item)
    (string_type : sqltype) : list (builtin * sqltype) :=
  [ (Enum, sa_Enum c);
    (str, string_type);
    (float, Float);
    (bool_, Boolean);
    (int, Integer);
    (datetime, DateTime);
    (date, Date);
    (timedelta, Interval);
    (time, Time);
    (bytes, LargeBinary);
    (Decimal, Numeric (max_digits metadata) (decimal_places metadata));
    (IPv4Address, AutoString None);
    (IPv4Network, AutoString None);
    (IPv6Address, AutoString None);
    (IPv6Network, AutoString None);
    (Path, AutoString None);
    (UUID, GUID) ].

(** The storage type of the first row whose class is a base of [c]. *)
Fixpoint first_match (c : PyClass) (table : list (builtin * sqltype))
    : option sqltype :=
  match table with
  | [] => None
  | (b, t) :: table => if issubclass c b then Some t else first_match c table
  end.

(** The spec's UnmappableTypeError for the class [c]. *)
Definition UnmappableTypeError (c : PyClass) : exn :=
  ValueError (class_repr c +:+ " has no matching SQLAlchemy type").

Definition dispatch_by_priority (c : PyClass) (metadata : metadata_item)
    (string_type : sqltype) : result sqltype :=
  match first_match c (storage_type_priority c metadata string_type) with
  | Some t => mret t
  | None => raise (UnmappableTypeError c)
  end.

(** The string row of the code: a max-length that is missing or zero is
    not applied. *)
Definition string_type_nonzero (metadata : metadata_item) : sqltype :=
  AutoString (if truthy_int (max_length metadata) then max_length metadata
              else None).

(** The annotation is the class [c] or [Optional[c]], in either spelling
    and either order of the union. *)
Inductive class_or_optional (c : PyClass) : Annotation → Prop :=
| plain_class : class_or_optional c (AClass c)
| optional_class : class_or_optional c (AUnion [AClass c; ANoneType])
| optional_class_rev : class_or_optional c (AUnion [ANoneType; AClass c])
| optional_class_604 : class_or_optional c (Union604 [AClass c; ANoneType])
| optional_class_604_rev :
    class_or_optional c (Union604 [ANoneType; AClass c]).

(** A union of two or more members none of which is [NoneType]. *)
Definition non_optional_union (a : Annotation) : Prop :=
  is_union a = true
  ∧ (2 ≤ length (get_args a))%nat
  ∧ Forall (λ arg, is_NoneType arg = false) (get_args a).

(** The class is a string class that is no enumeration: the type mapping
    reaches the string row for it. *)
Definition maps_as_string (c : PyClass) : Prop :=
  issubclass c Enum = false ∧ issubclass c str = true.

(** The class reaches the decimal row of the type mapping: none of the
    rows before it matches. *)
Definition maps_as_decimal (c : PyClass) : Prop :=
  Forall (λ b, issubclass c b = false)
    [Enum; str; float; bool_; int; datetime; date; timedelta; time; bytes]
  ∧ issubclass c Decimal = true.

(** [Field(max_length=n)]. *)
Definition Field_max_length (n : Z) : Field_args :=
  mkField_args Undefined None None None None None (Some n) Undefined Undefined
    Undefined Undefined Undefined Undefined Undefined Undefined Undefined.

(** [Field(max_digits=5, decimal_places=2)]. *)
Definition Field_decimal : Field_args :=
  mkField_args Undefined None None None (Some 5) (Some 2) None Undefined
    Undefined Undefined Undefined Undefined Undefined Undefined Undefined
    Undefined.

(** [price: Decimal = Field(max_digits=5, decimal_places=2)], as the class
    holds it. *)
Definition decimal_field : FieldInfo :=
  mkFieldInfo (AClass Decimal_class) Undefined None
    [mkMeta true None (Some 5) (Some 2)] None None None Undefined Undefined
    Undefined Undefined Undefined Undefined Undefined Undefined Undefined.

(** [class Color(str, Enum)]. *)
Definition Color_class : PyClass :=
  mkClass "__main__" "Color" [str; Enum; object_].

(** ** Notions used in the statements about relationships *)

(** What a relationship target resolves to: a class stays itself, a
    forward reference becomes the name it carries. *)
Definition resolved_target (target : Annotation) : Annotation :=
  match target with
  | AForwardRef name => AStr name
  | _ => target
  end.

(** A relationship target: a class other than [NoneType], or a forward
    reference to a class by name. *)
Definition is_target (target : Annotation) : Prop :=
  (∃ c, target = AClass c ∧ c ≠ NoneType) ∨ (∃ name, target = AForwardRef name).

(** The three annotation shapes of a relationship to [target]. *)
Inductive relationship_shape (target : Annotation) : Annotation → Prop :=
| shape_direct : relationship_shape target target
| shape_optional : relationship_shape target (Optional target)
| shape_list : relationship_shape target (List target).

(** A [typing.Union] of two or more classes, none of them [NoneType]. *)
Definition union_of_concrete_types (a : Annotation) : Prop :=
  ∃ args, a = AUnion args
          ∧ (2 ≤ length args)%nat
          ∧ Forall (λ arg, ∃ c, arg = AClass c ∧ c ≠ NoneType) args.

Definition Hero : PyClass := mkClass "__main__" "Hero" [object_].
Definition Team : PyClass := mkClass "__main__" "Team" [object_].

Definition plain_relationship : RelationshipInfo :=
  mkRelationshipInfo None None None None None.

(** ** Notions used in the statements about determinism and table names *)

(** Two descriptors carry the same type, default, constraints and mapping
    hints; they may still differ in their documentation-only attributes
    and in [original_default]. *)
Definition same_mapping_input (f1 f2 : FieldInfo) : Prop :=
  annotation f1 = annotation f2
  ∧ default f1 = default f2
  ∧ default_factory f1 = default_factory f2
  ∧ metadata f1 = metadata f2
  ∧ primary_key f1 = primary_key f2
  ∧ nullable f1 = nullable f2
  ∧ foreign_key f1 = foreign_key f2
  ∧ unique f1 = unique f2
  ∧ index f1 = index f2
  ∧ sa_type f1 = sa_type f2
  ∧ sa_column f1 = sa_column f2
  ∧ sa_column_args f1 = sa_column_args f2
  ∧ sa_column_kwargs f1 = sa_column_kwargs f2.

(** [team_id: Optional[int] = Field(default=None, foreign_key="team.id",
    title="Team", description="the hero's team")]. *)
Definition documented_foreign_key_field : FieldInfo :=
  mkFieldInfo (Optional (AClass int_class)) (Given PyNone) None [] (Some "Team")
    (Some "the hero's team") None Undefined Undefined
    (Given (PyStr "team.id")) Undefined Undefined Undefined Undefined
    Undefined Undefined.

(** An upper-case ASCII letter. *)
Definition is_upper (c : ascii) : bool :=
  let n := nat_of_ascii c in (65 <=? n)%nat && (n <=? 90)%nat.

(** Every character of the string is an ASCII character. *)
Fixpoint is_ascii (s : string) : bool :=
  match s with
  | EmptyString => true
  | String c s => (nat_of_ascii c <? 128)%nat && is_ascii s
  end.

(** [class Hero(SQLModel, table=True)] with no attribute of its own. *)
Definition Hero_model : ModelClass :=
  mkModelClass "Hero" (Some {[ "table" := PyBool true ]}) [] ∅ [] ∅.

(** ** Notions used in the statements about instances *)

(** The instance belongs to a storage-backed class:
    [get_config_value(self, "table", False)] is true. *)
Definition storage_backed (cls : ModelClass) : Prop :=
  truthy (compat.get_config_value cls "table" (PyBool false)) = true.

(** The names of the relationship attributes of a class. *)
Definition relationship_names (cls : ModelClass) : list string :=
  (__sqlmodel_relationships__ cls).*1.

(** [class Hero(SQLModel, table=True)] with the fields [name] and
    [team_id] and the relationship [team]. *)
Definition Hero_with_team : ModelClass :=
  mkModelClass "Hero" (Some {[ "table" := PyBool true ]})
    [("team", mkRelationshipInfo (Some "heroes") None None None None)]
    {[ "team" := Optional (AClass Team) ]}
    [("name", plain_field (AClass str_class) Undefined);
     ("team_id", optional_foreign_key_field)]
    ∅.

(** The same declaration without [table=True]. *)
Definition Hero_data_model : ModelClass :=
  mkModelClass "Hero" (Some ∅) [] ∅
    [("name", plain_field (AClass str_class) Undefined);
     ("team_id", optional_foreign_key_field)]
    ∅.

(** Every attribute is instrumented; assignment validation accepts every
    value unchanged. *)
Definition all_instrumented (self : Instance) (name : string) : bool := true.
Definition accept_assignment (cls : ModelClass) (name : string) (value : pyval)
    : result pyval := mret value.

(** ** Notions used in the statements about relationship wiring *)

(** The class is storage-backed: [cls_is_table(cls)] is true. *)
Definition is_table_class (cls : ModelClass) : Prop :=
  truthy (_compat.cls_is_table cls) = true.

Definition heroes_relationship : RelationshipProperty :=
  mkRelationshipProperty (AStr "Hero") [] {[ "lazy" := PyStr "selectin" ]}.

(** [class Team(SQLModel, table=True)] whose relationship [heroes] carries
    an explicit SQLAlchemy relationship and has no annotation at all. *)
Definition Team_with_override : ModelClass :=
  mkModelClass "Team" (Some {[ "table" := PyBool true ]})
    [("heroes",
      mkRelationshipInfo None None (Some heroes_relationship) None None)]
    ∅ [] ∅.

(** ** Notions used in the statements about construction *)

(** [validate_model] with its error report dropped. *)
Definition without_error_report
    (validate_model :
       ModelClass → gmap string pyval →
       list (string * pyval) * gset string * option exn)
    (cls : ModelClass) (data : gmap string pyval)
    : list (string * pyval) * gset string * option exn :=
  let '(values, fields_set, _) := validate_model cls data in
  (values, fields_set, None).

(** A validation layer for the examples: [age] must be an integer and
    [name] a string; every failing field is reported. *)
Definition example_errors (data : gmap string pyval)
    : list validation_error_item :=
  match data !! "age" with
  | Some (PyInt _) | None => []
  | Some _ => [ErrorItem "age" "value is not a valid integer"]
  end ++
  match data !! "name" with
  | Some (PyStr _) | None => []
  | Some _ => [ErrorItem "name" "str type expected"]
  end.

Definition example_BaseModel___init__ (cls : ModelClass)
    (data : gmap string pyval) : result (gmap string pyval * gset string) :=
  match example_errors data with
  | [] => mret (data, dom data)
  | errors => raise (ValidationError errors)
  end.

Definition example_validate_model (cls : ModelClass)
    (data : gmap string pyval)
    : list (string * pyval) * gset string * option exn :=
  match example_errors data with
  | [] => (map_to_list data, dom data, None)
  | errors => ([], ∅, Some (ValidationError errors))
  end.

(** [Hero(age="old", name=3)]. *)
Definition bad_hero_data : gmap string pyval :=
  {[ "age" := PyStr "old"; "name" := PyInt 3 ]}.

(** ** Notions used in the statements about injected defaults *)

(** What pydantic's validation does with a required field that the input
    does not provide: [BaseModel.__init__] raises a [ValidationError]. *)
Definition rejects_missing_required
    (BaseModel___init__ :
       ModelClass → gmap string pyval →
       result (gmap string pyval * gset string)) : Prop :=
  ∀ cls data name field,
    (name, field) ∈ model_fields cls →
    is_required field = true →
    data !! name = None →
    ∃ errors, BaseModel___init__ cls data = raise (ValidationError errors).

(** A validation layer for the examples: every required field that the
    input does not provide is reported; the declared fields that are
    provided are accepted as they are. *)
Definition missing_fields (cls : ModelClass) (data : gmap string pyval)
    : list validation_error_item :=
  omap (λ item : string * FieldInfo,
          if is_required item.2 && bool_decide (data !! item.1 = None)
          then Some (ErrorItem item.1 "Field required")
          else None)
    (model_fields cls).

Definition required_BaseModel___init__ (cls : ModelClass)
    (data : gmap string pyval) : result (gmap string pyval * gset string) :=
  match missing_fields cls data with
  | [] =>
      let known := filter (λ kv, kv.1 ∈ (model_fields cls).*1) data in
      mret (known, dom known)
  | errors => raise (ValidationError errors)
  end.

(** The fields of [class Base(SQLModel): name: str]. *)
Definition Base_fields : list (string * FieldInfo) :=
  [("name", plain_field (AClass str_class) Undefined)].

(** [class Hero3(Base, table=True): pass], as pydantic builds it. *)
Definition Hero3 : ModelClass :=
  mkModelClass "Hero3" (Some {[ "table" := PyBool true ]}) [] ∅ Base_fields ∅.

(** The annotations of [class Hero: id: int]. *)
Definition id_annotations : gmap string Annotation :=
  {[ "id" := AClass int_class ]}.

(** ** Notions used in the further statements *)

(** [a] wraps [target] in [n] layers of [Optional[...]] (either order,
    either spelling) and [List[...]]. *)
Inductive wraps (target : Annotation) : nat → Annotation → Prop :=
| wraps_target : wraps target 0 target
| wraps_optional n a :
    wraps target n a → wraps target (S n) (AUnion [a; ANoneType])
| wraps_optional_rev n a :
    wraps target n a → wraps target (S n) (AUnion [ANoneType; a])
| wraps_optional_604 n a :
    wraps target n a → wraps target (S n) (Union604 [a; ANoneType])
| wraps_optional_604_rev n a :
    wraps target n a → wraps target (S n) (Union604 [ANoneType; a])
| wraps_list n a : wraps target n a → wraps target (S n) (List a).

(** [heroes: Optional[List["Hero"]]]. *)
Definition optional_list_of_Hero : Annotation :=
  Optional (List (AForwardRef "Hero")).

(** The library classes that have a row in the type mapping. *)
Definition mapped_bases : list builtin :=
  [Enum; str; float; bool_; int; datetime; date; timedelta; time; bytes;
   Decimal; IPv4Address; IPv4Network; IPv6Address; IPv6Network; Path; UUID].

(** The positional arguments a foreign-key hint contributes to a column. *)
Definition foreign_key_args (field : FieldInfo) : list column_arg :=
  match foreign_key field with
  | Given (PyStr target) =>
      if bool_decide (target = "") then [] else [ForeignKey target]
  | _ => []
  end.

(** The foreign-key hint is true but is not a string. *)
Definition bad_foreign_key (field : FieldInfo) : Prop :=
  ∃ fk, foreign_key field = Given fk ∧ truthy fk = true ∧ ∀ s, fk ≠ PyStr s.

(** The keywords every derived column carries. *)
Definition shorthand_keywords : list string :=
  ["primary_key"; "nullable"; "index"; "unique"].

(** [created: datetime = Field(default_factory=now,
    sa_column_args=[CheckConstraint(...)])]. *)
Definition factory_field : FieldInfo :=
  mkFieldInfo
    (AClass (mkClass "datetime" "datetime" [datetime; date; object_]))
    Undefined (Some "now") [] None None None Undefined Undefined
    Undefined Undefined Undefined Undefined Undefined
    (Given [ColumnArg "CheckConstraint"]) Undefined.

Definition extra_kwargs_field : FieldInfo :=
  mkFieldInfo (AClass int_class) Undefined None [] None None None
    (Given true) Undefined (Given (PyStr "team.id")) Undefined Undefined
    Undefined Undefined Undefined
    (Given {[ "primary_key" := PyBool false; "comment" := PyStr "c" ]}).

(** [team_id: int = Field(foreign_key=7)]. *)
Definition int_foreign_key_field : FieldInfo :=
  mkFieldInfo (AClass int_class) Undefined None [] None None None Undefined
    Undefined (Given (PyInt 7)) Undefined Undefined Undefined Undefined
    Undefined Undefined.

(** The namespace entry is a field descriptor that [set_empty_defaults]
    rewrites: no default (or [Ellipsis]) and no factory. *)
Definition rewritten_by_injection (attr : class_attr) : Prop :=
  ∃ value,
    attr = AttrFieldInfo value
    ∧ (default value = Undefined ∨ default value = Given PyEllipsis)
    ∧ default_factory value = None.

(** The body of [class Hero: name: str; team_id = Field(...); team =
    Relationship(back_populates="heroes")]. *)
Definition Hero_class_dict : list (string * class_attr) :=
  [("team_id", AttrFieldInfo optional_foreign_key_field);
   ("team",
    AttrRelationshipInfo (mkRelationshipInfo (Some "heroes") None None None
                            None))].

Definition Hero_annotations : gmap string Annotation :=
  {[ "name" := AClass str_class;
     "team_id" := Optional (AClass int_class);
     "team" := Optional (AClass Team) ]}.

(** The keywords phase 2 infers for a relationship, before the explicit
    extra keywords are merged over them. *)
Definition inferred_keywords (rel_info : RelationshipInfo)
    (base : gmap string pyval) : Prop :=
  base !! "back_populates"
  = match back_populates rel_info with
    | Some name => if bool_decide (name = "") then None else Some (PyStr name)
    | None => None
    end
  ∧ base !! "secondary"
    = match link_model rel_info with
      | Some link => PyObject <$> local_table link
      | None => None
      end
  ∧ (∀ link, link_model rel_info = Some link →
       mapped link = true ∧ is_Some (local_table link)).

Definition HeroTeamLink : PyClass :=
  mkClass "__main__" "HeroTeamLink" [object_].

(** [class Hero] with [teams: List["Team"] = Relationship(
    back_populates="heroes", link_model=HeroTeamLink,
    sa_relationship_kwargs={"lazy": "selectin", "back_populates": "x"})]. *)
Definition teams_relationship_info : RelationshipInfo :=
  mkRelationshipInfo (Some "heroes")
    (Some (mkLinkModel HeroTeamLink true (Some "heroteamlink")))
    None None
    (Some {[ "lazy" := PyStr "selectin"; "back_populates" := PyStr "x" ]}).

Definition Hero_with_teams : ModelClass :=
  mkModelClass "Hero" (Some {[ "table" := PyBool true ]})
    [("teams", teams_relationship_info)]
    {[ "teams" := List (AForwardRef "Team") ]} [] ∅.

(** The same relationship with a link model that is a plain class, not
    known to the mapping layer. *)
Definition unmapped_link_info : RelationshipInfo :=
  mkRelationshipInfo (Some "heroes")
    (Some (mkLinkModel HeroTeamLink false None)) None None None.

(** [ev] is the mapping-layer write of a relationship of [cls] with the
    value the keyword arguments [data] give it. *)
Definition relationship_write (cls : ModelClass) (data : gmap string pyval)
    (ev : event) : Prop :=
  ∃ name value,
    ev = MappingWrite name value
    ∧ name ∈ relationship_names cls
    ∧ data !! name = Some value.

(** Assignment validation that rejects every value. *)
Definition reject_assignment (cls : ModelClass) (name : string) (value : pyval)
    : result pyval :=
  raise (ValidationError [ErrorItem name "rejected"]).

(** [Hero(team=Team(), name="Rusty", nickname="R")]. *)
Definition hero_data : gmap string pyval :=
  {[ "team" := PyObject "Team()"; "name" := PyStr "Rusty";
     "nickname" := PyStr "R" ]}.

(** A validation layer that accepts the declared fields of the class as
    they are and ignores the other keywords. *)
Definition accept_BaseModel___init__ (cls : ModelClass)
    (data : gmap string pyval) : result (gmap string pyval * gset string) :=
  let known := filter (λ kv, kv.1 ∈ (model_fields cls).*1) data in
  mret (known, dom known).

Definition accept_validate_model (cls : ModelClass) (data : gmap string pyval)
    : list (string * pyval) * gset string * option exn :=
  let known := filter (λ kv, kv.1 ∈ (model_fields cls).*1) data in
  (map_to_list known, dom known, None).

(** The mapping layer instruments the relationship attributes of the
    class of the instance and nothing else. *)
Definition relationships_instrumented (self : Instance) (name : string)
    : bool :=
  bool_decide (name ∈ relationship_names (__class__ self)).

(** The mapping-layer writes of the keywords [data] that name a
    relationship of [cls] and no field, in the order of the list. *)
Definition relationship_writes (cls : ModelClass) (data : gmap string pyval)
    : list event :=
  (λ kv, MappingWrite kv.1 kv.2)
  <$> filter (λ kv, kv.1 ∈ relationship_names cls)
        (map_to_list (filter (λ kv, kv.1 ∉ (model_fields cls).*1) data)).

(** An instance of [Hero_with_team] whose field [name] was set. *)
Definition hero_instance : Instance :=
  mkInstance Hero_with_team {[ "name" := PyStr "Rusty" ]} {[ "name" ]} [].

(** [class Hero(SQLModel, table=True)] as [super().__new__] returns it:
    the fields are known, nothing is bound yet and the configuration does
    not say [table]. *)
Definition Hero_new_cls : ModelClass :=
  mkModelClass "Hero" (Some ∅) [] ∅
    [("name", plain_field (AClass str_class) Undefined);
     ("team_id", optional_foreign_key_field)]
    ∅.
(** ** Properties of the field builder *)

Lemma raise_if_RuntimeError cond msg e :
  raise_if cond (RuntimeError msg) = inl e → is_ConfigurationError e.
Proof.
  unfold raise_if. destruct cond; [|discriminate].
  intros [= <-]. by exists msg.
Qed.

Lemma Field_with_hint_raises args col :
  arg_sa_column args = Given col →
  has_shorthand_hint args = true →
  ∃ msg, Field args = raise (RuntimeError msg).
Proof.
  intros Hcol Hhint. unfold Field, FieldInfo___init__, has_shorthand_hint in *.
  cbn [kw_primary_key kw_nullable kw_foreign_key kw_unique kw_index
       kw_sa_type kw_sa_column kw_sa_column_args kw_sa_column_kwargs pop
       from_option id].
  rewrite Hcol. cbn [is_not_Undefined is_Undefined negb].
  destruct (arg_sa_column_args args); cbn; [|eauto].
  destruct (arg_sa_column_kwargs args); cbn; [|eauto].
  destruct (arg_primary_key args); cbn; [|eauto].
  destruct (arg_nullable args); cbn; [|eauto].
  destruct (arg_foreign_key args); cbn; [|eauto].
  destruct (arg_unique args); cbn; [|eauto].
  destruct (arg_index args); cbn; [|eauto].
  destruct (arg_sa_type args); cbn; [|eauto].
  discriminate Hhint.
Qed.

(** What pydantic's initialiser makes of the default [Field] passes. *)
Lemma pydantic_FieldInfo___init___cases args :
  pydantic.FieldInfo___init__ (arg_default args) (arg_default_factory args)
  = if default_with_factory args then raise default_and_factory_error
    else mret match arg_default args with
              | Given PyEllipsis => Undefined
              | default => default
              end.
Proof.
  unfold pydantic.FieldInfo___init__, default_with_factory.
  destruct (arg_default args) as [|[]]; cbn; try reflexivity;
    by case_bool_decide.
Qed.

(** [Field] raises nothing but the configuration error and pydantic's
    [TypeError]. *)
Lemma Field_errors args e :
  Field args = inl e → is_ConfigurationError e ∨ e = default_and_factory_error.
Proof.
  unfold Field, FieldInfo___init__.
  cbn [kw_primary_key kw_nullable kw_foreign_key kw_unique kw_index
       kw_sa_type kw_sa_column kw_sa_column_args kw_sa_column_kwargs
       kw_default_factory pop from_option id].
  rewrite pydantic_FieldInfo___init___cases.
  destruct (arg_sa_column args); cbn.
  { intros H. right. revert H.
    destruct (default_with_factory args); cbn; [by intros [= <-]|done]. }
  destruct (arg_sa_column_args args); cbn;
    [|intros [= <-]; left; by eexists].
  destruct (arg_sa_column_kwargs args); cbn;
    [|intros [= <-]; left; by eexists].
  destruct (arg_primary_key args); cbn; [|intros [= <-]; left; by eexists].
  destruct (arg_nullable args); cbn; [|intros [= <-]; left; by eexists].
  destruct (arg_foreign_key args); cbn; [|intros [= <-]; left; by eexists].
  destruct (arg_unique args); cbn; [|intros [= <-]; left; by eexists].
  destruct (arg_index args); cbn; [|intros [= <-]; left; by eexists].
  destruct (arg_sa_type args); cbn; [|intros [= <-]; left; by eexists].
  intros H. right. revert H.
  destruct (default_with_factory args); cbn; [by intros [= <-]|done].
Qed.

(** A manual column without any hint passes the checks of the builder;
    what remains is pydantic's own check of the default. *)
Lemma Field_without_hint args col :
  arg_sa_column args = Given col →
  has_shorthand_hint args = false →
  if default_with_factory args
  then Field args = raise default_and_factory_error
  else ∃ field_info,
         Field args = mret field_info ∧ sa_column field_info = Given col.
Proof.
  intros Hcol Hhint. unfold Field, FieldInfo___init__, has_shorthand_hint in *.
  cbn [kw_primary_key kw_nullable kw_foreign_key kw_unique kw_index
       kw_sa_type kw_sa_column kw_sa_column_args kw_sa_column_kwargs
       kw_default_factory pop from_option id].
  rewrite pydantic_FieldInfo___init___cases.
  rewrite Hcol.
  destruct (arg_primary_key args), (arg_nullable args),
    (arg_foreign_key args), (arg_unique args), (arg_index args),
    (arg_sa_type args), (arg_sa_column_args args),
    (arg_sa_column_kwargs args); try discriminate Hhint.
  destruct (default_with_factory args); cbn; [reflexivity|].
  eexists. split; reflexivity.
Qed.

Lemma eval_class_body_app before body :
  eval_class_body (before ++ body)
  = class_dict0 ← eval_class_body before;
    class_dict1 ← eval_class_body body;
    mret (class_dict0 ++ class_dict1).
Proof.
  induction before as [|[n0 d0] before IH]; cbn.
  - by destruct (eval_class_body body).
  - destruct (eval_declaration d0); cbn; [done|].
    rewrite IH. destruct (eval_class_body before); cbn; [done|].
    by destruct (eval_class_body body).
Qed.

(** A failing declaration fails the whole class statement, whatever the
    metaclass would have done; when the declarations before it are
    accepted, the statement raises the error of that declaration. *)
Lemma class_statement_raises metaclass_call before name d after e :
  eval_declaration d = raise e →
  raises (class_statement metaclass_call (before ++ (name, d) :: after))
  = true
  ∧ (raises (eval_class_body before) = false →
     class_statement metaclass_call (before ++ (name, d) :: after)
     = raise e).
Proof.
  intros Hd. unfold class_statement. rewrite eval_class_body_app.
  cbn [eval_class_body]. rewrite Hd.
  destruct (eval_class_body before); cbn; [by split|by split].
Qed.

(** C4: a manual column override ([sa_column]) passed to [Field] together
    with any shorthand mapping hint (primary_key, nullable, foreign_key,
    unique, index, sa_type, sa_column_args, sa_column_kwargs) makes [Field]
    raise the builder's configuration error ([RuntimeError]).  A class
    statement containing such a declaration raises while its body is
    evaluated, so the metaclass is never called and no class is produced,
    and what it raises is that configuration error whenever the
    declarations before it are accepted.  [sa_column] supplied alone
    raises no configuration error: the column is stored in the descriptor,
    unless pydantic refuses a default passed together with a default
    factory, with its own [TypeError]. *)
Theorem C4_manual_column_excludes_shorthand_hints
    (args : Field_args) (col : Column) :
  arg_sa_column args = Given col →
  (has_shorthand_hint args = true →
     ∃ msg,
       Field args = raise (RuntimeError msg)
       ∧ ∀ metaclass_call before name after,
           raises (class_statement metaclass_call
                     (before ++ (name, FieldDecl args) :: after))
           = true
           ∧ (raises (eval_class_body before) = false →
              class_statement metaclass_call
                (before ++ (name, FieldDecl args) :: after)
              = raise (RuntimeError msg)))
  ∧ (has_shorthand_hint args = false →
       (∀ e, Field args = raise e → ¬ is_ConfigurationError e)
       ∧ (default_with_factory args = false →
          ∃ field_info,
            Field args = mret field_info
            ∧ sa_column field_info = Given col)
       ∧ (default_with_factory args = true →
          Field args = raise default_and_factory_error)).
Proof.
  intros Hcol. split.
  - intros Hhint.
    destruct (Field_with_hint_raises _ _ Hcol Hhint) as [msg Hmsg].
    exists msg. split; [done|].
    intros metaclass_call before name after.
    apply class_statement_raises. cbn. by rewrite Hmsg.
  - intros Hhint. pose proof (Field_without_hint _ _ Hcol Hhint) as H.
    destruct (default_with_factory args).
    + split; [|split; [done|done]].
      intros e He [msg ->]. rewrite H in He. discriminate He.
    + destruct H as (field_info & H & Hsa).
      split; [|split; [by exists field_info|done]].
      intros e He. rewrite H in He. discriminate He.
Qed.

Lemma C4_witness :
  (∃ msg, Field Field_sa_column_and_primary_key = raise (RuntimeError msg))
  ∧ (∃ field_info,
       Field Field_sa_column_only = mret field_info
       ∧ sa_column field_info = Given manual_column).
Proof.
  split.
  - destruct (C4_manual_column_excludes_shorthand_hints
                Field_sa_column_and_primary_key manual_column eq_refl)
      as [H _].
    destruct (H eq_refl) as (msg & Hmsg & _). by exists msg.
  - destruct (C4_manual_column_excludes_shorthand_hints
                Field_sa_column_only manual_column eq_refl)
      as [_ H].
    destruct (H eq_refl) as (_ & Hok & _). by apply Hok.
Defined.

(** Calling the constructor directly, with [sa_column] as the only
    keyword, does raise: the popped defaults of [primary_key] and [unique]
    are [False], not [Undefined].  [Field] passes every keyword. *)
Lemma FieldInfo_direct_sa_column_raises :
  FieldInfo___init__ Undefined
    (mkFieldInfo_kwargs None None None None None None
       (Some (Given manual_column)) None None None None None None None None)
  = raise (RuntimeError
      "Passing primary_key is not supported when also passing a sa_column").
Proof. reflexivity. Qed.

(** ** Nullability of the derived column *)

Lemma _is_field_noneable_no_override field :
  nullable field = Undefined →
  _compat._is_field_noneable field
  = is_optional (annotation field) || none_typed_with_default field.
Proof.
  intros Hn. unfold _compat._is_field_noneable. rewrite Hn.
  unfold is_optional, none_typed_with_default, is_required,
    is_none_annotation, is_not_Undefined.
  assert (from_option _compat._is_union_type false
            (get_origin (annotation field))
          = is_union (annotation field)) as ->.
  { destruct (annotation field); try reflexivity.
    unfold _compat._is_union_type. cbn [is_class]. apply orb_false_r. }
  destruct (is_union (annotation field)
            && existsb is_NoneType (get_args (annotation field)));
    [reflexivity|].
  destruct (default field); cbn; [by destruct (negb _)|].
  by destruct (_ || _).
Qed.

Lemma get_column_from_field_nullable field col :
  sa_column field = Undefined →
  (∀ kw, sa_column_kwargs field = Given kw → kw !! "nullable" = None) →
  get_column_from_field field = mret col →
  column_nullable col
  = Some (PyBool
      match nullable field with
      | Given override => override
      | Undefined =>
          negb (is_primary_key field)
          && (is_optional (annotation field) || none_typed_with_default field)
      end).
Proof.
  intros Hcol Hkw. unfold get_column_from_field, column_nullable.
  rewrite Hcol.
  destruct (get_sqlalchemy_type field) as [e|ty]; [discriminate|]. cbn.
  match goal with
  | |- context [if ?c then _ else _] =>
      destruct (if c then _ else _) as [e|args]
  end; [discriminate|]. cbn.
  intros [= <-]. cbn.
  assert (∀ m : gmap string pyval,
    match sa_column_kwargs field with
    | Given kw => kw ∪ m | Undefined => m end !! "nullable"
    = m !! "nullable") as ->.
  { intros m. destruct (sa_column_kwargs field) as [|kw] eqn:Hk; [done|].
    rewrite lookup_union_r; [done|]. by apply Hkw. }
  assert (∀ m : gmap string pyval,
    match (match default_factory field with
           | Some factory => Given (PyCallable factory)
           | None => default field end) with
    | Given d => <["default" := d]> m | Undefined => m end !! "nullable"
    = m !! "nullable") as ->.
  { intros m.
    destruct (default_factory field); [|destruct (default field); [done|]];
      by rewrite lookup_insert_ne by discriminate. }
  rewrite lookup_insert_ne by discriminate. rewrite lookup_insert_eq.
  f_equal. f_equal. unfold is_primary_key.
  destruct (nullable field) eqn:Hn; [|done].
  by rewrite _is_field_noneable_no_override.
Qed.

(** C1, as amended: for a field without a manual column whose extra
    column keywords do not carry [nullable], the derived column's
    nullability is the explicit override whenever one is present, also on a
    primary key; without an override a primary key is never nullable,
    whatever the optionality of its type, and any other field is nullable
    if and only if its type is optional (a union with a [None] member) or
    it has a static default and is annotated [None]/[NoneType]. *)
Theorem C1_nullability (field : FieldInfo) (col : Column) :
  sa_column field = Undefined →
  (∀ kw, sa_column_kwargs field = Given kw → kw !! "nullable" = None) →
  get_column_from_field field = mret col →
  (∀ override, nullable field = Given override →
     column_nullable col = Some (PyBool override))
  ∧ (nullable field = Undefined → is_primary_key field = true →
       column_nullable col = Some (PyBool false))
  ∧ (nullable field = Undefined → is_primary_key field = false →
       (column_nullable col = Some (PyBool true)
        ↔ is_optional (annotation field) = true
          ∨ none_typed_with_default field = true)).
Proof.
  intros Hcol Hkw Hget.
  rewrite (get_column_from_field_nullable _ _ Hcol Hkw Hget).
  split; [|split].
  - by intros override ->.
  - by intros -> ->.
  - intros -> ->. cbn. rewrite <- orb_true_iff.
    split; [by intros [= ->]|by intros ->].
Qed.

Lemma C1_witness :
  ∃ col,
    get_column_from_field optional_primary_key_field = mret col
    ∧ column_nullable col = Some (PyBool false).
Proof.
  eexists. split; [reflexivity|].
  eapply (C1_nullability optional_primary_key_field);
    [reflexivity|intros kw; discriminate|reflexivity|reflexivity|reflexivity].
Defined.

(** C1 as worded fails on [age: int = None], a field that is no primary
    key and has no override: it carries the default [None], its type is
    not optional, and the derived column is not nullable. *)
Lemma C1_counterexample :
  match get_column_from_field none_default_int_field with
  | inr col => ¬ C1_as_stated none_default_int_field col
  | inl _ => False
  end.
Proof.
  destruct (get_column_from_field none_default_int_field) as [e|col] eqn:H;
    vm_compute in H; [discriminate|].
  injection H as <-. unfold C1_as_stated. cbn. intros [_ Hiff].
  specialize (Hiff (or_intror eq_refl)). vm_compute in Hiff.
  discriminate.
Qed.

(** A default of [None] on a non-optional type does not make the column
    nullable. *)
Lemma None_default_on_int_is_not_nullable :
  ∃ col,
    get_column_from_field none_default_int_field = mret col
    ∧ column_nullable col = Some (PyBool false)
    ∧ none_compatible_default none_default_int_field = true.
Proof. eexists. split; [reflexivity|]. split; reflexivity. Qed.

(** On a primary key that carries [nullable=True] the override wins, as
    the specification words it. *)
Lemma nullable_override_on_primary_key :
  ∃ col,
    get_column_from_field nullable_primary_key_field = mret col
    ∧ column_nullable col = Some (PyBool true)
    ∧ C1_as_stated nullable_primary_key_field col.
Proof. eexists. split; [reflexivity|]. split; reflexivity. Qed.

(** The two foreign-key scenarios of the specification. *)
Lemma optional_foreign_key_is_nullable :
  ∃ col,
    get_column_from_field optional_foreign_key_field = mret col
    ∧ column_nullable col = Some (PyBool true)
    ∧ column_args col = [ForeignKey "team.id"].
Proof. eexists. split; [reflexivity|]. split; reflexivity. Qed.

Lemma required_foreign_key_is_not_nullable :
  ∃ col,
    get_column_from_field required_foreign_key_field = mret col
    ∧ column_nullable col = Some (PyBool false).
Proof. eexists. split; [reflexivity|]. reflexivity. Qed.

(** ** The type mapping *)

(** The if-chain of [get_sqlalchemy_type] is the priority table. *)
Lemma get_sqlalchemy_type_dispatch field c :
  sa_type field = Undefined →
  _compat.get_type_from_field field = mret (AClass c) →
  get_sqlalchemy_type field
  = dispatch_by_priority c (_compat.get_field_metadata field)
      (string_type_nonzero (_compat.get_field_metadata field)).
Proof.
  intros Hsa Hty. unfold get_sqlalchemy_type. rewrite Hsa, Hty. cbn.
  unfold dispatch_by_priority, storage_type_priority, string_type_nonzero.
  cbn [first_match].
  repeat match goal with
         | |- context [issubclass c ?b] =>
             destruct (issubclass c b); [try reflexivity|]
         end; try reflexivity.
  by destruct (truthy_int _).
Qed.

Lemma get_type_from_field_class_or_optional field c :
  class_or_optional c (annotation field) →
  _compat.get_type_from_field field = mret (AClass c).
Proof.
  unfold _compat.get_type_from_field.
  destruct 1; cbn; try reflexivity;
    unfold is_NoneType, is_class, ANoneType;
    destruct (bool_decide (c = NoneType)) eqn:Hc; cbn; try reflexivity;
    apply bool_decide_eq_true in Hc; by subst.
Qed.

Lemma get_type_from_field_non_optional_union field :
  non_optional_union (annotation field) →
  ∃ msg, _compat.get_type_from_field field = raise (ValueError msg).
Proof.
  intros (Hu & Hlen & Hall). unfold _compat.get_type_from_field.
  assert (∃ origin, get_origin (annotation field) = Some origin
                    ∧ _compat._is_union_type origin = true) as (o & -> & ->).
  { destruct (annotation field); try discriminate Hu.
    - by eexists.
    - eexists. split; [reflexivity|]. cbn in Hu.
      unfold _compat._is_union_type. cbn [is_class]. by rewrite Hu. }
  assert (annotation field ≠ ANone) as Hne
    by (intros Heq; rewrite Heq in Hu; discriminate).
  destruct (annotation field) eqn:Ha; try done; clear Hne;
    (case_bool_decide; [by eexists|]);
    cbn [get_args] in *;
    (destruct args as [|b0 [|b1 rest]]; cbn in Hlen; try lia);
    apply Forall_cons in Hall as [H0 Hall];
    apply Forall_cons in Hall as [H1 _];
    cbn; rewrite H0; cbn; rewrite H1; cbn; by eexists.
Qed.

(** For a descriptor without an explicit storage type whose type is a
    class or [Optional] of a class, the storage type is the first match of
    the class in the fixed priority enumeration, string (with the
    max-length of the metadata object, when it has one that is not zero),
    float, boolean, integer, datetime, date, interval, time, binary,
    decimal (precision and scale from max_digits and decimal_places), the
    address and path types as string, UUID; when no row matches the
    derivation raises the unmappable-type [ValueError] naming the class; a
    union of two or more types without [None] is rejected with a
    [ValueError]. *)
Lemma get_sqlalchemy_type_priority (field : FieldInfo) :
  sa_type field = Undefined →
  (∀ c, class_or_optional c (annotation field) →
     get_sqlalchemy_type field
     = dispatch_by_priority c (_compat.get_field_metadata field)
         (string_type_nonzero (_compat.get_field_metadata field)))
  ∧ (non_optional_union (annotation field) →
       ∃ msg, get_sqlalchemy_type field = raise (ValueError msg)).
Proof.
  intros Hsa. split.
  - intros c Hc. apply get_sqlalchemy_type_dispatch; [done|].
    by apply get_type_from_field_class_or_optional.
  - intros Hu.
    destruct (get_type_from_field_non_optional_union _ Hu) as [msg Hmsg].
    exists msg. unfold get_sqlalchemy_type. by rewrite Hsa, Hmsg.
Qed.

Lemma get_sqlalchemy_type_priority_examples :
  get_sqlalchemy_type decimal_field = mret (Numeric (Some 5) (Some 2))
  ∧ ∃ msg,
      get_sqlalchemy_type
        (plain_field (AUnion [AClass int_class; AClass str_class]) Undefined)
      = raise (ValueError msg).
Proof.
  split; [reflexivity|]. by eexists.
Qed.

(** The descriptor [Field] returns: what pydantic stored and collected,
    and the hints as they were given. *)
Lemma Field_returns args field_info :
  Field args = mret field_info →
  metadata field_info
  = pydantic._collect_metadata (arg_max_length args) (arg_max_digits args)
      (arg_decimal_places args)
  ∧ default_factory field_info = arg_default_factory args
  ∧ sa_type field_info = arg_sa_type args
  ∧ sa_column field_info = arg_sa_column args.
Proof.
  unfold Field, FieldInfo___init__.
  cbn [kw_primary_key kw_nullable kw_foreign_key kw_unique kw_index
       kw_sa_type kw_sa_column kw_sa_column_args kw_sa_column_kwargs
       kw_default_factory kw_max_length kw_max_digits kw_decimal_places
       kw_title kw_description pop from_option id].
  match goal with
  | |- (?checks ≫= _) ≫= _ = _ → _ => destruct checks as [e|[]]
  end; [discriminate|]. cbn.
  destruct (pydantic.FieldInfo___init__ _ _) as [e|d]; [discriminate|].
  cbn. by intros [= <-].
Qed.

(** The metadata object the type mapping reads from what pydantic
    collects: the [MaxLen] object is passed over, so the object is the
    general metadata, or the empty [FakeMetadata] when neither [max_digits]
    nor [decimal_places] was given.  It never has a max-length. *)
Lemma get_field_metadata_collected field max_length max_digits decimal_places :
  metadata field
  = pydantic._collect_metadata max_length max_digits decimal_places →
  _compat.get_field_metadata field
  = mkMeta (negb (bool_decide (max_digits = None ∧ decimal_places = None)))
      None max_digits decimal_places.
Proof.
  intros Hmeta. unfold _compat.get_field_metadata. rewrite Hmeta.
  unfold pydantic._collect_metadata.
  destruct max_length as [n|]; cbn;
    case_bool_decide as Hnone; cbn; try reflexivity;
    by destruct Hnone as [-> ->].
Qed.

(** C3: the string row of the code never applies the max-length given to
    [Field].  pydantic stores [max_length=n] as a [MaxLen] object, which is
    no [PydanticMetadata]; [get_field_metadata] passes it over, and the
    [if max_length:] of [get_sqlalchemy_type] finds nothing.  So for every
    descriptor built by [Field] without explicit storage type, whatever
    its max-length, the field of the class that holds it (the descriptor
    with its annotation, and with the placeholder default if one was
    injected: neither touches the metadata) maps to the string type
    without length when its type is a string class or [Optional] of one. *)
Theorem C3_max_length_never_applied
    (args : Field_args) (field_info field : FieldInfo) (c : PyClass) :
  Field args = mret field_info →
  arg_sa_type args = Undefined →
  metadata field = metadata field_info →
  sa_type field = sa_type field_info →
  class_or_optional c (annotation field) →
  maps_as_string c →
  get_sqlalchemy_type field = mret (AutoString None).
Proof.
  intros HField Hsa Hmetadata Hsa_type Hc [Henum Hstr].
  destruct (Field_returns _ _ HField) as (Hmeta & _ & Hty & _).
  rewrite <- Hmetadata in Hmeta. rewrite <- Hsa_type, Hsa in Hty.
  destruct (get_sqlalchemy_type_priority field Hty) as [Hdispatch _].
  rewrite (Hdispatch c Hc).
  rewrite (get_field_metadata_collected field (arg_max_length args)
             (arg_max_digits args) (arg_decimal_places args) Hmeta).
  unfold dispatch_by_priority, storage_type_priority. cbn [first_match].
  by rewrite Henum, Hstr.
Qed.

Lemma C3_witness :
  ∃ field_info,
    Field (Field_max_length 5) = mret field_info
    ∧ metadata field_info = [pydantic.MaxLen 5]
    ∧ get_sqlalchemy_type
        (pydantic.from_annotated_attribute (AClass str_class)
           (compat.inject_none_default field_info))
      = mret (AutoString None).
Proof.
  eexists. split; [reflexivity|]. split; [reflexivity|].
  eapply (C3_max_length_never_applied (Field_max_length 5));
    [reflexivity|reflexivity|reflexivity|reflexivity|constructor|by split].
Defined.



(** An enumeration that subclasses [str] maps as an enumeration. *)
Lemma str_enum_maps_as_enum :
  get_sqlalchemy_type (plain_field (AClass Color_class) Undefined)
  = mret (sa_Enum Color_class).
Proof. reflexivity. Qed.

(** A class without a row is reported by name. *)
Lemma unmapped_class_is_named :
  get_sqlalchemy_type (plain_field (List (AClass int_class)) Undefined)
  = raise (ValueError "<class 'list'> has no matching SQLAlchemy type").
Proof. reflexivity. Qed.

(** When the unwrapped type is not a class, as for [Optional[List[int]]],
    the first [issubclass] raises [TypeError] before any row is tried. *)
Lemma get_sqlalchemy_type_not_a_class field type_ :
  sa_type field = Undefined →
  _compat.get_type_from_field field = mret type_ →
  (∀ c, type_ ≠ AClass c) →
  get_sqlalchemy_type field = raise issubclass_arg1_error.
Proof.
  intros Hsa Hty Hc. unfold get_sqlalchemy_type. rewrite Hsa, Hty. cbn.
  destruct type_; try reflexivity. by destruct (Hc c).
Qed.

Lemma optional_list_raises_TypeError :
  get_sqlalchemy_type
    (plain_field (Optional (List (AClass int_class))) Undefined)
  = raise issubclass_arg1_error.
Proof. reflexivity. Qed.

(** An explicit storage type is used verbatim. *)
Lemma get_sqlalchemy_type_explicit field ty :
  sa_type field = Given ty → get_sqlalchemy_type field = mret ty.
Proof. intros H. unfold get_sqlalchemy_type. by rewrite H. Qed.

(** ** Relationship targets *)

Lemma is_NoneType_target target :
  is_target target → is_NoneType target = false.
Proof.
  intros [(c & -> & Hc)|(name & ->)]; [|reflexivity].
  unfold is_NoneType, is_class. by apply bool_decide_eq_false.
Qed.

Lemma _compat_get_relationship_to_direct depth name rel_info target :
  is_target target →
  _compat.get_relationship_to (S (S depth)) name rel_info target
  = mret (resolved_target target).
Proof. by intros [(c & -> & Hc)|(n & ->)]. Qed.

(** [_compat.get_relationship_to] resolves the three shapes to the target,
    as soon as three stack frames are available. *)
Lemma _compat_get_relationship_to_resolves depth name rel_info target a :
  is_target target →
  relationship_shape target a →
  _compat.get_relationship_to (S (S (S depth))) name rel_info a
  = mret (resolved_target target).
Proof.
  intros Ht Hshape.
  pose proof (_compat_get_relationship_to_direct depth name rel_info _ Ht)
    as Hdirect.
  pose proof (is_NoneType_target _ Ht) as HN.
  destruct Hshape.
  - by apply (_compat_get_relationship_to_direct (S depth)).
  - change (_compat.get_relationship_to (S (S (S depth))) name rel_info
              (Optional target))
      with (if is_NoneType target && negb (is_NoneType ANoneType) then
              _compat.get_relationship_to (S (S depth)) name rel_info ANoneType
            else if is_NoneType ANoneType && negb (is_NoneType target) then
              _compat.get_relationship_to (S (S depth)) name rel_info target
            else
              raise (ValueError
                "Cannot have a Union of None and None as a SQLAlchemy field")).
    rewrite HN. exact Hdirect.
  - exact Hdirect.
Qed.

(** [_compat.get_relationship_to] rejects every union of two or more
    concrete types. *)
Lemma _compat_get_relationship_to_rejects_union depth name rel_info a :
  union_of_concrete_types a →
  ∃ msg,
    _compat.get_relationship_to (S depth) name rel_info a
    = raise (ValueError msg).
Proof.
  intros (args & -> & Hlen & Hall). cbn.
  case_bool_decide; [by eexists|].
  destruct args as [|arg1 [|arg2 [|arg3 rest]]]; cbn in *; try lia.
  apply Forall_cons in Hall as [(c1 & -> & H1) Hall].
  apply Forall_cons in Hall as [(c2 & -> & H2) _].
  unfold is_NoneType, is_class.
  rewrite !bool_decide_eq_false_2 by done. cbn. by eexists.
Qed.

(** [compat.get_relationship_to], the function [main.py] imports, resolves
    the three shapes to the target as well. *)
Lemma compat_get_relationship_to_resolves name rel_info target a :
  is_target target →
  relationship_shape target a →
  compat.get_relationship_to name rel_info a = mret (resolved_target target).
Proof.
  intros Ht Hshape. unfold compat.get_relationship_to.
  destruct Hshape; destruct Ht as [(c & -> & Hc)|(n & ->)]; reflexivity.
Qed.

(** C2 (divergence): [compat.get_relationship_to], which phase 2 calls,
    resolves a union to its first member whatever the other members are;
    for a non-optional union of two or more concrete types it returns a
    target where the specification requires
    UnresolvedRelationshipTargetError. *)
Theorem C2_compat_union_resolves_to_first_member
    (name : string) (rel_info : RelationshipInfo) (c : PyClass)
    (others : list Annotation) :
  compat.get_relationship_to name rel_info (AUnion (AClass c :: others))
  = mret (AClass c).
Proof. reflexivity. Qed.

Lemma compat_union_of_Hero_and_Team :
  union_of_concrete_types (AUnion [AClass Hero; AClass Team])
  ∧ compat.get_relationship_to "owner" plain_relationship
      (AUnion [AClass Hero; AClass Team])
    = mret (AClass Hero)
  ∧ _compat.get_relationship_to 1000 "owner" plain_relationship
      (AUnion [AClass Hero; AClass Team])
    = raise (ValueError
        "Cannot have a Union of None and None as a SQLAlchemy field").
Proof.
  split; [|split; reflexivity].
  exists [AClass Hero; AClass Team]. split; [done|]. split; [cbn; lia|].
  repeat constructor; eexists; (split; [reflexivity|discriminate]).
Qed.

(** With [compat.get_relationship_to] a PEP 604 union is not unwrapped at
    all: the result is the origin [types.UnionType]. *)
Lemma compat_pep604_union_resolves_to_UnionType name rel_info args :
  compat.get_relationship_to name rel_info (Union604 args)
  = mret (AClass UnionType).
Proof. reflexivity. Qed.

(** X1: In [_compat.get_relationship_to] a generic that is neither a union nor
    a list is passed unchanged to the recursive call, so every depth is
    exhausted. *)
Lemma _compat_get_relationship_to_other_generic depth name rel_info origin args :
  origin ≠ UnionType → origin ≠ list_class →
  _compat.get_relationship_to depth name rel_info (AGeneric origin args)
  = raise RecursionError.
Proof.
  intros H1 H2. induction depth as [|depth IH]; [reflexivity|].
  cbn. unfold _compat._is_union_type. cbn [is_class].
  rewrite bool_decide_eq_false_2 by done. cbn.
  rewrite bool_decide_eq_false_2 by done. exact IH.
Qed.

Lemma _compat_get_relationship_to_other_generic_witness :
  _compat.get_relationship_to 50 "heroes" plain_relationship
    (AGeneric Mapped [List (AForwardRef "Hero")])
  = raise RecursionError.
Proof.
  apply _compat_get_relationship_to_other_generic; discriminate.
Defined.

(** ** Determinism of the column derivation *)

(** C9: deriving a column from two descriptors that carry the same type,
    default, constraints and mapping hints gives the same outcome: both
    derivations raise the same error, or both return columns with the same
    storage type, the same nullability and the same constraints (primary
    key, unique, index, foreign key, default).  In particular two identical
    descriptors derive identical columns. *)
Theorem C9_column_derivation_deterministic (f1 f2 : FieldInfo) :
  same_mapping_input f1 f2 →
  get_column_from_field f1 = get_column_from_field f2.
Proof.
  destruct f1, f2. unfold same_mapping_input. cbn.
  intros (-> & -> & -> & -> & -> & -> & -> & -> & -> & -> & -> & -> & ->).
  reflexivity.
Qed.

Lemma C9_witness :
  get_column_from_field documented_foreign_key_field
  = get_column_from_field optional_foreign_key_field.
Proof.
  apply (C9_column_derivation_deterministic documented_foreign_key_field
           optional_foreign_key_field).
  repeat split; reflexivity.
Defined.

Lemma identical_descriptors_identical_columns (f1 f2 : FieldInfo) col1 col2 :
  f1 = f2 →
  get_column_from_field f1 = mret col1 →
  get_column_from_field f2 = mret col2 →
  column_type col1 = column_type col2
  ∧ column_nullable col1 = column_nullable col2
  ∧ column_args col1 = column_args col2
  ∧ column_kwargs col1 = column_kwargs col2.
Proof. intros -> H1 H2. rewrite H1 in H2. by injection H2 as ->. Qed.

(** A manual column is returned as it is. *)
Lemma get_column_from_field_manual field col :
  sa_column field = Given col → get_column_from_field field = mret col.
Proof. intros H. unfold get_column_from_field. by rewrite H. Qed.

(** ** Table name *)

Lemma ascii_lower_spec c :
  is_upper (ascii_lower c) = false
  ∧ (is_upper c = false → ascii_lower c = c)
  ∧ (is_upper c = true →
       nat_of_ascii (ascii_lower c) = (nat_of_ascii c + 32)%nat).
Proof.
  destruct c as [[] [] [] [] [] [] [] []];
    (split; [reflexivity|split; intros H; first [reflexivity|discriminate H]]).
Qed.

Lemma lower_length s : String.length (lower s) = String.length s.
Proof. induction s as [|c s IH]; cbn; [done|by rewrite IH]. Qed.

Lemma lower_get s i : String.get i (lower s) = ascii_lower <$> String.get i s.
Proof.
  revert i. induction s as [|c s IH]; intros i; cbn; [done|].
  destruct i; [done|apply IH].
Qed.

Lemma lower_idempotent s : lower (lower s) = lower s.
Proof.
  induction s as [|c s IH]; cbn; [done|]. rewrite IH. f_equal.
  destruct (ascii_lower_spec c) as [Hc _].
  destruct (ascii_lower_spec (ascii_lower c)) as (_ & Hsame & _).
  by apply Hsame.
Qed.

(** C10: a model class that does not set [__tablename__] and whose name
    is made of ASCII characters gets its class name converted to lower
    case as table name: the same length, every upper-case letter replaced
    by its lower-case letter, every other character unchanged. *)
Theorem C10_default_table_name (cls : ModelClass) :
  cls_attrs cls !! "__tablename__" = None →
  is_ascii (cls_name cls) = true →
  ∃ name,
    getattr___tablename__ cls = AttrValue (PyStr name)
    ∧ name = lower (cls_name cls)
    ∧ String.length name = String.length (cls_name cls)
    ∧ ∀ i c, String.get i (cls_name cls) = Some c →
        ∃ c', String.get i name = Some c'
              ∧ is_upper c' = false
              ∧ (is_upper c = false → c' = c)
              ∧ (is_upper c = true →
                   nat_of_ascii c' = (nat_of_ascii c + 32)%nat).
Proof.
  intros Hnone _. exists (lower (cls_name cls)).
  unfold getattr___tablename__, SQLModel___tablename__. rewrite Hnone.
  split; [done|]. split; [done|]. split; [apply lower_length|].
  intros i c Hget. exists (ascii_lower c).
  rewrite lower_get, Hget. split; [done|]. apply ascii_lower_spec.
Qed.

Lemma C10_witness :
  ∃ name,
    getattr___tablename__ Hero_model = AttrValue (PyStr name) ∧ name = "hero".
Proof.
  destruct (C10_default_table_name Hero_model eq_refl eq_refl)
    as (name & H & -> & _).
  exists (lower (cls_name Hero_model)). split; [exact H|reflexivity].
Defined.

(** An explicit [__tablename__] is used as it is. *)
Lemma explicit_table_name cls explicit :
  cls_attrs cls !! "__tablename__" = Some explicit →
  getattr___tablename__ cls = explicit.
Proof. intros H. unfold getattr___tablename__. by rewrite H. Qed.

(** ** Attribute writes *)

Section setattr.

Variable is_instrumented : Instance → string → bool.
Variable validate_assignment : ModelClass → string → pyval → result pyval.

Lemma BaseModel___setattr___trace self name value :
  trace (BaseModel___setattr__ validate_assignment self name value).1
  = trace self ++ [ValidationWrite name value].
Proof.
  unfold BaseModel___setattr__. cbn.
  by destruct (validate_assignment _ _ _).
Qed.

(** The reserved attribute goes straight into [__dict__]. *)
Lemma setattr_reserved self value :
  SQLModel___setattr__ is_instrumented validate_assignment self "_sa_instance_state" value
  = (dict_setitem self "_sa_instance_state" value, None).
Proof. reflexivity. Qed.

(** A relationship attribute is written by the mapping layer at most. *)
Lemma setattr_relationship self name value :
  storage_backed (__class__ self) →
  name ≠ "_sa_instance_state" →
  name ∈ relationship_names (__class__ self) →
  SQLModel___setattr__ is_instrumented validate_assignment self name value
  = (if is_instrumented self name then set_attribute self name value
     else self, None).
Proof.
  intros Ht Hname Hrel. unfold SQLModel___setattr__.
  rewrite bool_decide_eq_false_2 by done. rewrite Ht. cbn.
  destruct (is_instrumented self name); cbn;
    by rewrite bool_decide_eq_false_2 by (intros H; by apply H).
Qed.

(** Any other instrumented attribute: mapping layer first, then the
    validation layer, whether or not the validation succeeds. *)
Lemma setattr_instrumented_field self name value :
  storage_backed (__class__ self) →
  name ≠ "_sa_instance_state" →
  name ∉ relationship_names (__class__ self) →
  is_instrumented self name = true →
  SQLModel___setattr__ is_instrumented validate_assignment self name value
  = BaseModel___setattr__ validate_assignment
      (set_attribute self name value) name value.
Proof.
  intros Ht Hname Hrel Hins. unfold SQLModel___setattr__.
  rewrite bool_decide_eq_false_2 by done. rewrite Ht, Hins. cbn.
  by rewrite bool_decide_eq_true_2.
Qed.

End setattr.

(** C7: on an instance of a storage-backed class, writing the reserved
    attribute [_sa_instance_state] runs neither the mapping-layer write nor
    the validation-layer write (the value goes straight into [__dict__]);
    writing a relationship attribute never reaches the validation layer and
    is written by the mapping layer alone (when it is instrumented);
    writing any other instrumented attribute runs the mapping-layer write
    first and the validation-layer write after it. *)
Theorem C7_attribute_write_order
    (is_instrumented : Instance → string → bool)
    (validate_assignment : ModelClass → string → pyval → result pyval)
    (self : Instance) (name : string) (value : pyval) :
  storage_backed (__class__ self) →
  let out := SQLModel___setattr__ is_instrumented validate_assignment
               self name value in
  (name = "_sa_instance_state" →
     trace out.1 = trace self ∧ out.2 = None
     ∧ __dict__ out.1 = <[name := value]> (__dict__ self))
  ∧ (name ≠ "_sa_instance_state" →
     name ∈ relationship_names (__class__ self) →
     out.2 = None
     ∧ trace out.1
       = trace self ++ (if is_instrumented self name
                        then [MappingWrite name value] else []))
  ∧ (name ≠ "_sa_instance_state" →
     name ∉ relationship_names (__class__ self) →
     is_instrumented self name = true →
     trace out.1
     = trace self ++ [MappingWrite name value; ValidationWrite name value]).
Proof.
  intros Ht out. subst out. split; [|split].
  - intros ->. by rewrite setattr_reserved.
  - intros Hname Hrel. rewrite setattr_relationship by done. cbn.
    split; [done|].
    destruct (is_instrumented self name); cbn; [done|].
    by rewrite app_nil_r.
  - intros Hname Hrel Hins.
    rewrite setattr_instrumented_field by done.
    rewrite BaseModel___setattr___trace. cbn. by rewrite <- app_assoc.
Qed.

Lemma C7_witness :
  trace (SQLModel___setattr__ all_instrumented accept_assignment
           (SQLModel___new__ Hero_with_team) "team" (PyObject "Team()")).1
  = [MappingWrite "team" (PyObject "Team()")]
  ∧ trace (SQLModel___setattr__ all_instrumented accept_assignment
             (SQLModel___new__ Hero_with_team) "name" (PyStr "Rusty")).1
    = [MappingWrite "name" (PyStr "Rusty");
       ValidationWrite "name" (PyStr "Rusty")]
  ∧ trace (SQLModel___setattr__ all_instrumented accept_assignment
             (SQLModel___new__ Hero_with_team) "_sa_instance_state"
             (PyObject "InstanceState")).1
    = [].
Proof.
  pose proof (C7_attribute_write_order all_instrumented accept_assignment
                (SQLModel___new__ Hero_with_team)) as H.
  split; [|split].
  - specialize (H "team" (PyObject "Team()") eq_refl) as (_ & H & _).
    apply H; [discriminate|]. apply list_elem_of_In. cbn. tauto.
  - specialize (H "name" (PyStr "Rusty") eq_refl) as (_ & _ & H).
    apply H; [discriminate| |reflexivity].
    intros Hin. apply list_elem_of_In in Hin. cbn in Hin.
    destruct Hin as [[=]|[]].
  - specialize (H "_sa_instance_state" (PyObject "InstanceState") eq_refl)
      as (H & _).
    by apply H.
Defined.

(** ** Relationship wiring *)

Lemma wiring_runs_iff cls bases :
  wiring_runs cls bases = true
  ↔ is_table_class cls ∧ Forall (λ base, ¬ is_table_class base) bases.
Proof.
  unfold wiring_runs, is_table_class.
  rewrite andb_true_iff, negb_true_iff. apply and_iff_compat_l.
  rewrite <- not_true_iff_false, existsb_exists, Forall_forall.
  split.
  - intros Hno base Hin Hb. apply Hno. exists base.
    split; [by apply list_elem_of_In|done].
  - intros Hall (base & Hin & Hb).
    by apply (Hall base); [apply list_elem_of_In|].
Qed.

(** A relationship with an explicit override is bound as it is: neither
    the annotation nor the target resolution is consulted. *)
Lemma wire_relationship_override cls name rel_info override :
  sa_relationship rel_info = Some override →
  wire_relationship cls (name, rel_info)
  = mret (class_setattr cls name (AttrRelationship override)).
Proof. intros H. unfold wire_relationship. cbn. by rewrite H. Qed.

(** One step of the wiring binds one attribute, the one it is about. *)
Lemma wire_relationship_attrs cls item cls' :
  wire_relationship cls item = mret cls' →
  ∃ value, cls_attrs cls' = <[item.1 := value]> (cls_attrs cls).
Proof.
  unfold wire_relationship.
  destruct (sa_relationship item.2) as [override|].
  { intros [= <-]. by eexists. }
  destruct (__annotations__ cls !! item.1) as [raw_ann|]; [|discriminate].
  cbn.
  destruct (from_option _ false (get_origin raw_ann)); cbn.
  - destruct (getitem (get_args raw_ann) 0) as [|ann]; [discriminate|]. cbn.
    destruct (compat.get_relationship_to _ _ ann) as [|to]; [discriminate|].
    cbn. destruct (link_model item.2) as [link|]; cbn.
    + destruct (mapped link); [|discriminate]. cbn.
      destruct (local_table link); [|discriminate]. cbn.
      intros [= <-]. by eexists.
    + intros [= <-]. by eexists.
  - destruct (compat.get_relationship_to _ _ raw_ann) as [|to];
      [discriminate|].
    cbn. destruct (link_model item.2) as [link|]; cbn.
    + destruct (mapped link); [|discriminate]. cbn.
      destruct (local_table link); [|discriminate]. cbn.
      intros [= <-]. by eexists.
    + intros [= <-]. by eexists.
Qed.

Lemma for_each_wire_relationship_other items cls cls' name :
  for_each wire_relationship items cls = mret cls' →
  name ∉ items.*1 →
  cls_attrs cls' !! name = cls_attrs cls !! name.
Proof.
  revert cls. induction items as [|item items IH]; intros cls; cbn.
  { by intros [= <-]. }
  destruct (wire_relationship cls item) as [|cls1] eqn:H1; [discriminate|].
  cbn. intros Hrest Hname. apply not_elem_of_cons in Hname as [Hne Hname].
  rewrite (IH _ Hrest Hname).
  destruct (wire_relationship_attrs _ _ _ H1) as [value ->].
  by rewrite lookup_insert_ne.
Qed.

Lemma for_each_wire_relationship_override items cls cls' name rel_info override :
  for_each wire_relationship items cls = mret cls' →
  NoDup items.*1 →
  (name, rel_info) ∈ items →
  sa_relationship rel_info = Some override →
  cls_attrs cls' !! name = Some (AttrRelationship override).
Proof.
  revert cls. induction items as [|item items IH]; intros cls; cbn.
  { intros _ _ Hin. by apply elem_of_nil in Hin. }
  destruct (wire_relationship cls item) as [|cls1] eqn:H1; [discriminate|].
  cbn. intros Hrest Hnodup Hin Hover.
  apply NoDup_cons in Hnodup as [Hfresh Hnodup].
  apply elem_of_cons in Hin as [<-|Hin].
  - cbn in Hfresh.
    rewrite (for_each_wire_relationship_other _ _ _ _ Hrest Hfresh).
    rewrite (wire_relationship_override _ _ _ _ Hover) in H1.
    injection H1 as <-. cbn. by rewrite lookup_insert_eq.
  - by apply (IH cls1).
Qed.

(** C8: relationship wiring runs for a class if and only if the class is
    storage-backed and none of its base classes is storage-backed;
    otherwise [__init__] leaves the class as it is, so a class derived from
    a table class is never wired again.  When the wiring runs and succeeds,
    a relationship that carries an explicit override is bound onto the
    class as that override, and binding it consults neither its annotation
    nor the target resolution. *)
Theorem C8_relationship_wiring (cls : ModelClass) (bases : list ModelClass) :
  (wiring_runs cls bases = true
   ↔ is_table_class cls ∧ Forall (λ base, ¬ is_table_class base) bases)
  ∧ (wiring_runs cls bases = false →
       SQLModelMetaclass___init__ cls bases
       = mret (cls, ModelMetaclass___init__))
  ∧ (∀ cls0 name rel_info override,
       sa_relationship rel_info = Some override →
       wire_relationship cls0 (name, rel_info)
       = mret (class_setattr cls0 name (AttrRelationship override)))
  ∧ (∀ cls' init name rel_info override,
       wiring_runs cls bases = true →
       NoDup (relationship_names cls) →
       SQLModelMetaclass___init__ cls bases = mret (cls', init) →
       (name, rel_info) ∈ __sqlmodel_relationships__ cls →
       sa_relationship rel_info = Some override →
       init = DeclarativeMeta___init__
       ∧ cls_attrs cls' !! name = Some (AttrRelationship override)).
Proof.
  split; [apply wiring_runs_iff|]. split; [|split].
  - intros H. unfold SQLModelMetaclass___init__. by rewrite H.
  - intros. by apply wire_relationship_override.
  - intros cls' init name rel_info override Hruns Hnodup Hinit Hin Hover.
    unfold SQLModelMetaclass___init__ in Hinit. rewrite Hruns in Hinit.
    destruct (for_each _ _ _) as [|cls1] eqn:Hloop; [discriminate|].
    cbn in Hinit. injection Hinit as <- <-. split; [done|].
    by eapply for_each_wire_relationship_override.
Qed.

Lemma C8_witness :
  ∃ cls',
    SQLModelMetaclass___init__ Team_with_override []
    = mret (cls', DeclarativeMeta___init__)
    ∧ cls_attrs cls' !! "heroes" = Some (AttrRelationship heroes_relationship)
    ∧ SQLModelMetaclass___init__ Team_with_override [Hero_model]
      = mret (Team_with_override, ModelMetaclass___init__).
Proof.
  destruct (C8_relationship_wiring Team_with_override [])
    as (_ & _ & _ & Hbound).
  destruct (C8_relationship_wiring Team_with_override [Hero_model])
    as (_ & Hskip & _).
  eexists. split; [reflexivity|]. split.
  - eapply proj2,
      (Hbound _ DeclarativeMeta___init__ "heroes"
         (mkRelationshipInfo None None (Some heroes_relationship) None None)
         heroes_relationship);
      [reflexivity| |reflexivity| |reflexivity].
    + cbn. apply NoDup_singleton.
    + cbn. apply list_elem_of_singleton. reflexivity.
  - apply Hskip. reflexivity.
Defined.

(** ** Keyword construction *)

Section init.

Variable is_instrumented : Instance → string → bool.
Variable validate_assignment : ModelClass → string → pyval → result pyval.
Variable validate_model :
  ModelClass → gmap string pyval →
  list (string * pyval) * gset string * option exn.
Variable BaseModel___init__ :
  ModelClass → gmap string pyval → result (gmap string pyval * gset string).

(** pydantic 1 branch, class that is not storage-backed: the error report
    of [validate_model] is raised as it is, before anything is written. *)
Lemma init_v1_data_model_raises self data values fields_set e :
  ¬ storage_backed (__class__ self) →
  validate_model (__class__ self) data = (values, fields_set, Some e) →
  SQLModel___init__ is_instrumented validate_assignment validate_model
    BaseModel___init__ false self data
  = (self, Some e).
Proof.
  unfold storage_backed. intros Ht Hv. unfold SQLModel___init__.
  rewrite Hv. apply not_true_is_false in Ht. by rewrite Ht.
Qed.

(** pydantic 1 branch, storage-backed class: the error report of
    [validate_model] has no influence on the construction. *)
Lemma init_v1_table_ignores_error_report self data :
  storage_backed (__class__ self) →
  SQLModel___init__ is_instrumented validate_assignment validate_model
    BaseModel___init__ false self data
  = SQLModel___init__ is_instrumented validate_assignment
      (without_error_report validate_model) BaseModel___init__ false self data.
Proof.
  unfold storage_backed. intros Ht.
  unfold SQLModel___init__, without_error_report.
  destruct (validate_model (__class__ self) data) as [[values fields_set] e].
  by rewrite Ht.
Qed.

(** pydantic 2 branch: whatever [BaseModel.__init__] raises is raised,
    for every class. *)
Lemma init_v2_raises self data e :
  BaseModel___init__ (__class__ self) data = raise e →
  SQLModel___init__ is_instrumented validate_assignment validate_model
    BaseModel___init__ true self data
  = (self, Some e).
Proof. intros H. unfold SQLModel___init__. by rewrite H. Qed.

(** pydantic 2 branch without keyword arguments: the construction raises
    exactly when [BaseModel.__init__] does. *)
Lemma init_v2_no_arguments self :
  (SQLModel___init__ is_instrumented validate_assignment validate_model
     BaseModel___init__ true self ∅).2
  = match BaseModel___init__ (__class__ self) ∅ with
    | inl e => Some e
    | inr _ => None
    end.
Proof.
  unfold SQLModel___init__.
  destruct (BaseModel___init__ (__class__ self) ∅) as [e|[new_dict fields_set]];
    [done|].
  unfold set_relationships. by rewrite map_filter_empty, map_to_list_empty.
Qed.

(** pydantic 1 branch, storage-backed class: when assignment validation
    accepts every value, keyword construction raises nothing, whatever
    [validate_model] reports. *)
Lemma setattr_each_accepting items self :
  (∀ cls name value, raises (validate_assignment cls name value) = false) →
  (setattr_each is_instrumented validate_assignment items self).2 = None.
Proof.
  intros Hacc. revert self. induction items as [|item items IH]; intros self;
    cbn; [done|].
  destruct (SQLModel___setattr__ _ _ self item.1 item.2) as [self' [e|]] eqn:H;
    [|apply IH].
  exfalso. unfold SQLModel___setattr__ in H.
  case_bool_decide; [discriminate|].
  case_bool_decide; [|discriminate].
  unfold BaseModel___setattr__ in H. cbn in H.
  match type of H with
  | context [validate_assignment ?c ?n ?v] =>
      specialize (Hacc c n v); destruct (validate_assignment c n v)
  end; [discriminate Hacc|discriminate H].
Qed.

Lemma init_v1_table_never_raises self data :
  storage_backed (__class__ self) →
  (∀ cls name value, raises (validate_assignment cls name value) = false) →
  (SQLModel___init__ is_instrumented validate_assignment validate_model
     BaseModel___init__ false self data).2
  = None.
Proof.
  unfold storage_backed. intros Ht Hacc. unfold SQLModel___init__.
  destruct (validate_model (__class__ self) data) as [[values fields_set] e].
  rewrite Ht. cbn.
  pose proof (setattr_each_accepting values self Hacc) as Hvalues.
  destruct (setattr_each _ _ values self) as [self' [e'|]];
    [discriminate Hvalues|].
  unfold set_relationships. by apply setattr_each_accepting.
Qed.

End init.

(** C5 (divergence): in the pydantic 2 branch of [SQLModel.__init__] the
    validation error raised by [BaseModel.__init__] for invalid keyword
    arguments propagates for a storage-backed class too, whereas the
    specification (and the pydantic 1 branch) has a storage-backed class
    raise no validation error. *)
Theorem C5_pydantic2_table_construction_raises
    (is_instrumented : Instance → string → bool)
    (validate_assignment : ModelClass → string → pyval → result pyval)
    (validate_model :
       ModelClass → gmap string pyval →
       list (string * pyval) * gset string * option exn)
    (BaseModel___init__ :
       ModelClass → gmap string pyval →
       result (gmap string pyval * gset string))
    (self : Instance) (data : gmap string pyval)
    (errors : list validation_error_item) :
  storage_backed (__class__ self) →
  BaseModel___init__ (__class__ self) data = raise (ValidationError errors) →
  SQLModel___init__ is_instrumented validate_assignment validate_model
    BaseModel___init__ true self data
  = (self, Some (ValidationError errors)).
Proof. intros _ H. by apply init_v2_raises. Qed.

Lemma C5_witness :
  SQLModel___init__ all_instrumented accept_assignment example_validate_model
    example_BaseModel___init__ true (SQLModel___new__ Hero_with_team)
    bad_hero_data
  = (SQLModel___new__ Hero_with_team,
     Some (ValidationError
             [ErrorItem "age" "value is not a valid integer";
              ErrorItem "name" "str type expected"])).
Proof.
  apply (C5_pydantic2_table_construction_raises all_instrumented
           accept_assignment example_validate_model
           example_BaseModel___init__ (SQLModel___new__ Hero_with_team)
           bad_hero_data);
    reflexivity.
Defined.

(** With the same input the pydantic 1 branch raises the whole report for
    the class that is not storage-backed and nothing for the storage-backed
    one. *)
Lemma pydantic1_construction_example :
  (SQLModel___init__ all_instrumented accept_assignment example_validate_model
     example_BaseModel___init__ false (SQLModel___new__ Hero_data_model)
     bad_hero_data).2
  = Some (ValidationError
            [ErrorItem "age" "value is not a valid integer";
             ErrorItem "name" "str type expected"])
  ∧ (SQLModel___init__ all_instrumented accept_assignment
       example_validate_model example_BaseModel___init__ false
       (SQLModel___new__ Hero_with_team) bad_hero_data).2
    = None.
Proof. split; reflexivity. Qed.

(** ** Injected defaults *)

Lemma set_empty_default_same key (d1 d2 : gmap string class_attr) :
  d1 !! key = d2 !! key →
  compat.set_empty_default key d1 !! key
  = compat.set_empty_default key d2 !! key.
Proof.
  intros H. unfold compat.set_empty_default. rewrite <- H.
  destruct (d1 !! key) as [[| value | | |]|] eqn:Hk;
    rewrite ?lookup_insert_eq; try congruence.
  destruct (_ && _); rewrite ?lookup_insert_eq; congruence.
Qed.

Lemma set_empty_default_other key key' (d : gmap string class_attr) :
  key ≠ key' → compat.set_empty_default key d !! key' = d !! key'.
Proof.
  intros Hne. unfold compat.set_empty_default.
  destruct (d !! key) as [[| value | | |]|];
    rewrite ?lookup_insert_ne by done; try done.
  destruct (_ && _); by rewrite ?lookup_insert_ne by done.
Qed.

(** [set_empty_defaults] treats every annotated key on its own, whatever
    the order in which the keys are visited. *)
Lemma set_empty_defaults_lookup annotations class_dict key :
  compat.set_empty_defaults true annotations class_dict !! key
  = if decide (key ∈ dom annotations)
    then compat.set_empty_default key class_dict !! key
    else class_dict !! key.
Proof.
  unfold compat.set_empty_defaults. revert key.
  refine (map_fold_weak_ind
    (λ r (m : gmap string Annotation), ∀ key,
       r !! key = if decide (key ∈ dom m)
                  then compat.set_empty_default key class_dict !! key
                  else class_dict !! key) _ _ _ _ annotations).
  - intros key. rewrite dom_empty_L.
    by rewrite decide_False by apply not_elem_of_empty.
  - intros i x m r Hi IH key.
    assert (i ∉ dom m) as Hdom by by apply not_elem_of_dom.
    destruct (decide (key = i)) as [->|Hne].
    + rewrite decide_True
        by (rewrite dom_insert_L; apply elem_of_union_l, elem_of_singleton_2;
            reflexivity).
      apply set_empty_default_same. rewrite IH. by rewrite decide_False.
    + rewrite set_empty_default_other by done. rewrite IH.
      rewrite dom_insert_L.
      destruct (decide (key ∈ dom m)) as [Hin|Hout].
      * by rewrite decide_True by (by apply elem_of_union_r).
      * rewrite decide_False; [done|].
        intros [Hi'|Hm]%elem_of_union; [|done].
        by apply elem_of_singleton_1 in Hi'.
Qed.

Lemma set_empty_defaults_pydantic1 annotations class_dict :
  compat.set_empty_defaults false annotations class_dict = class_dict.
Proof. reflexivity. Qed.

(** What the injection does for an annotated name of the class body that
    lacks an explicit default: a name without namespace entry gets a plain
    [None] entry (and no sentinel, there being no descriptor to carry it);
    a field descriptor without default and without factory gets the
    default [None], keeps its former default in [original_default], and is
    not required any more. *)
Lemma set_empty_defaults_injects (annotations : gmap string Annotation)
    (class_dict : gmap string class_attr) (key : string) :
  key ∈ dom annotations →
  let class_dict' := compat.set_empty_defaults true annotations class_dict in
  (class_dict !! key = None → class_dict' !! key = Some (AttrValue PyNone))
  ∧ (∀ value,
       class_dict !! key = Some (AttrFieldInfo value) →
       default value = Undefined ∨ default value = Given PyEllipsis →
       default_factory value = None →
       ∃ value',
         class_dict' !! key = Some (AttrFieldInfo value')
         ∧ default value' = Given PyNone
         ∧ original_default value' = Some (default value)
         ∧ is_required value' = false).
Proof.
  intros Hkey class_dict'. subst class_dict'.
  rewrite set_empty_defaults_lookup. rewrite decide_True by done.
  unfold compat.set_empty_default. split.
  - intros ->. by rewrite lookup_insert_eq.
  - intros value -> Hdef ->.
    assert (is_Undefined (default value)
            || bool_decide (default value = Given PyEllipsis) = true) as ->.
    { destruct Hdef as [->| ->]; reflexivity. }
    cbn. rewrite lookup_insert_eq. eexists. split; [reflexivity|]. done.
Qed.

(** The injection reaches the names annotated in the class body only: a
    name that the body neither annotates nor assigns has no entry in the
    namespace handed to pydantic, with or without injection. *)
Lemma namespace_no_entry class_dict annotations is_table name :
  pydantic.is_valid_field_name name = true →
  annotations !! name = None →
  name ∉ class_dict.*1 →
  pydantic_annotations
    (SQLModelMetaclass___new___namespace true class_dict annotations is_table)
  !! name = None
  ∧ dict_used
      (SQLModelMetaclass___new___namespace true class_dict annotations
         is_table)
    !! name = None.
Proof.
  intros Hname Hann Hbody. unfold SQLModelMetaclass___new___namespace.
  cbn [pydantic_annotations dict_used].
  assert (filter (λ kv : string * Annotation,
                    kv.1 ∉ (omap as_relationship class_dict).*1) annotations
          !! name = None) as Hpyd.
  { apply map_lookup_filter_None. left. exact Hann. }
  split; [exact Hpyd|].
  assert ((<["__weakref__" := AttrValue PyNone]>
             (list_to_map
                (filter (λ item, as_relationship item = None) class_dict))
           : gmap string class_attr) !! name = None) as Hdict.
  { rewrite lookup_insert_ne by (intros <-; discriminate Hname).
    apply not_elem_of_list_to_map_1. intros Hin. apply Hbody.
    apply list_elem_of_fmap in Hin as (item & -> & Hin).
    apply list_elem_of_filter in Hin as [_ Hin].
    apply list_elem_of_fmap. by exists item. }
  destruct is_table; [|exact Hdict].
  rewrite set_empty_defaults_lookup.
  rewrite decide_False; [exact Hdict|].
  intros Hin. apply elem_of_dom in Hin as [a Ha]. rewrite Hpyd in Ha.
  discriminate Ha.
Qed.

(** The validation layer of the examples does refuse a missing required
    field. *)
Lemma required_BaseModel___init___rejects :
  rejects_missing_required required_BaseModel___init__.
Proof.
  intros cls data name field Hin Hreq Hdata.
  unfold required_BaseModel___init__.
  assert (ErrorItem name "Field required" ∈ missing_fields cls data) as Herr.
  { unfold missing_fields. apply list_elem_of_omap.
    exists (name, field). split; [done|]. cbn. rewrite Hreq.
    by rewrite bool_decide_eq_true_2. }
  destruct (missing_fields cls data) as [|err errors];
    [by apply elem_of_nil in Herr|].
  by eexists.
Qed.

(** C6: the injection does not make every storage-backed class
    constructible without arguments.  [set_empty_defaults] is given the
    annotations of the class body; a required field that the class
    inherits from a base class is neither annotated nor assigned in the
    body, so the namespace handed to pydantic has no entry for it, the
    class keeps the descriptor of the base, and the field stays required.
    Construction with zero keyword arguments then raises the
    [ValidationError] of [BaseModel.__init__]. *)
Theorem C6_inherited_field_stays_required
    (is_instrumented : Instance → string → bool)
    (validate_assignment : ModelClass → string → pyval → result pyval)
    (validate_model :
       ModelClass → gmap string pyval →
       list (string * pyval) * gset string * option exn)
    (BaseModel___init__ :
       ModelClass → gmap string pyval →
       result (gmap string pyval * gset string))
    (parent_fields : list (string * FieldInfo))
    (class_dict : list (string * class_attr))
    (annotations : gmap string Annotation)
    (cls : ModelClass) (name : string) (field : FieldInfo) :
  storage_backed cls →
  (name, field) ∈ parent_fields →
  is_required field = true →
  pydantic.is_valid_field_name name = true →
  annotations !! name = None →
  name ∉ class_dict.*1 →
  pydantic.inherited_fields parent_fields
    (pydantic_annotations
       (SQLModelMetaclass___new___namespace true class_dict annotations true))
    (dict_used
       (SQLModelMetaclass___new___namespace true class_dict annotations true))
  ⊆ model_fields cls →
  rejects_missing_required BaseModel___init__ →
  dict_used
    (SQLModelMetaclass___new___namespace true class_dict annotations true)
  !! name = None
  ∧ (name, field) ∈ model_fields cls
  ∧ ∃ errors,
      SQLModel___init__ is_instrumented validate_assignment validate_model
        BaseModel___init__ true (SQLModel___new__ cls) ∅
      = (SQLModel___new__ cls, Some (ValidationError errors)).
Proof.
  intros _ Hparent Hreq Hname Hann Hbody Hinherit Hrejects.
  destruct (namespace_no_entry class_dict annotations true name Hname Hann
              Hbody) as [Hpyd Hdict].
  assert ((name, field) ∈ model_fields cls) as Hfield.
  { apply Hinherit. unfold pydantic.inherited_fields.
    apply list_elem_of_filter. by split. }
  split; [exact Hdict|]. split; [exact Hfield|].
  destruct (Hrejects cls ∅ name field Hfield Hreq (lookup_empty name))
    as [errors Herrors].
  exists errors. by apply init_v2_raises.
Qed.

Lemma C6_witness :
  ∃ errors,
    SQLModel___init__ all_instrumented accept_assignment accept_validate_model
      required_BaseModel___init__ true (SQLModel___new__ Hero3) ∅
    = (SQLModel___new__ Hero3, Some (ValidationError errors)).
Proof.
  apply (C6_inherited_field_stays_required all_instrumented accept_assignment
           accept_validate_model required_BaseModel___init__ Base_fields []
           ∅ Hero3 "name" (plain_field (AClass str_class) Undefined)).
  - reflexivity.
  - apply list_elem_of_In. cbn. tauto.
  - reflexivity.
  - reflexivity.
  - reflexivity.
  - apply not_elem_of_nil.
  - intros item Hin. by apply list_elem_of_filter in Hin as [_ Hin].
  - apply required_BaseModel___init___rejects.
Defined.

(** After the injection a bare annotation cannot be told from an explicit
    [None] default: both class bodies give the same namespace. *)
Lemma bare_annotation_like_None_default annotations class_dict key :
  key ∈ dom annotations →
  class_dict !! key = None →
  compat.set_empty_defaults true annotations class_dict
  = compat.set_empty_defaults true annotations
      (<[key := AttrValue PyNone]> class_dict).
Proof.
  intros Hkey Hnone. apply map_eq. intros k.
  rewrite !set_empty_defaults_lookup.
  destruct (decide (k = key)) as [->|Hne].
  - rewrite !decide_True by done. unfold compat.set_empty_default.
    by rewrite Hnone, !lookup_insert_eq.
  - destruct (decide (k ∈ dom annotations)).
    + unfold compat.set_empty_default.
      rewrite !lookup_insert_ne by done.
      destruct (class_dict !! k) as [[| value | | |]|] eqn:Hk;
        rewrite ?lookup_insert_eq, ?lookup_insert_ne, ?Hk by done; try done.
      destruct (_ && _);
        by rewrite ?lookup_insert_eq, ?lookup_insert_ne, ?Hk by done.
    + by rewrite lookup_insert_ne.
Qed.

(** The injection is guarded by the storage-backed flag of the class
    body. *)
Lemma namespace_injects_only_for_tables class_dict annotations ns :
  ns = SQLModelMetaclass___new___namespace true class_dict annotations false →
  dict_used ns
  = <["__weakref__" := AttrValue PyNone]>
      (list_to_map (filter (λ item, as_relationship item = None) class_dict)).
Proof. by intros ->. Qed.

Lemma namespace_injects_for_tables class_dict annotations ns :
  ns = SQLModelMetaclass___new___namespace true class_dict annotations true →
  dict_used ns
  = compat.set_empty_defaults true (pydantic_annotations ns)
      (<["__weakref__" := AttrValue PyNone]>
         (list_to_map
            (filter (λ item, as_relationship item = None) class_dict))).
Proof. by intros ->. Qed.

(** Where the sentinel is read, in [compat.is_field_noneable], it does tell
    a field without default from one whose default is [None]; the
    derivation [get_column_from_field] uses [_compat._is_field_noneable],
    which never reads it. *)
Lemma sentinel_read_by_compat_is_field_noneable :
  compat.is_field_noneable
    (compat.inject_none_default
       (plain_field (Optional (AClass int_class)) Undefined))
  = false
  ∧ compat.is_field_noneable
      (plain_field (Optional (AClass int_class)) (Given PyNone))
    = true
  ∧ _compat._is_field_noneable
      (compat.inject_none_default
         (plain_field (Optional (AClass int_class)) Undefined))
    = true.
Proof. repeat split. Qed.

Lemma inject_none_default_same_mapping_input value :
  default value = Given PyNone →
  same_mapping_input (compat.inject_none_default value) value.
Proof. intros H. unfold same_mapping_input. cbn. by rewrite H. Qed.

(** A length carried by a metadata object that is not a
    [PydanticMetadata] is not seen by [get_field_metadata], hence not
    applied. *)
Lemma max_length_outside_PydanticMetadata_ignored :
  get_sqlalchemy_type
    (mkFieldInfo (AClass str_class) Undefined None [pydantic.MaxLen 5] None
       None None Undefined Undefined Undefined Undefined Undefined Undefined
       Undefined Undefined Undefined)
  = mret (AutoString None).
Proof. reflexivity. Qed.

(** ** Further properties of the relationship target resolution *)

Lemma wraps_not_NoneType target n a :
  is_target target → wraps target n a → is_NoneType a = false.
Proof. intros Ht Hw. destruct Hw; try done. by apply is_NoneType_target. Qed.

(** X2: [_compat.get_relationship_to] unwraps any nesting of [Optional] and
    [List] around a target, given two stack frames more than there are
    layers. *)
Lemma _compat_get_relationship_to_unwraps_nesting
    name rel_info target n a depth :
  is_target target →
  wraps target n a →
  (n + 2 ≤ depth)%nat →
  _compat.get_relationship_to depth name rel_info a
  = mret (resolved_target target).
Proof.
  intros Ht Hw. revert depth.
  induction Hw as [|n a Hw IH|n a Hw IH|n a Hw IH|n a Hw IH|n a Hw IH];
    intros depth Hdepth.
  - destruct depth as [|[|depth]]; try lia.
    by apply _compat_get_relationship_to_direct.
  - destruct depth as [|depth]; [lia|]. cbn.
    rewrite (wraps_not_NoneType _ _ _ Ht Hw). cbn. apply IH. lia.
  - destruct depth as [|depth]; [lia|]. cbn.
    rewrite (wraps_not_NoneType _ _ _ Ht Hw). cbn. apply IH. lia.
  - destruct depth as [|depth]; [lia|]. cbn.
    rewrite (wraps_not_NoneType _ _ _ Ht Hw). cbn. apply IH. lia.
  - destruct depth as [|depth]; [lia|]. cbn.
    rewrite (wraps_not_NoneType _ _ _ Ht Hw). cbn. apply IH. lia.
  - destruct depth as [|depth]; [lia|]. cbn. apply IH. lia.
Qed.

Lemma _compat_get_relationship_to_unwraps_nesting_witness :
  _compat.get_relationship_to 4 "heroes" plain_relationship
    optional_list_of_Hero
  = mret (AStr "Hero").
Proof.
  apply (_compat_get_relationship_to_unwraps_nesting "heroes"
           plain_relationship (AForwardRef "Hero") 2 optional_list_of_Hero 4).
  - right. by exists "Hero".
  - apply wraps_optional, wraps_list, wraps_target.
  - lia.
Defined.

(** X3: What [_compat.get_relationship_to] returns is fully unwrapped: it has
    no origin (it is no union and no generic) and it is no forward
    reference. *)
Lemma _compat_get_relationship_to_returns_unwrapped
    depth name rel_info a r :
  _compat.get_relationship_to depth name rel_info a = mret r →
  get_origin r = None ∧ ∀ forward_arg, r ≠ AForwardRef forward_arg.
Proof.
  revert a. induction depth as [|depth IH]; intros a; [discriminate|].
  cbn. destruct (get_origin a) as [origin|] eqn:Ho.
  - destruct (_compat._is_union_type origin).
    + case_bool_decide; [discriminate|].
      destruct (get_args a) as [|arg1 [|arg2 [|arg3 rest]]]; try discriminate.
      destruct (_ && _); [apply IH|].
      destruct (_ && _); [apply IH|discriminate].
    + destruct (is_class origin list_class); [|apply IH].
      destruct (getitem (get_args a) 0) as [|x]; [discriminate|].
      cbn. apply IH.
  - destruct a; try discriminate Ho;
      try (intros [= <-]; split; [done|discriminate]).
    apply IH.
Qed.

Lemma _compat_get_relationship_to_returns_unwrapped_witness :
  get_origin (AStr "Hero") = None
  ∧ ∀ forward_arg, AStr "Hero" ≠ AForwardRef forward_arg.
Proof.
  apply (_compat_get_relationship_to_returns_unwrapped 4 "heroes"
           plain_relationship optional_list_of_Hero (AStr "Hero")).
  reflexivity.
Defined.

(** X4: [compat.get_relationship_to] rejects nothing: it only fails with
    [IndexError], on a subscripted annotation without arguments. *)
Lemma compat_get_relationship_to_only_IndexError name rel_info a e :
  compat.get_relationship_to name rel_info a = raise e →
  e = IndexError ∧ get_args a = [] ∧ get_origin a ≠ None.
Proof.
  unfold compat.get_relationship_to.
  destruct a as [| | | | |args|origin args]; cbn; try discriminate.
  - destruct args as [|x args]; cbn; [by intros [= <-]|].
    by destruct x.
  - destruct (bool_decide (origin = list_class)); cbn; [|discriminate].
    destruct args as [|x args]; cbn; [by intros [= <-]|].
    by destruct x.
Qed.

Lemma compat_get_relationship_to_only_IndexError_witness :
  IndexError = IndexError
  ∧ get_args (AGeneric list_class []) = []
  ∧ get_origin (AGeneric list_class []) ≠ None.
Proof.
  apply (compat_get_relationship_to_only_IndexError "heroes"
           plain_relationship (AGeneric list_class []) IndexError).
  reflexivity.
Defined.

(** ** Further properties of the type mapping *)

(** X5: [get_type_from_field] accepts a union exactly when it has two members
    one of which is [NoneType]. *)
Lemma get_type_from_field_union_accepted field :
  is_union (annotation field) = true →
  raises (_compat.get_type_from_field field) = false
  ↔ ∃ b0 b1,
      get_args (annotation field) = [b0; b1]
      ∧ (is_NoneType b0 = true ∨ is_NoneType b1 = true).
Proof.
  intros Hu. unfold _compat.get_type_from_field.
  assert (∃ origin, get_origin (annotation field) = Some origin
                    ∧ _compat._is_union_type origin = true) as (o & Ho & Hou).
  { destruct (annotation field); try discriminate Hu.
    - by eexists.
    - eexists. split; [reflexivity|]. cbn in Hu.
      unfold _compat._is_union_type. cbn [is_class]. by rewrite Hu. }
  assert (∀ r : result Annotation,
    raises match annotation field with
           | ANone => raise (ValueError "Missing field type")
           | _ => r
           end = raises r) as ->
    by (intros r; destruct (annotation field); try done; discriminate Hu).
  rewrite Ho, Hou.
  destruct (get_args (annotation field)) as [|b0 [|b1 [|b2 rest]]]; cbn.
  - split; [discriminate|]. by intros (? & ? & [=] & _).
  - split; [|by intros (? & ? & [=] & _)].
    by destruct (is_NoneType b0).
  - destruct (is_NoneType b0) eqn:H0; cbn.
    + split; [|done]. intros _. exists b0, b1. auto.
    + destruct (is_NoneType b1) eqn:H1; cbn.
      * split; [|done]. intros _. exists b0, b1. auto.
      * split; [discriminate|].
        intros (? & ? & [= <- <-] & [?|?]); congruence.
  - split; [discriminate|]. by intros (? & ? & [=] & _).
Qed.

Lemma get_type_from_field_union_accepted_witness :
  raises (_compat.get_type_from_field optional_foreign_key_field) = false.
Proof.
  apply (get_type_from_field_union_accepted optional_foreign_key_field);
    [reflexivity|].
  exists (AClass int_class), ANoneType. split; [reflexivity|by right].
Defined.

(** X6: [get_field_metadata] returns the first [PydanticMetadata] element of
    the field's metadata, and [FakeMetadata] (no constraint) when there is
    none. *)
Lemma get_field_metadata_first field :
  (Forall (λ meta, is_PydanticMetadata meta = false) (metadata field) →
     _compat.get_field_metadata field = FakeMetadata)
  ∧ (∀ before meta after,
       metadata field = before ++ meta :: after →
       Forall (λ meta, is_PydanticMetadata meta = false) before →
       is_PydanticMetadata meta = true →
       _compat.get_field_metadata field = meta).
Proof.
  unfold _compat.get_field_metadata. split.
  - induction (metadata field) as [|m l IH]; [done|].
    intros [Hm Hl]%Forall_cons.
    rewrite filter_cons_False by congruence. by apply IH.
  - intros before meta after -> Hbefore Hmeta.
    induction before as [|m before IH].
    + rewrite app_nil_l. by rewrite filter_cons_True.
    + apply Forall_cons in Hbefore as [Hm Hbefore].
      rewrite <- app_comm_cons.
      rewrite filter_cons_False by congruence. by apply IH.
Qed.

Lemma get_field_metadata_first_witness :
  _compat.get_field_metadata decimal_field
  = mkMeta true None (Some 5) (Some 2).
Proof.
  destruct (get_field_metadata_first decimal_field) as [_ H].
  apply (H [] (mkMeta true None (Some 5) (Some 2)) []);
    [reflexivity|constructor|reflexivity].
Defined.

Lemma first_match_is_Some c table :
  is_Some (first_match c table)
  ↔ ∃ b, b ∈ table.*1 ∧ issubclass c b = true.
Proof.
  induction table as [|[b t] table IH]; cbn.
  - split; [by intros [? [=]]|]. intros (b & Hb & _).
    by apply elem_of_nil in Hb.
  - destruct (issubclass c b) eqn:Hb.
    + split; [|by eexists]. intros _. exists b. split; [left|done].
    + rewrite IH. split.
      * intros (b' & Hin & Hb'). exists b'. split; [by right|done].
      * intros (b' & Hin & Hb'). apply elem_of_cons in Hin as [->|Hin];
          [congruence|]. by exists b'.
Qed.

(** X8: For a field whose type is a class or [Optional] of a class, the type
    mapping succeeds exactly when one of the seventeen mapped library
    classes is a base of the class. *)
Lemma get_sqlalchemy_type_succeeds_iff field c :
  sa_type field = Undefined →
  class_or_optional c (annotation field) →
  raises (get_sqlalchemy_type field) = false
  ↔ ∃ b, b ∈ mapped_bases ∧ issubclass c b = true.
Proof.
  intros Hsa Hc.
  rewrite (get_sqlalchemy_type_dispatch field c Hsa)
    by by apply get_type_from_field_class_or_optional.
  unfold dispatch_by_priority.
  change mapped_bases
    with (storage_type_priority c (_compat.get_field_metadata field)
            (string_type_nonzero (_compat.get_field_metadata field))).*1.
  rewrite <- first_match_is_Some.
  destruct (first_match _ _); cbn.
  - split; [by eexists|done].
  - split; [discriminate|]. by intros [? [=]].
Qed.

Lemma get_sqlalchemy_type_succeeds_iff_witness :
  raises (get_sqlalchemy_type optional_foreign_key_field) = false.
Proof.
  apply (get_sqlalchemy_type_succeeds_iff optional_foreign_key_field
           int_class); [reflexivity|constructor|].
  exists int. split; [|reflexivity].
  unfold mapped_bases. do 4 right. left.
Defined.

(** ** Further properties of the column derivation *)

(** What a successful derivation without manual column returns, keyword
    by keyword. *)
Lemma get_column_from_field_success field col :
  sa_column field = Undefined →
  get_column_from_field field = mret col →
  get_sqlalchemy_type field = mret (column_type col)
  ∧ column_args col
    = foreign_key_args field
      ++ match sa_column_args field with
         | Given extra => extra
         | Undefined => []
         end
  ∧ column_kwargs col
    = match sa_column_kwargs field with
      | Given extra => extra
      | Undefined => ∅
      end
      ∪ (match (match default_factory field with
                | Some factory => Given (PyCallable factory)
                | None => default field
                end) with
         | Given sa_default => {[ "default" := sa_default ]}
         | Undefined => ∅
         end
         ∪ {[ "primary_key" := PyBool (is_primary_key field);
              "nullable" := PyBool
                match nullable field with
                | Given override => override
                | Undefined =>
                    negb (is_primary_key field)
                    && _compat._is_field_noneable field
                end;
              "index" := PyBool match index field with
                                | Given index => index
                                | Undefined => false
                                end;
              "unique" := PyBool match unique field with
                                 | Given unique => unique
                                 | Undefined => false
                                 end ]}).
Proof.
  intros Hcol. unfold get_column_from_field. rewrite Hcol.
  destruct (get_sqlalchemy_type field) as [e|ty]; [discriminate|]. cbn.
  unfold foreign_key_args, is_primary_key.
  destruct (foreign_key field) as [|fk]; cbn.
  - intros [= <-]. cbn. split; [done|]. split; [by destruct (sa_column_args _)|].
    destruct (sa_column_kwargs field), (default_factory field),
      (default field); cbn;
      rewrite <- ?insert_union_singleton_l, ?(left_id_L ∅ (∪)); done.
  - destruct fk as [| |b|z|s|n|r]; cbn;
      repeat match goal with
             | |- context [if ?b then _ else _] => destruct b eqn:?; cbn
             end;
      try discriminate;
      try (apply bool_decide_eq_true in Heqb0 ||
           apply bool_decide_eq_false in Heqb0);
      intros [= <-]; cbn;
      (split; [done|]); (split; [by destruct (sa_column_args _)|]);
      destruct (sa_column_kwargs field), (default_factory field),
        (default field); cbn;
        rewrite <- ?insert_union_singleton_l, ?(left_id_L ∅ (∪)); done.
Qed.

(** X9: Without a manual column the error of the type mapping is raised
    as it is, before any hint is looked at; and when the type mapping
    succeeds, a foreign-key hint that is true without being a string fails
    the [assert], whatever the other hints and keywords are. *)
Lemma get_column_from_field_errors field :
  sa_column field = Undefined →
  (∀ e, get_sqlalchemy_type field = raise e →
        get_column_from_field field = raise e)
  ∧ (raises (get_sqlalchemy_type field) = false →
     bad_foreign_key field →
     get_column_from_field field = raise AssertionError).
Proof.
  intros Hcol. unfold get_column_from_field, bad_foreign_key. rewrite Hcol.
  split.
  - by intros e ->.
  - destruct (get_sqlalchemy_type field) as [e|ty]; [discriminate|].
    intros _ (fk & -> & Hfk & Hs). cbn. rewrite Hfk.
    destruct fk; try reflexivity. by destruct (Hs s).
Qed.

Lemma get_column_from_field_errors_witness :
  get_column_from_field int_foreign_key_field = raise AssertionError
  ∧ get_column_from_field
      (plain_field (AClass Hero) Undefined)
    = raise (ValueError
               "<class '__main__.Hero'> has no matching SQLAlchemy type").
Proof.
  split.
  - apply (get_column_from_field_errors int_foreign_key_field);
      [reflexivity|reflexivity|].
    exists (PyInt 7). split; [reflexivity|]. split; [reflexivity|].
    discriminate.
  - apply (get_column_from_field_errors (plain_field (AClass Hero) Undefined));
      reflexivity.
Defined.

(** The derived column has the storage type of the type mapping; its
    positional arguments are the foreign key, when the hint is a non-empty
    string, followed by the extra column arguments. *)
Lemma get_column_from_field_type_and_args field col :
  sa_column field = Undefined →
  get_column_from_field field = mret col →
  get_sqlalchemy_type field = mret (column_type col)
  ∧ column_args col
    = foreign_key_args field
      ++ match sa_column_args field with
         | Given extra => extra
         | Undefined => []
         end.
Proof.
  intros Hcol Hget.
  destruct (get_column_from_field_success _ _ Hcol Hget) as (? & ? & _).
  done.
Qed.

Lemma get_column_from_field_type_and_args_witness :
  ∃ col,
    get_column_from_field extra_kwargs_field = mret col
    ∧ column_type col = Integer
    ∧ column_args col = [ForeignKey "team.id"].
Proof.
  eexists. split; [reflexivity|].
  destruct (get_column_from_field_type_and_args extra_kwargs_field _
              eq_refl eq_refl) as [Hty Hargs].
  split; [reflexivity|exact Hargs].
Defined.

(** X10: Default propagation: the column default is the default factory when
    there is one, else the static default when there is one, else the
    column has no default keyword. *)
Lemma get_column_from_field_default field col :
  sa_column field = Undefined →
  (∀ extra, sa_column_kwargs field = Given extra → extra !! "default" = None) →
  get_column_from_field field = mret col →
  column_kwargs col !! "default"
  = match default_factory field with
    | Some factory => Some (PyCallable factory)
    | None =>
        match default field with
        | Given static => Some static
        | Undefined => None
        end
    end.
Proof.
  intros Hcol Hextra Hget.
  destruct (get_column_from_field_success _ _ Hcol Hget) as (_ & _ & ->).
  rewrite lookup_union_r.
  2:{ destruct (sa_column_kwargs field) as [|extra] eqn:He; [done|].
      by apply Hextra. }
  destruct (default_factory field) as [factory|].
  - by rewrite lookup_union_l', lookup_singleton_eq
      by (rewrite lookup_singleton_eq; by eexists).
  - destruct (default field) as [|static].
    + rewrite (left_id_L ∅ (∪)).
      by rewrite !lookup_insert_ne, lookup_singleton_ne by discriminate.
    + by rewrite lookup_union_l', lookup_singleton_eq
        by (rewrite lookup_singleton_eq; by eexists).
Qed.

Lemma get_column_from_field_default_witness :
  ∃ col,
    get_column_from_field factory_field = mret col
    ∧ column_kwargs col !! "default" = Some (PyCallable "now").
Proof.
  eexists. split; [reflexivity|].
  apply (get_column_from_field_default factory_field);
    [reflexivity|intros extra; discriminate|reflexivity].
Defined.

(** X11: Extra column keywords are merged last: each of them appears in the
    column with the value given, also when it has the name of a derived
    keyword; and the four derived keywords are always present. *)
Lemma get_column_from_field_extra_kwargs field col :
  sa_column field = Undefined →
  get_column_from_field field = mret col →
  (∀ extra key value,
     sa_column_kwargs field = Given extra →
     extra !! key = Some value →
     column_kwargs col !! key = Some value)
  ∧ (∀ key, key ∈ shorthand_keywords → is_Some (column_kwargs col !! key)).
Proof.
  intros Hcol Hget.
  destruct (get_column_from_field_success _ _ Hcol Hget) as (_ & _ & ->).
  split.
  - intros extra key value -> Hkey. by apply lookup_union_Some_l.
  - intros key Hkey. apply lookup_union_is_Some. right.
    apply lookup_union_is_Some. right.
    unfold shorthand_keywords in Hkey.
    repeat (apply elem_of_cons in Hkey as [->|Hkey];
            [by simplify_map_eq|]).
    by apply elem_of_nil in Hkey.
Qed.

Lemma get_column_from_field_extra_kwargs_witness :
  ∃ col,
    get_column_from_field extra_kwargs_field = mret col
    ∧ column_kwargs col !! "primary_key" = Some (PyBool false)
    ∧ is_Some (column_kwargs col !! "unique").
Proof.
  eexists. split; [reflexivity|].
  destruct (get_column_from_field_extra_kwargs extra_kwargs_field _
              eq_refl eq_refl) as [Hextra Hall].
  split.
  - by apply (Hextra {[ "primary_key" := PyBool false;
                        "comment" := PyStr "c" ]}).
  - apply Hall. unfold shorthand_keywords. do 3 right. left.
Defined.

(** ** Further properties of the builders *)

(** X12: Calling [FieldInfo] directly with a manual column always raises unless
    [primary_key=Undefined] and [unique=Undefined] are passed too: the
    defaults the constructor pops for them are [False]. *)
Lemma FieldInfo___init___sa_column_needs_Undefined default_ kwargs col :
  kw_sa_column kwargs = Some (Given col) →
  kw_primary_key kwargs = None ∨ kw_unique kwargs = None →
  ∃ msg, FieldInfo___init__ default_ kwargs = raise (RuntimeError msg).
Proof.
  intros Hcol Hkw. unfold FieldInfo___init__. rewrite Hcol. cbn.
  destruct (pop (kw_sa_column_args kwargs) Undefined); cbn; [|by eexists].
  destruct (pop (kw_sa_column_kwargs kwargs) Undefined); cbn; [|by eexists].
  destruct (pop (kw_primary_key kwargs) (Given false)) eqn:Hpk; cbn;
    [|by eexists].
  destruct (pop (kw_nullable kwargs) Undefined); cbn; [|by eexists].
  destruct (pop (kw_foreign_key kwargs) Undefined); cbn; [|by eexists].
  destruct (pop (kw_unique kwargs) (Given false)) eqn:Hu; cbn; [|by eexists].
  destruct Hkw as [H|H]; rewrite H in *; discriminate.
Qed.

Lemma FieldInfo___init___sa_column_needs_Undefined_witness :
  ∃ msg,
    FieldInfo___init__ Undefined
      (mkFieldInfo_kwargs None None None None None None
         (Some (Given manual_column)) None None None None None None None
         None)
    = raise (RuntimeError msg).
Proof.
  apply (FieldInfo___init___sa_column_needs_Undefined Undefined _
           manual_column); [reflexivity|by left].
Defined.

(** Without a manual column [Field] raises no configuration error,
    whatever the hints: it fails only when pydantic refuses a default
    passed together with a default factory.  Otherwise the descriptor
    holds every hint as it was given, and its default is the one given,
    except that [Ellipsis] is stored as [Undefined]: no descriptor carries
    the default [Ellipsis]. *)
Lemma Field_without_sa_column args :
  arg_sa_column args = Undefined →
  if default_with_factory args
  then Field args = raise default_and_factory_error
  else ∃ field_info,
         Field args = mret field_info
         ∧ default field_info
           = (if bool_decide (arg_default args = Given PyEllipsis)
              then Undefined else arg_default args)
         ∧ default field_info ≠ Given PyEllipsis
         ∧ default_factory field_info = arg_default_factory args
         ∧ primary_key field_info = arg_primary_key args
         ∧ nullable field_info = arg_nullable args
         ∧ foreign_key field_info = arg_foreign_key args
         ∧ unique field_info = arg_unique args
         ∧ index field_info = arg_index args
         ∧ sa_type field_info = arg_sa_type args
         ∧ sa_column field_info = Undefined
         ∧ sa_column_args field_info = arg_sa_column_args args
         ∧ sa_column_kwargs field_info = arg_sa_column_kwargs args
         ∧ original_default field_info = None.
Proof.
  intros Hcol. unfold Field, FieldInfo___init__.
  cbn [kw_primary_key kw_nullable kw_foreign_key kw_unique kw_index
       kw_sa_type kw_sa_column kw_sa_column_args kw_sa_column_kwargs
       kw_default_factory pop from_option id].
  rewrite pydantic_FieldInfo___init___cases. rewrite Hcol.
  destruct (default_with_factory args); cbn; [reflexivity|].
  eexists. split; [reflexivity|]. cbn.
  destruct (arg_default args) as [|[]]; by repeat split.
Qed.

Lemma Field_without_sa_column_witness :
  ∃ field_info,
    Field (mkField_args (Given PyEllipsis) None None None None None None
             (Given true) Undefined Undefined Undefined Undefined Undefined
             Undefined Undefined Undefined)
    = mret field_info
    ∧ default field_info = Undefined
    ∧ primary_key field_info = Given true.
Proof.
  pose proof (Field_without_sa_column
                (mkField_args (Given PyEllipsis) None None None None None
                   None (Given true) Undefined Undefined Undefined Undefined
                   Undefined Undefined Undefined Undefined) eq_refl) as H.
  destruct H as (field_info & H & Hdefault & _ & _ & Hpk & _).
  by exists field_info.
Defined.

(** X13: [RelationshipInfo] raises exactly when an explicit relationship comes
    with extra arguments or keywords; otherwise it stores what it is
    given. *)
Lemma RelationshipInfo___init___raises_iff
    back_populates link_model sa_relationship sa_relationship_args
    sa_relationship_kwargs :
  (raises (RelationshipInfo___init__ back_populates link_model
             sa_relationship sa_relationship_args sa_relationship_kwargs)
   = true
   ↔ sa_relationship ≠ None
     ∧ (sa_relationship_args ≠ None ∨ sa_relationship_kwargs ≠ None))
  ∧ (∀ e,
       RelationshipInfo___init__ back_populates link_model sa_relationship
         sa_relationship_args sa_relationship_kwargs = raise e →
       is_ConfigurationError e)
  ∧ (∀ info,
       RelationshipInfo___init__ back_populates link_model sa_relationship
         sa_relationship_args sa_relationship_kwargs = mret info →
       info = mkRelationshipInfo back_populates link_model sa_relationship
                sa_relationship_args sa_relationship_kwargs).
Proof.
  unfold RelationshipInfo___init__.
  destruct sa_relationship as [r|], sa_relationship_args as [a|],
    sa_relationship_kwargs as [k|]; cbn.
  all: split; [|split].
  all: try (intros e [= <-]; by eexists).
  all: try (intros info [= <-]; reflexivity).
  all: try (intros ? ?; discriminate).
  all: split; try discriminate.
  all: try (intros _; split; [done|]; auto; fail).
  all: try (intros [H1 [H2|H2]]; done).
Qed.

Lemma RelationshipInfo___init___raises_iff_witness :
  raises (RelationshipInfo___init__ None None (Some heroes_relationship)
            (Some ["Hero"]) None)
  = true.
Proof.
  destruct (RelationshipInfo___init___raises_iff None None
              (Some heroes_relationship) (Some ["Hero"]) None) as [H _].
  apply H. split; [done|]. by left.
Defined.

(** ** Further properties of the class namespace *)

(** X14: Phase 1 splits the annotations of the class body in two disjoint
    parts that together are all of them: those of the relationships and
    those handed to the validation layer. *)
Lemma namespace_annotations_partition
    IS_PYDANTIC_V2 class_dict annotations is_table ns :
  ns = SQLModelMetaclass___new___namespace IS_PYDANTIC_V2 class_dict
         annotations is_table →
  relationship_annotations ns ∪ pydantic_annotations ns = annotations
  ∧ relationship_annotations ns ##ₘ pydantic_annotations ns
  ∧ (∀ key, key ∈ dom (relationship_annotations ns)
            ↔ key ∈ dom annotations ∧ key ∈ (relationships ns).*1)
  ∧ (∀ key, key ∈ dom (pydantic_annotations ns)
            ↔ key ∈ dom annotations ∧ key ∉ (relationships ns).*1).
Proof.
  intros ->. cbn. split; [|split; [|split]].
  - apply (map_filter_union_complement
             (λ kv : string * Annotation,
                kv.1 ∈ (omap as_relationship class_dict).*1)).
  - apply (map_disjoint_filter_complement
             (λ kv : string * Annotation,
                kv.1 ∈ (omap as_relationship class_dict).*1)).
  - intros key. rewrite !elem_of_dom. unfold is_Some.
    setoid_rewrite map_lookup_filter_Some. cbn. split.
    + intros (x & Hx & Hin). split; [by exists x|done].
    + intros [[x Hx] Hin]. by exists x.
  - intros key. rewrite !elem_of_dom. unfold is_Some.
    setoid_rewrite map_lookup_filter_Some. cbn. split.
    + intros (x & Hx & Hin). split; [by exists x|done].
    + intros [[x Hx] Hin]. by exists x.
Qed.

Lemma namespace_annotations_partition_witness :
  dom (pydantic_annotations
         (SQLModelMetaclass___new___namespace true Hero_class_dict
            Hero_annotations true))
  = {[ "name"; "team_id" ]}.
Proof.
  destruct (namespace_annotations_partition true Hero_class_dict
              Hero_annotations true _ eq_refl) as (_ & _ & _ & H).
  apply set_eq. intros key. rewrite H.
  unfold Hero_annotations. rewrite !dom_insert_L, dom_singleton_L. cbn.
  rewrite !elem_of_union, !elem_of_singleton, list_elem_of_singleton.
  split.
  - intros [[->|[->| ->]] Hne]; auto. by destruct Hne.
  - intros [->| ->]; (split; [auto|discriminate]).
Defined.

Lemma set_empty_default_no_relationship key key' class_dict r :
  compat.set_empty_default key class_dict !! key'
  = Some (AttrRelationshipInfo r) →
  class_dict !! key' = Some (AttrRelationshipInfo r).
Proof.
  unfold compat.set_empty_default.
  destruct (class_dict !! key) as [[| value | | |]|] eqn:Hk; try done.
  - destruct (_ && _); [|done].
    destruct (decide (key = key')) as [->|Hne];
      [by rewrite lookup_insert_eq|by rewrite lookup_insert_ne].
  - destruct (decide (key = key')) as [->|Hne];
      [by rewrite lookup_insert_eq|by rewrite lookup_insert_ne].
Qed.

(** X15: No relationship descriptor reaches the validation layer: the
    namespace handed to pydantic holds none, for any class body. *)
Lemma namespace_dict_used_has_no_relationship
    IS_PYDANTIC_V2 class_dict annotations is_table ns key r :
  ns = SQLModelMetaclass___new___namespace IS_PYDANTIC_V2 class_dict
         annotations is_table →
  dict_used ns !! key ≠ Some (AttrRelationshipInfo r).
Proof.
  intros -> H. cbn in H.
  assert ((<["__weakref__" := AttrValue PyNone]>
             (list_to_map
                (filter (λ item, as_relationship item = None) class_dict))
           : gmap string class_attr) !! key
          = Some (AttrRelationshipInfo r)) as Hbase.
  { destruct is_table, IS_PYDANTIC_V2; try exact H.
    rewrite set_empty_defaults_lookup in H.
    destruct (decide _); [|exact H].
    by apply set_empty_default_no_relationship in H. }
  destruct (decide (key = "__weakref__")) as [->|Hne].
  - by rewrite lookup_insert_eq in Hbase.
  - rewrite lookup_insert_ne in Hbase by done.
    apply elem_of_list_to_map_2, list_elem_of_filter in Hbase as [Hrel _].
    discriminate Hrel.
Qed.

Lemma namespace_dict_used_has_no_relationship_witness :
  dict_used (SQLModelMetaclass___new___namespace true Hero_class_dict
               Hero_annotations true) !! "team"
  ≠ Some (AttrRelationshipInfo
            (mkRelationshipInfo (Some "heroes") None None None None)).
Proof.
  by apply (namespace_dict_used_has_no_relationship true Hero_class_dict
              Hero_annotations true).
Defined.

(** ** Further properties of the injected defaults *)

Lemma set_empty_default_idempotent key (class_dict : gmap string class_attr) :
  compat.set_empty_default key (compat.set_empty_default key class_dict)
  = compat.set_empty_default key class_dict.
Proof.
  destruct (class_dict !! key) as [attr|] eqn:Hk.
  - destruct attr as [v|value|r|c|r].
    2:{ destruct ((is_Undefined (default value)
                   || bool_decide (default value = Given PyEllipsis))
                  && bool_decide (default_factory value = None)) eqn:Hinj.
        - assert (compat.set_empty_default key class_dict
                  = <[key := AttrFieldInfo (compat.inject_none_default value)]>
                      class_dict) as ->.
          { unfold compat.set_empty_default. by rewrite Hk, Hinj. }
          unfold compat.set_empty_default. by rewrite lookup_insert_eq.
        - assert (compat.set_empty_default key class_dict = class_dict) as ->.
          { unfold compat.set_empty_default. by rewrite Hk, Hinj. }
          unfold compat.set_empty_default. by rewrite Hk, Hinj. }
    all: assert (compat.set_empty_default key class_dict = class_dict) as ->
      by (unfold compat.set_empty_default; by rewrite Hk).
    all: unfold compat.set_empty_default; by rewrite Hk.
  - assert (compat.set_empty_default key class_dict
            = <[key := AttrValue PyNone]> class_dict) as ->.
    { unfold compat.set_empty_default. by rewrite Hk. }
    unfold compat.set_empty_default. by rewrite lookup_insert_eq.
Qed.

(** X16: Injecting the placeholder defaults twice is the same as injecting
    them once. *)
Lemma set_empty_defaults_idempotent IS_PYDANTIC_V2 annotations class_dict :
  compat.set_empty_defaults IS_PYDANTIC_V2 annotations
    (compat.set_empty_defaults IS_PYDANTIC_V2 annotations class_dict)
  = compat.set_empty_defaults IS_PYDANTIC_V2 annotations class_dict.
Proof.
  destruct IS_PYDANTIC_V2; [|done].
  apply map_eq. intros key. rewrite !set_empty_defaults_lookup.
  destruct (decide (key ∈ dom annotations)); [|done].
  rewrite (set_empty_default_same key _
             (compat.set_empty_default key class_dict))
    by (rewrite set_empty_defaults_lookup; by rewrite decide_True).
  by rewrite set_empty_default_idempotent.
Qed.

(** X17: The injection never removes an entry and never touches what it need
    not: keys that are not annotated keep their value, an explicit default
    (a plain value, or a descriptor with a default or a factory) is kept as
    it is, and the keys afterwards are the old keys and the annotated
    ones. *)
Lemma set_empty_defaults_preserves annotations class_dict :
  let class_dict' := compat.set_empty_defaults true annotations class_dict in
  (∀ key, key ∉ dom annotations → class_dict' !! key = class_dict !! key)
  ∧ (∀ key attr,
       class_dict !! key = Some attr →
       ¬ rewritten_by_injection attr →
       class_dict' !! key = Some attr)
  ∧ dom class_dict' = dom class_dict ∪ dom annotations.
Proof.
  intros class_dict'. subst class_dict'. split; [|split].
  - intros key Hkey. rewrite set_empty_defaults_lookup.
    by rewrite decide_False.
  - intros key attr Hattr Hno. rewrite set_empty_defaults_lookup.
    destruct (decide _); [|done].
    unfold compat.set_empty_default. rewrite Hattr.
    destruct attr as [| value | | |]; try done.
    destruct (_ && _) eqn:Hinj; [|done].
    destruct Hno. exists value. split; [done|].
    apply andb_true_iff in Hinj as [Hd Hf].
    apply bool_decide_eq_true in Hf. split; [|done].
    apply orb_true_iff in Hd as [Hd|Hd].
    + left. by destruct (default value).
    + right. by apply bool_decide_eq_true in Hd.
  - apply set_eq. intros key.
    rewrite elem_of_union, !elem_of_dom, set_empty_defaults_lookup.
    destruct (decide (key ∈ dom annotations)) as [Hin|Hout].
    + split; [by right; apply elem_of_dom|]. intros _.
      unfold compat.set_empty_default.
      destruct (class_dict !! key) as [[| value | | |]|] eqn:Hk;
        rewrite ?lookup_insert_eq, ?Hk; try by eexists.
      destruct (_ && _); rewrite ?lookup_insert_eq, ?Hk; by eexists.
    + split; [by left|]. intros [H|H]; [done|].
      by apply elem_of_dom in H.
Qed.

Lemma set_empty_defaults_preserves_witness :
  compat.set_empty_defaults true id_annotations
    {[ "id" := AttrValue (PyInt 7); "name" := AttrValue (PyStr "x") ]}
  !! "id"
  = Some (AttrValue (PyInt 7)).
Proof.
  destruct (set_empty_defaults_preserves id_annotations
              {[ "id" := AttrValue (PyInt 7);
                 "name" := AttrValue (PyStr "x") ]}) as (_ & H & _).
  apply H; [reflexivity|]. by intros (value & [=] & _).
Defined.

(** ** Further properties of the relationship wiring *)

(** What one step of the wiring does for a relationship without explicit
    override, when it succeeds. *)
Lemma wire_relationship_inferred cls name rel_info cls' :
  sa_relationship rel_info = None →
  wire_relationship cls (name, rel_info) = mret cls' →
  ∃ raw_ann ann relationship_to base,
    __annotations__ cls !! name = Some raw_ann
    ∧ ((get_origin raw_ann = Some (AClass Mapped)
        ∧ get_args raw_ann !! 0%nat = Some ann
        ∧ __annotations__ cls' = __annotations__ cls)
       ∨ (get_origin raw_ann ≠ Some (AClass Mapped)
          ∧ ann = raw_ann
          ∧ __annotations__ cls'
            = <[name := AGeneric Mapped [raw_ann]]> (__annotations__ cls)))
    ∧ compat.get_relationship_to name rel_info ann = mret relationship_to
    ∧ inferred_keywords rel_info base
    ∧ cls_attrs cls'
      = <[name := AttrRelationship
                    (mkRelationshipProperty relationship_to
                       (from_option id [] (sa_relationship_args rel_info))
                       (from_option (λ extra, extra ∪ base) base
                          (sa_relationship_kwargs rel_info)))]>
          (cls_attrs cls).
Proof.
  intros Hno. unfold wire_relationship. cbn [fst snd]. rewrite Hno.
  destruct (__annotations__ cls !! name) as [raw_ann|]; [|discriminate].
  cbn.
  unfold inferred_keywords.
  destruct (from_option (λ o, is_class o Mapped) false (get_origin raw_ann))
    eqn:Hmapped; cbn.
  - assert (get_origin raw_ann = Some (AClass Mapped)) as Hm.
    { destruct (get_origin raw_ann) as [[]|]; try discriminate Hmapped.
      cbn in Hmapped. apply bool_decide_eq_true in Hmapped. by subst. }
    unfold getitem.
    destruct (get_args raw_ann !! 0%nat) as [ann|] eqn:Hargs; [|discriminate].
    cbn.
    destruct (compat.get_relationship_to name rel_info ann) as [|to] eqn:Hto;
      [discriminate|].
    cbn. destruct (link_model rel_info) as [link|]; cbn.
    + destruct (mapped link) eqn:Hlink_mapped; [|discriminate]. cbn.
      destruct (local_table link) as [table|] eqn:Ht; [|discriminate]. cbn.
      intros [= <-]. eexists raw_ann, ann, to, _.
      split; [done|]. split; [left; done|]. split; [done|].
      split; [|reflexivity].
      split; [|split].
      * rewrite lookup_insert_ne by discriminate.
        destruct (back_populates rel_info) as [bp|]; [|done].
        cbn. destruct (bool_decide (bp = "")); cbn; [done|].
        by rewrite lookup_insert_eq.
      * by rewrite lookup_insert_eq.
      * intros ? [= <-]. by rewrite Hlink_mapped, Ht.
    + intros [= <-]. eexists raw_ann, ann, to, _.
      split; [done|]. split; [left; done|]. split; [done|].
      split; [|reflexivity].
      split; [|split; [|done]].
      * destruct (back_populates rel_info) as [bp|]; [|done].
        cbn. destruct (bool_decide (bp = "")); cbn; [done|].
        by rewrite lookup_insert_eq.
      * destruct (back_populates rel_info) as [bp|]; [|done].
        cbn. destruct (bool_decide (bp = "")); cbn; [done|].
        by rewrite lookup_insert_ne.
  - assert (get_origin raw_ann ≠ Some (AClass Mapped)) as Hm.
    { intros H. rewrite H in Hmapped. cbn in Hmapped.
      by rewrite bool_decide_eq_true_2 in Hmapped. }
    destruct (compat.get_relationship_to name rel_info raw_ann) as [|to] eqn:Hto;
      [discriminate|].
    cbn. destruct (link_model rel_info) as [link|]; cbn.
    + destruct (mapped link) eqn:Hlink_mapped; [|discriminate]. cbn.
      destruct (local_table link) as [table|] eqn:Ht; [|discriminate]. cbn.
      intros [= <-]. eexists raw_ann, raw_ann, to, _.
      split; [done|]. split; [right; done|]. split; [done|].
      split; [|reflexivity].
      split; [|split].
      * rewrite lookup_insert_ne by discriminate.
        destruct (back_populates rel_info) as [bp|]; [|done].
        cbn. destruct (bool_decide (bp = "")); cbn; [done|].
        by rewrite lookup_insert_eq.
      * by rewrite lookup_insert_eq.
      * intros ? [= <-]. by rewrite Hlink_mapped, Ht.
    + intros [= <-]. eexists raw_ann, raw_ann, to, _.
      split; [done|]. split; [right; done|]. split; [done|].
      split; [|reflexivity].
      split; [|split; [|done]].
      * destruct (back_populates rel_info) as [bp|]; [|done].
        cbn. destruct (bool_decide (bp = "")); cbn; [done|].
        by rewrite lookup_insert_eq.
      * destruct (back_populates rel_info) as [bp|]; [|done].
        cbn. destruct (bool_decide (bp = "")); cbn; [done|].
        by rewrite lookup_insert_ne.
Qed.

(** X18: A relationship whose link model is not known to the mapping
    layer is never wired: a successful step implies that [inspect] knows
    the link model and that its mapper has a local table.  When the
    annotation is there, is not [Mapped[...]] and resolves, a link model
    that [inspect] does not know makes the step raise the
    [NoInspectionAvailable] of [inspect]; the [RuntimeError] about the
    secondary table, which names the class, is raised for a link model
    that [inspect] knows and whose mapper has no local table. *)
Lemma wire_relationship_link_model cls name rel_info link :
  sa_relationship rel_info = None →
  link_model rel_info = Some link →
  (raises (wire_relationship cls (name, rel_info)) = false →
   mapped link = true ∧ is_Some (local_table link))
  ∧ (∀ raw_ann relationship_to,
       __annotations__ cls !! name = Some raw_ann →
       get_origin raw_ann ≠ Some (AClass Mapped) →
       compat.get_relationship_to name rel_info raw_ann
       = mret relationship_to →
       (mapped link = false →
        wire_relationship cls (name, rel_info) = raise NoInspectionAvailable)
       ∧ (mapped link = true →
          local_table link = None →
          wire_relationship cls (name, rel_info)
          = raise (RuntimeError
                     ("Couldn't find the secondary table for model "
                      +:+ class_repr (link_class link))))).
Proof.
  intros Hno Hlink. split.
  - destruct (wire_relationship cls (name, rel_info)) as [|cls'] eqn:H;
      [done|]. intros _.
    destruct (wire_relationship_inferred _ _ _ _ Hno H)
      as (? & ? & ? & ? & _ & _ & _ & (_ & _ & Hsome) & _).
    by apply Hsome.
  - intros raw_ann relationship_to Hann Horigin Hto.
    assert (from_option (λ o, is_class o Mapped) false (get_origin raw_ann)
            = false) as Hnot_mapped.
    { destruct (get_origin raw_ann) as [[| c | | | | |]|]; try reflexivity.
      cbn. apply bool_decide_eq_false_2. intros ->. by apply Horigin. }
    unfold wire_relationship. cbn [fst snd].
    rewrite Hno, Hann. cbn. rewrite Hnot_mapped. cbn. rewrite Hto. cbn.
    rewrite Hlink. split.
    + by intros ->.
    + by intros -> ->.
Qed.

Lemma wire_relationship_link_model_witness :
  wire_relationship Hero_with_teams ("teams", unmapped_link_info)
  = raise NoInspectionAvailable.
Proof.
  destruct (wire_relationship_link_model Hero_with_teams "teams"
              unmapped_link_info (mkLinkModel HeroTeamLink false None)
              eq_refl eq_refl) as [_ H].
  destruct (H (List (AForwardRef "Team")) (AStr "Team"))
    as [Hraise _]; [reflexivity|discriminate|reflexivity|].
  by apply Hraise.
Defined.

(** X19: The relationship that the wiring infers: its argument is the resolved
    target, its positional arguments are the extra ones, every extra
    keyword is passed with the value given (also over an inferred keyword
    of the same name), and the back-reference and the secondary table are
    passed unless an extra keyword of that name replaces them. *)
Lemma wire_relationship_keywords cls name rel_info cls' :
  sa_relationship rel_info = None →
  wire_relationship cls (name, rel_info) = mret cls' →
  ∃ r,
    cls_attrs cls' !! name = Some (AttrRelationship r)
    ∧ rel_args r = from_option id [] (sa_relationship_args rel_info)
    ∧ (∀ extra key value,
         sa_relationship_kwargs rel_info = Some extra →
         extra !! key = Some value →
         rel_kwargs r !! key = Some value)
    ∧ (∀ key,
         (∀ extra, sa_relationship_kwargs rel_info = Some extra →
                   extra !! key = None) →
         (key = "back_populates" →
            rel_kwargs r !! key
            = match back_populates rel_info with
              | Some bp =>
                  if bool_decide (bp = "") then None else Some (PyStr bp)
              | None => None
              end)
         ∧ (key = "secondary" →
              ∃ link_table,
                rel_kwargs r !! key = PyObject <$> link_table
                ∧ link_table = link_model rel_info ≫= local_table)).
Proof.
  intros Hno Hwire.
  destruct (wire_relationship_inferred _ _ _ _ Hno Hwire)
    as (raw_ann & ann & to & base & _ & _ & _ & (Hbp & Hsec & Hlink) & ->).
  eexists. split; [by rewrite lookup_insert_eq|]. cbn.
  split; [done|]. split.
  - intros extra key value -> Hkey. cbn. by apply lookup_union_Some_l.
  - intros key Hextra.
    assert (from_option (λ extra, extra ∪ base) base
              (sa_relationship_kwargs rel_info) !! key = base !! key) as ->.
    { destruct (sa_relationship_kwargs rel_info) as [extra|]; [|done].
      cbn. rewrite lookup_union_r; [done|]. by apply Hextra. }
    split; intros ->; [done|].
    exists (link_model rel_info ≫= local_table). split; [|done].
    rewrite Hsec. by destruct (link_model rel_info).
Qed.

Lemma wire_relationship_keywords_witness :
  ∃ cls' r,
    wire_relationship Hero_with_teams ("teams", teams_relationship_info)
    = mret cls'
    ∧ cls_attrs cls' !! "teams" = Some (AttrRelationship r)
    ∧ rel_kwargs r !! "back_populates" = Some (PyStr "x")
    ∧ rel_kwargs r !! "secondary" = Some (PyObject "heroteamlink").
Proof.
  destruct (wire_relationship Hero_with_teams
              ("teams", teams_relationship_info)) as [e|cls'] eqn:Hw;
    [discriminate Hw|].
  destruct (wire_relationship_keywords Hero_with_teams "teams"
              teams_relationship_info cls' eq_refl Hw)
    as (r & Hr & _ & Hextra & Hinferred).
  exists cls', r. split; [done|]. split; [done|]. split.
  - by eapply Hextra.
  - destruct (Hinferred "secondary") as [_ Hsec].
    { intros extra [= <-]. reflexivity. }
    by destruct (Hsec eq_refl) as (link_table & -> & ->).
Defined.

(** X20: After a relationship is wired its annotation is wrapped in
    [Mapped]: an annotation that already is [Mapped[...]] is left as it is
    and the target is resolved from its first argument; any other
    annotation is replaced by [Mapped] of itself and the target is
    resolved from the annotation as it was.  No other annotation of the
    class changes. *)
Lemma wire_relationship_annotation cls name rel_info cls' :
  sa_relationship rel_info = None →
  wire_relationship cls (name, rel_info) = mret cls' →
  ∃ raw_ann ann r,
    __annotations__ cls !! name = Some raw_ann
    ∧ cls_attrs cls' !! name = Some (AttrRelationship r)
    ∧ compat.get_relationship_to name rel_info ann = mret (rel_argument r)
    ∧ ((get_origin raw_ann = Some (AClass Mapped)
        ∧ get_args raw_ann !! 0%nat = Some ann
        ∧ __annotations__ cls' = __annotations__ cls)
       ∨ (get_origin raw_ann ≠ Some (AClass Mapped)
          ∧ ann = raw_ann
          ∧ __annotations__ cls'
            = <[name := AGeneric Mapped [raw_ann]]> (__annotations__ cls))).
Proof.
  intros Hno Hwire.
  destruct (wire_relationship_inferred _ _ _ _ Hno Hwire)
    as (raw_ann & ann & to & base & Hraw & Hcases & Hto & _ & ->).
  exists raw_ann, ann. eexists. rewrite lookup_insert_eq.
  split; [done|]. split; [reflexivity|]. by split.
Qed.

Lemma wire_relationship_annotation_witness :
  ∃ cls',
    wire_relationship Hero_with_teams ("teams", teams_relationship_info)
    = mret cls'
    ∧ __annotations__ cls'
      = {[ "teams" := AGeneric Mapped [List (AForwardRef "Team")] ]}.
Proof.
  destruct (wire_relationship Hero_with_teams
              ("teams", teams_relationship_info)) as [e|cls'] eqn:Hw;
    [discriminate Hw|].
  destruct (wire_relationship_annotation Hero_with_teams "teams"
              teams_relationship_info cls' eq_refl Hw)
    as (raw_ann & ann & r & Hraw & _ & _ & Hcases).
  exists cls'. split; [done|].
  assert (raw_ann = List (AForwardRef "Team")) as ->.
  { unfold Hero_with_teams in Hraw. cbn [__annotations__] in Hraw.
    rewrite lookup_singleton_eq in Hraw. by injection Hraw. }
  destruct Hcases as [(Hmapped & _)|(_ & _ & ->)]; [discriminate Hmapped|].
  reflexivity.
Defined.

(** Every step of the wiring binds a relationship property on the name
    it is about. *)
Lemma wire_relationship_binds cls item cls' :
  wire_relationship cls item = mret cls' →
  ∃ r, cls_attrs cls' = <[item.1 := AttrRelationship r]> (cls_attrs cls).
Proof.
  destruct item as [name rel_info].
  destruct (sa_relationship rel_info) as [override|] eqn:Ho; intros Hw.
  - rewrite (wire_relationship_override _ _ _ _ Ho) in Hw.
    injection Hw as <-. by eexists.
  - destruct (wire_relationship_inferred _ _ _ _ Ho Hw)
      as (? & ? & ? & ? & _ & _ & _ & _ & ->).
    by eexists.
Qed.

Lemma for_each_wire_relationship_binds items cls cls' name :
  for_each wire_relationship items cls = mret cls' →
  name ∈ items.*1 →
  ∃ r, cls_attrs cls' !! name = Some (AttrRelationship r).
Proof.
  revert cls. induction items as [|item items IH]; intros cls; cbn.
  { intros _ Hin. by apply elem_of_nil in Hin. }
  destruct (wire_relationship cls item) as [|cls1] eqn:H1; [discriminate|].
  cbn. intros Hrest Hin.
  destruct (decide (name ∈ items.*1)) as [Hlater|Hnot]; [by eapply IH|].
  apply elem_of_cons in Hin as [->|Hin]; [|done].
  rewrite (for_each_wire_relationship_other _ _ _ _ Hrest Hnot).
  destruct (wire_relationship_binds _ _ _ H1) as [r ->].
  exists r. by rewrite lookup_insert_eq.
Qed.

(** X21: When the wiring runs and succeeds, every relationship name of the
    class is bound to a relationship property and no other attribute of
    the class is touched. *)
Lemma SQLModelMetaclass___init___binds_relationships cls bases cls' init :
  wiring_runs cls bases = true →
  SQLModelMetaclass___init__ cls bases = mret (cls', init) →
  (∀ name, name ∈ relationship_names cls →
     ∃ r, cls_attrs cls' !! name = Some (AttrRelationship r))
  ∧ (∀ name, name ∉ relationship_names cls →
       cls_attrs cls' !! name = cls_attrs cls !! name).
Proof.
  intros Hruns Hinit. unfold SQLModelMetaclass___init__ in Hinit.
  rewrite Hruns in Hinit.
  destruct (for_each _ _ _) as [|cls1] eqn:Hloop; [discriminate|].
  cbn in Hinit. injection Hinit as <- <-. split.
  - intros name Hin. by eapply for_each_wire_relationship_binds.
  - intros name Hout. by eapply for_each_wire_relationship_other.
Qed.

Lemma SQLModelMetaclass___init___binds_relationships_witness :
  ∃ cls' r,
    SQLModelMetaclass___init__ Hero_with_teams []
    = mret (cls', DeclarativeMeta___init__)
    ∧ cls_attrs cls' !! "teams" = Some (AttrRelationship r)
    ∧ cls_attrs cls' !! "name" = None.
Proof.
  destruct (SQLModelMetaclass___init__ Hero_with_teams []) as [e|[cls' init]]
    eqn:Hinit.
  { vm_compute in Hinit. discriminate Hinit. }
  destruct (SQLModelMetaclass___init___binds_relationships Hero_with_teams
              [] cls' init eq_refl Hinit) as [Hin Hout].
  destruct (Hin "teams") as [r Hr].
  { apply list_elem_of_singleton. reflexivity. }
  exists cls', r.
  assert (init = DeclarativeMeta___init__) as ->
    by (vm_compute in Hinit; congruence).
  split; [reflexivity|]. split; [done|].
  rewrite Hout; [reflexivity|].
  intros H. apply list_elem_of_singleton in H. discriminate H.
Defined.

(** X22: The wiring loop of [SQLModelMetaclass.__init__] completes without
    error when every relationship it visits carries an explicit override,
    whatever the annotations of the class are (there may be none): it
    reads and rewrites no annotation. *)
Lemma wiring_overrides_never_raise items cls :
  Forall (λ item : string * RelationshipInfo, sa_relationship item.2 ≠ None)
    items →
  ∃ cls',
    for_each wire_relationship items cls = mret cls'
    ∧ __annotations__ cls' = __annotations__ cls.
Proof.
  revert cls. induction items as [|[name rel_info] items IH];
    intros cls Hall; [by exists cls|].
  apply Forall_cons in Hall as [Hitem Hall]. cbn in Hitem.
  destruct (sa_relationship rel_info) as [override|] eqn:Ho; [|done].
  cbn [for_each]. rewrite (wire_relationship_override _ _ _ _ Ho). cbn.
  destruct (IH (class_setattr cls name (AttrRelationship override)) Hall)
    as (cls' & -> & Hsame).
  by exists cls'.
Qed.

Lemma wiring_overrides_never_raise_witness :
  ∃ cls',
    for_each wire_relationship (__sqlmodel_relationships__ Team_with_override)
      Team_with_override
    = mret cls'
    ∧ __annotations__ cls' = ∅.
Proof.
  apply (wiring_overrides_never_raise
           (__sqlmodel_relationships__ Team_with_override)
           Team_with_override).
  repeat constructor. discriminate.
Defined.

(** ** Further properties of attribute writes *)

Section setattr_more.

Variable is_instrumented : Instance → string → bool.
Variable validate_assignment : ModelClass → string → pyval → result pyval.

Lemma setattr_class self name value :
  __class__ (SQLModel___setattr__ is_instrumented validate_assignment
               self name value).1
  = __class__ self.
Proof.
  unfold SQLModel___setattr__, BaseModel___setattr__.
  case_bool_decide; [done|].
  destruct (_ && _); cbn; case_bool_decide; cbn; try done;
    by destruct (validate_assignment _ _ _).
Qed.

(** X23: On an instance of a class that is not storage-backed no write ever
    reaches the mapping layer. *)
Lemma setattr_data_model_no_mapping_write self name value :
  ¬ storage_backed (__class__ self) →
  trace (SQLModel___setattr__ is_instrumented validate_assignment
           self name value).1
  = trace self
    ++ (if bool_decide (name = "_sa_instance_state") then []
        else if bool_decide (name ∈ relationship_names (__class__ self))
        then []
        else [ValidationWrite name value]).
Proof.
  unfold storage_backed. intros Ht%not_true_is_false.
  unfold SQLModel___setattr__. case_bool_decide; [by rewrite app_nil_r|].
  rewrite Ht. cbn. unfold relationship_names.
  destruct (decide (name ∈ (__sqlmodel_relationships__ (__class__ self)).*1))
    as [Hrel|Hrel].
  - rewrite bool_decide_eq_false_2 by (intros Hno; by apply Hno).
    rewrite bool_decide_eq_true_2 by done. cbn. by rewrite app_nil_r.
  - rewrite bool_decide_eq_true_2 by done.
    rewrite bool_decide_eq_false_2 by done.
    apply BaseModel___setattr___trace.
Qed.

(** X24: Fields-set bookkeeping: a write adds the name to the fields-set
    exactly when it went through the validation layer, was accepted, and
    the name is a field name, not a private one; relationship writes, the
    reserved attribute, private names and rejected values leave the
    fields-set as it is. *)
Lemma setattr_fields_set self name value :
  let out := SQLModel___setattr__ is_instrumented validate_assignment
               self name value in
  __fields_set__ out.1
  = (if bool_decide (name ≠ "_sa_instance_state"
                     ∧ (name ∉ relationship_names (__class__ self))
                     ∧ out.2 = None
                     ∧ pydantic.is_valid_field_name name = true)
     then {[name]} ∪ __fields_set__ self
     else __fields_set__ self).
Proof.
  cbn. unfold SQLModel___setattr__, relationship_names.
  case_bool_decide as Hname.
  { subst. cbn. by rewrite bool_decide_eq_false_2 by (intros [? _]; done). }
  set (self1 := if _ && _ then _ else _).
  assert (__fields_set__ self1 = __fields_set__ self
          ∧ __class__ self1 = __class__ self) as [Hfs Hcls]
    by (subst self1; by destruct (_ && _)).
  rewrite Hcls. case_bool_decide as Hrel; cbn.
  - unfold BaseModel___setattr__. cbn.
    destruct (validate_assignment _ _ _); cbn.
    + rewrite bool_decide_eq_false_2 by (intros (_ & _ & ? & _); done). done.
    + rewrite Hfs. destruct (pydantic.is_valid_field_name name) eqn:Hvalid.
      * by rewrite bool_decide_eq_true_2.
      * by rewrite bool_decide_eq_false_2 by (intros (_ & _ & _ & ?); done).
  - rewrite bool_decide_eq_false_2 by (intros (_ & ? & _); done). done.
Qed.

(** X25: Writes are not transactional: when the validation layer rejects the
    value of an instrumented attribute of a storage-backed instance, the
    exception is raised while the mapping layer has already stored the
    unvalidated value. *)
Lemma setattr_rejected_keeps_mapping_write self name value e :
  storage_backed (__class__ self) →
  name ≠ "_sa_instance_state" →
  name ∉ relationship_names (__class__ self) →
  is_instrumented self name = true →
  validate_assignment (__class__ self) name value = raise e →
  let out := SQLModel___setattr__ is_instrumented validate_assignment
               self name value in
  out.2 = Some e
  ∧ __dict__ out.1 !! name = Some value
  ∧ __fields_set__ out.1 = __fields_set__ self.
Proof.
  intros Ht Hname Hrel Hins Hval. cbn.
  rewrite setattr_instrumented_field by done.
  unfold BaseModel___setattr__. cbn. rewrite Hval. cbn.
  by rewrite lookup_insert_eq.
Qed.

(** X26: When the validation layer accepts, the instance holds the validated
    value, which replaces the one the mapping layer stored. *)
Lemma setattr_accepted_stores_validated self name value value' :
  name ≠ "_sa_instance_state" →
  name ∉ relationship_names (__class__ self) →
  validate_assignment (__class__ self) name value = mret value' →
  let out := SQLModel___setattr__ is_instrumented validate_assignment
               self name value in
  out.2 = None ∧ __dict__ out.1 !! name = Some value'.
Proof.
  intros Hname Hrel Hval. cbn. unfold SQLModel___setattr__.
  rewrite bool_decide_eq_false_2 by done.
  set (self1 := if _ && _ then _ else _).
  assert (__class__ self1 = __class__ self) as Hcls
    by (subst self1; by destruct (_ && _)).
  rewrite Hcls. rewrite bool_decide_eq_true_2 by done.
  unfold BaseModel___setattr__. cbn. rewrite Hcls, Hval. cbn.
  by rewrite lookup_insert_eq.
Qed.

End setattr_more.

Lemma setattr_data_model_no_mapping_write_witness :
  trace (SQLModel___setattr__ all_instrumented accept_assignment
           (SQLModel___new__ Hero_data_model) "name" (PyStr "Rusty")).1
  = [ValidationWrite "name" (PyStr "Rusty")].
Proof.
  apply (setattr_data_model_no_mapping_write all_instrumented
           accept_assignment (SQLModel___new__ Hero_data_model) "name"
           (PyStr "Rusty")).
  discriminate.
Defined.

Lemma setattr_rejected_keeps_mapping_write_witness :
  let out := SQLModel___setattr__ all_instrumented reject_assignment
               (SQLModel___new__ Hero_with_team) "name" (PyInt 3) in
  out.2 = Some (ValidationError [ErrorItem "name" "rejected"])
  ∧ __dict__ out.1 !! "name" = Some (PyInt 3)
  ∧ __fields_set__ out.1 = ∅.
Proof.
  apply (setattr_rejected_keeps_mapping_write all_instrumented
           reject_assignment (SQLModel___new__ Hero_with_team) "name"
           (PyInt 3)); try reflexivity; [discriminate|].
  intros H. apply list_elem_of_singleton in H. discriminate H.
Defined.

Lemma setattr_accepted_stores_validated_witness :
  let out := SQLModel___setattr__ all_instrumented accept_assignment
               (SQLModel___new__ Hero_with_team) "name" (PyStr "Rusty") in
  out.2 = None ∧ __dict__ out.1 !! "name" = Some (PyStr "Rusty").
Proof.
  apply (setattr_accepted_stores_validated all_instrumented
           accept_assignment (SQLModel___new__ Hero_with_team) "name"
           (PyStr "Rusty") (PyStr "Rusty")); [discriminate| |reflexivity].
  intros H. apply list_elem_of_singleton in H. discriminate H.
Defined.

(** ** Further properties of keyword construction *)

Section init_more.

Variable is_instrumented : Instance → string → bool.
Variable validate_assignment : ModelClass → string → pyval → result pyval.
Variable validate_model :
  ModelClass → gmap string pyval →
  list (string * pyval) * gset string * option exn.
Variable BaseModel___init__ :
  ModelClass → gmap string pyval → result (gmap string pyval * gset string).

Lemma setattr_each_class items self :
  __class__ (setattr_each is_instrumented validate_assignment items self).1
  = __class__ self.
Proof.
  revert self. induction items as [|item items IH]; intros self; cbn; [done|].
  pose proof (setattr_class is_instrumented validate_assignment self
                item.1 item.2) as Hcls.
  destruct (SQLModel___setattr__ _ _ self item.1 item.2) as [self' [e|]];
    cbn in *; [done|].
  by rewrite IH.
Qed.

(** Writing a relationship attribute never raises and leaves the instance
    unchanged but for one mapping-layer write, or one entry of [__dict__]
    for the reserved name. *)
Lemma setattr_relationship_cases self name value :
  name ∈ relationship_names (__class__ self) →
  SQLModel___setattr__ is_instrumented validate_assignment self name value
  = (dict_setitem self name value, None)
  ∨ SQLModel___setattr__ is_instrumented validate_assignment self name value
    = (set_attribute self name value, None)
  ∨ SQLModel___setattr__ is_instrumented validate_assignment self name value
    = (self, None).
Proof.
  intros Hrel. unfold SQLModel___setattr__.
  case_bool_decide; [by left|]. right.
  destruct (_ && _); cbn;
    rewrite bool_decide_eq_false_2 by (intros Hno; by apply Hno); auto.
Qed.

Lemma setattr_each_relationships items self data :
  Forall (λ item, item.1 ∈ relationship_names (__class__ self)
                  ∧ data !! item.1 = Some item.2) items →
  let out := setattr_each is_instrumented validate_assignment items self in
  out.2 = None
  ∧ __fields_set__ out.1 = __fields_set__ self
  ∧ (∃ events,
       trace out.1 = trace self ++ events
       ∧ Forall (relationship_write (__class__ self) data) events)
  ∧ (∀ key, key ∉ items.*1 → __dict__ out.1 !! key = __dict__ self !! key).
Proof.
  cbn. revert self. induction items as [|item items IH]; intros self Hall.
  { cbn. repeat split; try done. exists []. by rewrite app_nil_r. }
  apply Forall_cons in Hall as [[Hrel Hdata] Hall]. cbn [setattr_each].
  assert (∃ self',
    SQLModel___setattr__ is_instrumented validate_assignment self item.1 item.2
    = (self', None)
    ∧ __class__ self' = __class__ self
    ∧ __fields_set__ self' = __fields_set__ self
    ∧ (trace self' = trace self
       ∨ trace self' = trace self ++ [MappingWrite item.1 item.2])
    ∧ (∀ key, key ≠ item.1 → __dict__ self' !! key = __dict__ self !! key))
    as (self' & -> & Hcls & Hfs & Htrace & Hdict).
  { destruct (setattr_relationship_cases self item.1 item.2 Hrel)
      as [->|[->| ->]]; eexists; (split; [reflexivity|]); cbn;
      repeat split; auto; intros key Hne; by rewrite ?lookup_insert_ne. }
  rewrite <- Hcls in Hall.
  destruct (IH self' Hall) as (Hnone & Hfs' & (events & Hev & Hevs) & Hdict').
  rewrite Hcls in Hevs.
  split; [done|]. split; [by rewrite Hfs'|]. split.
  - destruct Htrace as [Ht|Ht]; rewrite Hev, Ht.
    + by exists events.
    + exists (MappingWrite item.1 item.2 :: events).
      rewrite <- app_assoc. split; [done|].
      apply Forall_cons. split; [|done]. by exists item.1, item.2.
  - intros key Hkey. cbn in Hkey. apply not_elem_of_cons in Hkey as [Hne Hkey].
    rewrite Hdict' by done. by apply Hdict.
Qed.

Lemma set_relationships_effects keys self data :
  keys ⊆ data →
  let out := set_relationships is_instrumented validate_assignment keys self in
  out.2 = None
  ∧ __fields_set__ out.1 = __fields_set__ self
  ∧ (∃ events,
       trace out.1 = trace self ++ events
       ∧ Forall (relationship_write (__class__ self) data) events)
  ∧ (∀ key, key ∉ relationship_names (__class__ self) →
            __dict__ out.1 !! key = __dict__ self !! key).
Proof.
  intros Hsub. cbn. unfold set_relationships.
  set (items := filter _ _).
  assert (Forall (λ item, item.1 ∈ relationship_names (__class__ self)
                          ∧ data !! item.1 = Some item.2) items) as Hall.
  { apply Forall_forall. intros [k v] Hin. subst items.
    apply list_elem_of_filter in Hin as [Hrel Hin]. split; [done|].
    apply elem_of_map_to_list in Hin. cbn.
    by eapply lookup_weaken. }
  destruct (setattr_each_relationships items self data Hall)
    as (H1 & H2 & H3 & H4).
  repeat split; try done.
  intros key Hkey. apply H4. intros Hin. apply Hkey.
  apply list_elem_of_fmap in Hin as ([k v] & -> & Hin). subst items.
  by apply list_elem_of_filter in Hin as [Hrel _].
Qed.

(** The assignment to [__dict__] of an instance whose mapping layer does
    not instrument that name: the dictionary is replaced and the
    validation layer sees one write. *)
Lemma setattr___dict___effect self value :
  "__dict__" ∉ relationship_names (__class__ self) →
  is_instrumented self "__dict__" = false →
  SQLModel___setattr_____dict__ is_instrumented self value
  = mkInstance (__class__ self) value (__fields_set__ self)
      (trace self ++ [ValidationWrite "__dict__" (PyObject "dict")]).
Proof.
  intros Hrel Hins. unfold SQLModel___setattr_____dict__.
  rewrite Hins, andb_false_r. by rewrite bool_decide_eq_true_2.
Qed.

(** Writing relationships that the mapping layer instruments: one
    mapping-layer write each, in order, and nothing else. *)
Lemma setattr_each_instrumented_relationships items self :
  storage_backed (__class__ self) →
  "_sa_instance_state" ∉ relationship_names (__class__ self) →
  (∀ m name, __class__ m = __class__ self →
     name ∈ relationship_names (__class__ self) →
     is_instrumented m name = true) →
  Forall (λ item : string * pyval,
            item.1 ∈ relationship_names (__class__ self)) items →
  ∃ self',
    setattr_each is_instrumented validate_assignment items self
    = (self', None)
    ∧ __class__ self' = __class__ self
    ∧ __fields_set__ self' = __fields_set__ self
    ∧ trace self'
      = trace self ++ ((λ kv, MappingWrite kv.1 kv.2) <$> items)
    ∧ (∀ key, key ∉ items.*1 → __dict__ self' !! key = __dict__ self !! key)
    ∧ (NoDup items.*1 →
       ∀ key value, (key, value) ∈ items →
         __dict__ self' !! key = Some value).
Proof.
  revert self. induction items as [|[name value] items IH];
    intros self Ht Hreserved Hins Hall.
  { exists self. cbn. rewrite app_nil_r. repeat split; try done.
    intros _ key v Hin. by apply elem_of_nil in Hin. }
  apply Forall_cons in Hall as [Hrel Hall]. cbn in Hrel.
  cbn [setattr_each fst snd].
  rewrite (setattr_relationship is_instrumented validate_assignment self
             name value Ht) by (done || by intros ->).
  rewrite (Hins self name eq_refl Hrel).
  destruct (IH (set_attribute self name value) Ht Hreserved Hins Hall)
    as (self' & -> & Hcls & Hfs & Htrace & Hother & Hgiven).
  exists self'. split; [done|]. split; [done|]. split; [done|]. split.
  { rewrite Htrace. cbn. by rewrite <- app_assoc. }
  split.
  - intros key [Hne Hkey]%not_elem_of_cons. rewrite Hother by done.
    cbn. by rewrite lookup_insert_ne.
  - intros [Hfresh Hnodup]%NoDup_cons key v [[= -> ->]|Hin]%elem_of_cons.
    + rewrite Hother by done. cbn. by rewrite lookup_insert_eq.
    + by apply Hgiven.
Qed.


(** pydantic 1 branch: after a successful construction the fields-set is
    the one [validate_model] computed, not the names the construction wrote
    through [__setattr__]. *)
Lemma init_v1_fields_set self data values fields_set validation_error :
  validate_model (__class__ self) data
  = (values, fields_set, validation_error) →
  let out := SQLModel___init__ is_instrumented validate_assignment
               validate_model BaseModel___init__ false self data in
  out.2 = None →
  __fields_set__ out.1 = fields_set.
Proof.
  intros Hv. cbn. unfold SQLModel___init__. rewrite Hv.
  destruct (if negb _ then validation_error else None); [discriminate|].
  destruct (setattr_each _ _ values self) as [self1 [e|]] eqn:Hvalues;
    [discriminate|].
  intros _.
  match goal with
  | |- context [set_relationships _ _ ?keys ?self2] =>
      destruct (set_relationships_effects keys self2 data) as (_ & H2 & _)
  end.
  { apply map_filter_subseteq. }
  done.
Qed.

(** X28: [from_orm] raises the validation error of [validate_model] for every
    class, storage-backed or not, unlike keyword construction. *)
Lemma from_orm_raises_validation_error
    cls custom_root_type obj decomposed update values fields_set e :
  truthy (compat.get_config_value cls "orm_mode" (PyBool false)) = true →
  (∀ cls name value, raises (validate_assignment cls name value) = false) →
  validate_model cls
    (from_option (λ update, update ∪ (if custom_root_type : bool
                                      then {[ "__root__" := obj ]}
                                      else decomposed))
       (if custom_root_type then {[ "__root__" := obj ]} else decomposed)
       update)
  = (values, fields_set, Some e) →
  from_orm is_instrumented validate_assignment validate_model
    BaseModel___init__ cls custom_root_type obj decomposed update
  = raise e.
Proof.
  intros Horm Hacc Hv. unfold from_orm. rewrite Horm. cbn.
  assert (∃ m,
    (if negb (truthy (compat.get_config_value cls "table" (PyBool false)))
     then mret (SQLModel___new__ cls)
     else construct_empty is_instrumented validate_assignment validate_model
            BaseModel___init__ cls) = inr m) as [m ->].
  { destruct (truthy (compat.get_config_value cls "table" (PyBool false)))
      eqn:Ht; cbn; [|by eexists].
    unfold construct_empty.
    pose proof (init_v1_table_never_raises is_instrumented
                  validate_assignment validate_model BaseModel___init__
                  (SQLModel___new__ cls) ∅ Ht Hacc) as Hnone.
    destruct (SQLModel___init__ _ _ _ _ false (SQLModel___new__ cls) ∅)
      as [m [e'|]]; [discriminate Hnone|by eexists]. }
  cbn. destruct update as [update|]; cbn in Hv; by rewrite Hv.
Qed.

End init_more.


Lemma init_v1_fields_set_witness :
  __fields_set__
    (SQLModel___init__ all_instrumented accept_assignment
       accept_validate_model accept_BaseModel___init__ false
       (SQLModel___new__ Hero_with_team) hero_data).1
  = {[ "name" ]}.
Proof.
  rewrite (init_v1_fields_set all_instrumented accept_assignment
             accept_validate_model accept_BaseModel___init__
             (SQLModel___new__ Hero_with_team) hero_data _ _ _ eq_refl
             eq_refl).
  reflexivity.
Defined.

Lemma from_orm_raises_validation_error_witness :
  from_orm all_instrumented accept_assignment example_validate_model
    example_BaseModel___init__
    (mkModelClass "Hero"
       (Some {[ "table" := PyBool true; "orm_mode" := PyBool true ]})
       [] ∅ [] ∅)
    false PyNone bad_hero_data None
  = raise (ValidationError
             [ErrorItem "age" "value is not a valid integer";
              ErrorItem "name" "str type expected"]).
Proof.
  apply (from_orm_raises_validation_error all_instrumented accept_assignment
           example_validate_model example_BaseModel___init__ _ false PyNone
           bad_hero_data None [] ∅); reflexivity.
Defined.

(** ** Further properties of the exported keys *)

Local Set Warnings "-clear-no-such-hyp".

(** X29: [_calculate_keys] never yields a name outside the validation fields
    (or outside the fields-set, with [exclude_unset]), so no relationship
    and no mapping-layer attribute; it stays within [include], drops what
    [exclude] marks with [True] or [...], and drops the keys of [update];
    but when neither [include] nor [exclude] nor [exclude_unset] is given
    it returns all field names, also those of [update]. *)
Lemma _calculate_keys_bounds self include exclude exclude_unset update :
  let keys := _calculate_keys self include exclude exclude_unset update in
  let fields_keys : gset string :=
    list_to_set (model_fields (__class__ self)).*1 in
  (exclude_unset = false → keys ⊆ fields_keys)
  ∧ (exclude_unset = true → keys ⊆ __fields_set__ self)
  ∧ (∀ included, include = Some included → keys ⊆ dom included)
  ∧ (∀ excluded key value,
       exclude = Some excluded →
       excluded !! key = Some value →
       _value_items_is_true value = true →
       key ∉ keys)
  ∧ (∀ updated key,
       update = Some updated →
       include ≠ None ∨ exclude ≠ None ∨ exclude_unset = true →
       key ∈ dom updated →
       key ∉ keys)
  ∧ (include = None → exclude = None → exclude_unset = false →
     keys = fields_keys).
Proof.
  cbn. unfold _calculate_keys.
  set (fields_keys := list_to_set (model_fields (__class__ self)).*1).
  assert (∀ (excluded : gmap string pyval) key value,
            excluded !! key = Some value →
            _value_items_is_true value = true →
            key ∈ dom (filter (λ kv : string * pyval,
                                 _value_items_is_true kv.2 = true) excluded))
    as Hfilter.
  { intros excluded key value Hk Hv. apply elem_of_dom. exists value.
    by apply map_lookup_filter_Some. }
  destruct include as [included|], exclude as [excluded|],
    exclude_unset, update as [updated|]; cbn;
    (split; [try done; intros _; set_solver|]);
    (split; [try done; intros _; set_solver|]);
    (split; [intros ? [= <-] || intros ? [=]; set_solver|]);
    (split; [try (intros ? ? ? [=]; fail);
             intros ? key value [= <-] Hk Hv;
             pose proof (Hfilter _ _ _ Hk Hv); set_solver|]);
    (split; [try (intros ? ? [=]; fail);
             intros ? key [= <-] Hany Hk;
             try (destruct Hany as [?|[?|?]]; done); set_solver|]);
    try done; try (intros [=]; fail); try (intros _ [=]; fail);
    try (intros _ _ [=]; fail).
Qed.

Lemma _calculate_keys_bounds_witness :
  _calculate_keys hero_instance None None true None ⊆ {[ "name" ]}
  ∧ "name" ∉ _calculate_keys hero_instance None
               (Some {[ "name" := PyBool true ]}) false None.
Proof.
  destruct (_calculate_keys_bounds hero_instance None None true None)
    as (_ & H & _).
  destruct (_calculate_keys_bounds hero_instance None
              (Some {[ "name" := PyBool true ]}) false None)
    as (_ & _ & _ & Hex & _).
  split; [by apply H|].
  by apply (Hex {[ "name" := PyBool true ]} "name" (PyBool true)).
Defined.

(** ** Further properties of the column binding of phase 1 *)

Lemma bind_column_success cls item cls' :
  bind_column cls item = mret cls' →
  ∃ col,
    get_column_from_field item.2 = mret col
    ∧ cls' = class_setattr cls item.1 (AttrColumn col).
Proof.
  unfold bind_column.
  destruct (get_column_from_field item.2) as [|col]; [discriminate|].
  cbn. intros [= <-]. by exists col.
Qed.

Lemma bind_column_raises cls item :
  raises (bind_column cls item) = raises (get_column_from_field item.2).
Proof. unfold bind_column. by destruct (get_column_from_field item.2). Qed.

Lemma for_each_bind_column_raises items cls :
  raises (for_each bind_column items cls) = true
  ↔ Exists (λ item, raises (get_column_from_field item.2) = true) items.
Proof.
  revert cls. induction items as [|item items IH]; intros cls.
  - split; [discriminate|]. by intros ?%Exists_nil.
  - rewrite Exists_cons, <- (bind_column_raises cls item). cbn [for_each].
    destruct (bind_column cls item) as [e|cls1]; cbn.
    + split; [by left|done].
    + rewrite IH. split; [by right|]. by intros [[=]|?].
Qed.

Lemma for_each_bind_column_success items cls cls' :
  for_each bind_column items cls = mret cls' →
  model_config cls' = model_config cls
  ∧ (∀ name, name ∉ items.*1 → cls_attrs cls' !! name = cls_attrs cls !! name)
  ∧ (NoDup items.*1 →
     ∀ name field, (name, field) ∈ items →
       ∃ col, get_column_from_field field = mret col
              ∧ cls_attrs cls' !! name = Some (AttrColumn col)).
Proof.
  revert cls. induction items as [|item items IH]; intros cls; cbn.
  { intros [= <-]. repeat split; try done.
    intros _ name field Hin. by apply elem_of_nil in Hin. }
  destruct (bind_column cls item) as [|cls1] eqn:H1; [discriminate|].
  cbn. intros Hrest.
  destruct (bind_column_success _ _ _ H1) as (col & Hcol & ->).
  destruct (IH _ Hrest) as (Hconfig & Hother & Hbound).
  split; [done|]. split.
  - intros name [Hne Hname]%not_elem_of_cons.
    rewrite Hother by done. cbn. by rewrite lookup_insert_ne.
  - intros [Hfresh Hnodup]%NoDup_cons name field
      [<-|Hin]%elem_of_cons; [|by apply Hbound].
    exists col. split; [done|]. cbn in Hfresh.
    rewrite Hother by done. cbn. by rewrite lookup_insert_eq.
Qed.


